(** * The OCI remote resource loader of docker compose (pkg/remote/oci.go)

    A shallow embedding of [ociRemoteLoader] and of the functions it is made
    of: [ociRemoteLoaderEnabled], [Accept], [Load], [Dir], [pullComposeFiles],
    [writeComposeFile] and [writeEnvFile].

    The Go code reads the process environment, talks to a registry through a
    resolver and writes files.  All of that is explicit state here: a [World]
    holds the environment, the file system, the loader's [known] map and the
    list of references the resolver was asked for, and every function of the
    source is a computation of the monad [M], which threads the world and
    ends in a value, a Go [error] or a panic. *)

From Stdlib Require Import String Ascii List Lia.
From Stdlib.Strings Require Import Byte.
From stdpp Require Import base option list gmap strings sets.

Open Scope string_scope.

(** ** Values of the Go program *)

(** [[]byte] *)
Abbreviation bytes := (list byte).

(** [syscall.Errno], the three values the file-system model produces. *)
Inductive Errno := ENOENT | ENOTDIR | EISDIR.

(** Go [error] values.  The four errors built by [fmt.Errorf] in oci.go have
    a constructor each; [NumError] is [*strconv.NumError] with
    [strconv.ErrSyntax], [PathError] is [*fs.PathError], and [LibError] stands
    for the errors of the packages the loader only calls (reference,
    storeutil, imagetools, encoding/json). *)
Inductive error :=
| NumError (fn num : string)
| ExpectsBoolean (err : error)
| Disabled
| CacheInit (err : error)
| NotComposeArtifact (ref artifactType : string)
| MissingEnvfile (digest : string)
| PathError (op path : string) (errno : Errno)
| LibError (msg : string).

(** A Go result pair [(a, err)]. *)
Inductive result (A : Type) :=
| Success (a : A)
| Failure (e : error).
Arguments Success {A} a.
Arguments Failure {A} e.

(** [v1.Descriptor]: the fields oci.go reads. *)
Record Descriptor := {
  MediaType : string;
  Digest : string;
  Annotations : gmap string string
}.

(** [v1.Manifest]: the fields oci.go reads. *)
Record Manifest := {
  ArtifactType : string;
  Config : Descriptor;
  Layers : list Descriptor
}.

(** [*os.File]: the name the file was opened under and the offset of the next
    write.  The offset is the only part of an open file the loader changes, so
    the functions that write return the file they were given, advanced. *)
Record File := {
  fname : string;
  offset : nat
}.

(** ** What the loader is linked against

    Constants and functions of other packages.  oci.go fixes none of them, so
    they are parameters of the development: the four media-type constants of
    internal/ocipush, [strconv.Quote] (the [%q] verb), the reference package,
    the registry configuration and resolver, [cacheDir] (pkg/remote/cache.go,
    taken as the directory it provides), [json.Unmarshal] into a
    [v1.Manifest], and [filepath.Join].

    Nothing is assumed of the constants here.  Where a theorem needs two of
    the media types to differ, or the artifact type not to be empty, it says
    so: the three media types are the cases of one [switch], which Go does
    not compile when two constant cases are equal. *)
Class Externals := {
  ComposeProjectArtifactType : string;
  ComposeYAMLMediaType : string;
  ComposeEnvFileMediaType : string;
  ComposeEmptyConfigMediaType : string;
  Quote : string → string;
  Named : Type;
  ParseDockerRef : string → result Named;
  Named_String : Named → string;
  WithDigest : Named → string → result Named;
  Cli : Type;
  Opt : Type;
  GetImageConfig : Cli → result Opt;
  Resolver_Get : Opt → string → result (bytes * Descriptor);
  cacheDir : result string;
  Unmarshal : bytes → result Manifest;
  Join : string → string → string
}.

(** ** The world *)

Record World := {
  env : gmap string string;
  dirs : gset string;
  files : gmap string bytes;
  known : gmap string string;
  gets : list string
}.

Definition set_fs (d : gset string) (f : gmap string bytes) (w : World) : World :=
  {| env := env w; dirs := d; files := f; known := known w; gets := gets w |}.

Definition set_known (k : gmap string string) (w : World) : World :=
  {| env := env w; dirs := dirs w; files := files w; known := k; gets := gets w |}.

Definition log_get (r : string) (w : World) : World :=
  {| env := env w; dirs := dirs w; files := files w; known := known w;
     gets := gets w ++ [r] |}.

(** ** The monad of loader computations *)

Inductive outcome (A : Type) :=
| Ok (a : A)
| Err (e : error)
| Panic (msg : string).
Arguments Ok {A} a.
Arguments Err {A} e.
Arguments Panic {A} msg.

Definition M (A : Type) : Type := World → outcome A * World.

Definition ret {A} (a : A) : M A := λ w, (Ok a, w).
Definition throw {A} (e : error) : M A := λ w, (Err e, w).
Definition panic {A} (msg : string) : M A := λ w, (Panic msg, w).

Definition bind {A B} (m : M A) (k : A → M B) : M B :=
  λ w, match m w with
       | (Ok a, w') => k a w'
       | (Err e, w') => (Err e, w')
       | (Panic msg, w') => (Panic msg, w')
       end.

Definition lift {A} (r : result A) : M A :=
  match r with
  | Success a => ret a
  | Failure e => throw e
  end.

Declare Scope go_scope.
Delimit Scope go_scope with go.
Notation "x <- c ;; k" := (bind c (λ x, k))
  (at level 100, c at next level, right associativity) : go_scope.
Notation "c ;;; k" := (bind c (λ _, k))
  (at level 100, right associativity) : go_scope.
Open Scope go_scope.

Definition catch {A} (m : M A) (h : error → M A) : M A :=
  λ w, match m w with
       | (Err e, w') => h e w'
       | r => r
       end.

(** ** The packages [os], [strconv], [strings] and [digest]

    The file system is a set of directories and a map from file names to
    contents.  Names are compared as strings; a name lies under a directory
    when it extends the directory's name by a slash and more.  The operations
    fail for the structural reasons of their system calls (a missing parent,
    a file where a directory is needed, a directory where a file is needed);
    permissions, quotas and device errors are not part of the model, so a
    write to an open file and a recursive removal always succeed.  Names are
    taken as they are given: [filepath.Join], which cleans them, is a
    parameter. *)

(** [os.Getenv]: the value, or the empty string when the variable is unset. *)
Definition os_Getenv (key : string) : M string :=
  λ w, (Ok (default "" (env w !! key)), w).

(** [strconv.ParseBool] *)
Definition ParseBool (str : string) : result bool :=
  if bool_decide (str ∈ ["1"; "t"; "T"; "true"; "TRUE"; "True"]) then Success true
  else if bool_decide (str ∈ ["0"; "f"; "F"; "false"; "FALSE"; "False"]) then Success false
  else Failure (NumError "ParseBool" str).

(** [strings.HasPrefix s prefix] *)
Definition HasPrefix (s prefix : string) : bool := String.prefix prefix s.

(** The slice expression [s[n:]]: [None] when [n] exceeds the length of [s],
    where Go panics. *)
Fixpoint slice_from (s : string) (n : nat) : option string :=
  match n, s with
  | 0, _ => Some s
  | S n', String _ s' => slice_from s' n'
  | S _, EmptyString => None
  end.

(** [digest.Digest.Hex]: what follows the first colon; [None] when there is no
    colon, where the method panics. *)
Fixpoint Hex (d : string) : option string :=
  match d with
  | EmptyString => None
  | String c d' => if Ascii.eqb c ":" then Some d' else Hex d'
  end.

(** The proper ancestors of a name, outermost first: its prefixes that end
    just before a slash. *)
Fixpoint ancestors_from (pre s : string) : list string :=
  match s with
  | EmptyString => []
  | String c s' =>
      (if Ascii.eqb c "/" && negb (String.eqb pre "") then [pre] else [])
      ++ ancestors_from (pre ++ String c EmptyString) s'
  end.

Definition ancestors (name : string) : list string := ancestors_from "" name.

Definition under (dir name : string) : bool :=
  String.eqb name dir || String.prefix (dir ++ "/") name.

Definition is_dir (w : World) (name : string) : bool := bool_decide (name ∈ dirs w).
Definition is_file (w : World) (name : string) : bool :=
  bool_decide (is_Some (files w !! name)).

(** What [os.Stat] has to say of a name, as far as its error goes; [None] is
    Go's [nil].  The name is looked up through its ancestors, so a file among
    them makes the error [ENOTDIR], not [ENOENT]. *)
Definition stat (w : World) (name : string) : option error :=
  if String.eqb name "" then Some (PathError "stat" name ENOENT)
  else if existsb (is_file w) (ancestors name) then Some (PathError "stat" name ENOTDIR)
  else if is_dir w name || is_file w name then None
  else Some (PathError "stat" name ENOENT).

(** [os.Stat] *)
Definition os_Stat (name : string) : M (option error) :=
  λ w, (Ok (stat w name), w).

(** [os.IsNotExist] *)
Definition IsNotExist (err : option error) : bool :=
  match err with
  | Some (PathError _ _ ENOENT) => true
  | _ => false
  end.

(** [os.MkdirAll]: the directory and its missing ancestors come to exist. *)
Definition os_MkdirAll (name : string) : M unit :=
  λ w, if String.eqb name "" then (Err (PathError "mkdir" name ENOENT), w)
       else match List.find (is_file w) (ancestors name ++ [name]) with
            | Some p => (Err (PathError "mkdir" p ENOTDIR), w)
            | None =>
                (Ok tt, set_fs (list_to_set (ancestors name ++ [name]) ∪ dirs w) (files w) w)
            end.

(** [os.Create]: the file is created, or truncated when it exists, and opened
    at offset 0. *)
Definition os_Create (name : string) : M File :=
  λ w, if String.eqb name "" then (Err (PathError "open" name ENOENT), w)
       else if is_dir w name then (Err (PathError "open" name EISDIR), w)
       else match List.last (map Some (ancestors name)) None with
            | Some p =>
                if is_dir w p then
                  (Ok {| fname := name; offset := 0 |},
                   set_fs (dirs w) (<[name := []]> (files w)) w)
                else if is_file w p then (Err (PathError "open" name ENOTDIR), w)
                else (Err (PathError "open" name ENOENT), w)
            | None =>
                (Ok {| fname := name; offset := 0 |},
                 set_fs (dirs w) (<[name := []]> (files w)) w)
            end.

(** The content of a file after [b] is written at offset [off].  A write of
    no bytes leaves the file as it is, wherever the offset is.  Otherwise the
    bytes replace what was there from [off] on, and a gap between the old end
    and [off] reads as zero bytes. *)
Definition write_at (old : bytes) (off : nat) (b : bytes) : bytes :=
  match b with
  | [] => old
  | _ :: _ =>
      take off old ++ replicate (off - length old) x00 ++ b ++ drop (off + length b) old
  end.

(** [Write] of an [os.File]: the bytes go to the file at the offset of [f],
    which advances.  The loader removes nothing while a file is open, so the
    name of [f] is in [files]. *)
Definition File_Write (f : File) (b : bytes) : M File :=
  λ w, (Ok {| fname := fname f; offset := offset f + length b |},
        set_fs (dirs w)
               (<[fname f := write_at (default [] (files w !! fname f)) (offset f) b]> (files w))
               w).

(** [os.RemoveAll]: the name and everything under it cease to exist; the empty
    name is left alone. *)
Definition os_RemoveAll (name : string) : M unit :=
  λ w, if String.eqb name "" then (Ok tt, w)
       else (Ok tt, set_fs (filter (λ p, under name p = false) (dirs w))
                           (filter (λ kv, under name kv.1 = false) (files w)) w).

(** ** pkg/remote/oci.go *)

Definition OCI_REMOTE_ENABLED : string := "COMPOSE_EXPERIMENTAL_OCI_REMOTE".
Definition OciPrefix : string := "oci://".

(** The YAML document separator of [writeComposeFile], the bytes of
    ["\n---\n"]. *)
Definition separator : bytes := [x0a; x2d; x2d; x2d; x0a].

Definition ociRemoteLoaderEnabled : M bool :=
  v <- os_Getenv OCI_REMOTE_ENABLED ;;
  if negb (String.eqb v "") then
    match ParseBool v with
    | Failure err => throw (ExpectsBoolean err)
    | Success enabled => ret enabled
    end
  else ret true.

Section Loader.
Context `{Externals}.

(** The text of an error, [err.Error()]. *)
Fixpoint Error (e : error) : string :=
  match e with
  | NumError fn num => "strconv." ++ fn ++ ": parsing " ++ Quote num ++ ": invalid syntax"
  | ExpectsBoolean err =>
      "COMPOSE_EXPERIMENTAL_OCI_REMOTE environment variable expects boolean value: "
      ++ Error err
  | Disabled => "OCI remote resource is disabled by " ++ Quote OCI_REMOTE_ENABLED
  | CacheInit err => "initializing remote resource cache: " ++ Error err
  | NotComposeArtifact ref artifactType =>
      ref ++ " is not a compose project OCI artifact, but " ++ artifactType
  | MissingEnvfile digest =>
      "missing annotation com.docker.compose.envfile in layer " ++ Quote digest
  | PathError op path errno =>
      op ++ " " ++ path ++ ": " ++
      match errno with
      | ENOENT => "no such file or directory"
      | ENOTDIR => "not a directory"
      | EISDIR => "is a directory"
      end
  | LibError msg => msg
  end.

(** [ociRemoteLoader].  The field [known] is a Go map, a reference to a table
    every copy of the loader shares; the table is [known] of the [World]. *)
Record ociRemoteLoader := {
  dockerCli : Cli;
  offline : bool
}.

(** [NewOCIRemoteLoader] makes a loader with a table of its own, which is
    empty.  A [World] holds the table of one loader, so the world that comes
    back is the world as the new loader sees it; the tables of loaders made
    before, which the call leaves as they are, are not part of it. *)
Definition NewOCIRemoteLoader (dockerCli : Cli) (offline : bool) : M ociRemoteLoader :=
  λ w, (Ok {| dockerCli := dockerCli; offline := offline |}, set_known ∅ w).

Definition Accept (g : ociRemoteLoader) (path : string) : bool :=
  HasPrefix path OciPrefix.

Definition Dir (g : ociRemoteLoader) (path : string) : M string :=
  λ w, (Ok (default "" (known w !! path)), w).

(** [Get] of an [imagetools.Resolver]: the registry answers as [Resolver_Get] says,
    and the world records that it was asked. *)
Definition resolver_Get (resolver : Opt) (ref : string) : M (bytes * Descriptor) :=
  λ w, lift (Resolver_Get resolver ref) (log_get ref w).

Definition writeComposeFile (layer : Descriptor) (i : nat) (f : File) (content : bytes)
  : M File :=
  f <- (if bool_decide (0 < i)
           && bool_decide (is_Some (Annotations layer !! "com.docker.compose.file"))
        then File_Write f separator
        else ret f) ;;
  File_Write f content.

Definition writeEnvFile (layer : Descriptor) (local : string) (content : bytes) : M unit :=
  match Annotations layer !! "com.docker.compose.envfile" with
  | None => throw (MissingEnvfile (Digest layer))
  | Some envfilePath =>
      otherFile <- os_Create (Join local envfilePath) ;;
      _ <- File_Write otherFile content ;;
      ret tt
  end.

(** What [writeComposeFile] writes before the content of the layer at
    position [i]: the condition of its [if], as the bytes it leads to. *)
Definition lead (layer : Descriptor) (i : nat) : bytes :=
  if bool_decide (0 < i)
     && bool_decide (is_Some (Annotations layer !! "com.docker.compose.file"))
  then separator else [].

(** The condition under which [pullComposeFiles] refuses a manifest. *)
Definition notComposeProject (manifest : Manifest) : bool :=
  (negb (String.eqb (ArtifactType manifest) "")
   && negb (String.eqb (ArtifactType manifest) ComposeProjectArtifactType))
  || (String.eqb (ArtifactType manifest) ""
      && negb (String.eqb (MediaType (Config manifest)) ComposeEmptyConfigMediaType)).

(** The [switch] on the layer's media type in [pullComposeFiles]: the primary
    file [f] comes back advanced by what was written to it. *)
Definition dispatchLayer (local : string) (i : nat) (layer : Descriptor) (f : File)
    (content : bytes) : M File :=
  if String.eqb (MediaType layer) ComposeYAMLMediaType then
    if bool_decide (is_Some (Annotations layer !! "com.docker.compose.extends")) then
      target <- os_Create
                  (Join local (default "" (Annotations layer !! "com.docker.compose.file"))) ;;
      _ <- writeComposeFile layer i target content ;;
      ret f
    else writeComposeFile layer i f content
  else if String.eqb (MediaType layer) ComposeEnvFileMediaType then
    writeEnvFile layer local content ;;;
    ret f
  else if String.eqb (MediaType layer) ComposeEmptyConfigMediaType then ret f
  else ret f.

(** One turn of the loop over [manifest.Layers]. *)
Definition pullLayer (local : string) (ref : Named) (resolver : Opt) (i : nat)
    (layer : Descriptor) (f : File) : M File :=
  digested <- lift (WithDigest ref (Digest layer)) ;;
  got <- resolver_Get resolver (Named_String digested) ;;
  dispatchLayer local i layer f got.1.

(** The loop [for i, layer := range manifest.Layers], from position [i] on. *)
Fixpoint pullLayers (local : string) (ref : Named) (resolver : Opt) (i : nat)
    (layers : list Descriptor) (f : File) : M unit :=
  match layers with
  | [] => ret tt
  | layer :: rest =>
      f <- pullLayer local ref resolver i layer f ;;
      pullLayers local ref resolver (S i) rest f
  end.

(** The turns of that loop for [layers], which start at position [i], as a
    computation of their own: the primary file comes back as the last turn
    left it.  [pullLayers] over a list that goes on after [layers] continues
    from there (lemma [pullLayers_app]). *)
Fixpoint turns (local : string) (ref : Named) (resolver : Opt) (i : nat)
    (layers : list Descriptor) (f : File) : M File :=
  match layers with
  | [] => ret f
  | layer :: rest =>
      f <- pullLayer local ref resolver i layer f ;;
      turns local ref resolver (S i) rest f
  end.

(** [pullComposeFiles].  The deferred [f.Close()] changes nothing the world
    records and is left out. *)
Definition pullComposeFiles (g : ociRemoteLoader) (local : string) (manifest : Manifest)
    (ref : Named) (resolver : Opt) : M unit :=
  os_MkdirAll local ;;;
  let composeFile := Join local "compose.yaml" in
  f <- os_Create composeFile ;;
  if notComposeProject manifest then
    throw (NotComposeArtifact (Named_String ref) (ArtifactType manifest))
  else pullLayers local ref resolver 0 (Layers manifest) f.

Definition Load (g : ociRemoteLoader) (path : string) : M string :=
  enabled <- ociRemoteLoaderEnabled ;;
  if negb enabled then throw Disabled
  else if offline g then ret ""
  else
    λ w,
      match known w !! path with
      | Some local => ret (Join local "compose.yaml") w
      | None =>
          (match slice_from path (String.length OciPrefix) with
           | None => panic "slice bounds out of range"
           | Some rest =>
               ref <- lift (ParseDockerRef rest) ;;
               opt <- lift (GetImageConfig (dockerCli g)) ;;
               let resolver := opt in
               got <- resolver_Get resolver (Named_String ref) ;;
               let content := got.1 in
               let descriptor := got.2 in
               cache <- catch (lift cacheDir) (λ err, throw (CacheInit err)) ;;
               match Hex (Digest descriptor) with
               | None => panic "no ':' separator in digest"
               | Some hex =>
                   let local := Join cache hex in
                   err <- os_Stat local ;;
                   (if IsNotExist err then
                      manifest <- lift (Unmarshal content) ;;
                      catch (pullComposeFiles g local manifest ref resolver)
                            (λ err, os_RemoveAll local ;;; throw err)
                    else ret tt) ;;;
                   (λ w', (Ok tt, set_known (<[path := local]> (known w')) w')) ;;;
                   ret (Join local "compose.yaml")
               end
           end) w
      end.

(** What [Load] makes of the outcome of [pullComposeFiles]: after an error
    it removes [local] and returns the error; after success it records
    [local] in [known] and returns the primary file's name. *)
Definition afterPull (path local : string) (r : outcome unit * World)
  : outcome string * World :=
  match r with
  | (Ok _, w) =>
      (Ok (Join local "compose.yaml"), set_known (<[path := local]> (known w)) w)
  | (Err err, w) => (Err err, (os_RemoveAll local w).2)
  | (Panic msg, w) => (Panic msg, w)
  end.

End Loader.

(** ** Relations between the world before and after a computation *)

(** The environment and the table of known references are as they were. *)
Definition same_table (w w' : World) : Prop :=
  env w' = env w ∧ known w' = known w.

Definition keeps {A} (m : M A) : Prop :=
  ∀ w r w', m w = (r, w') → same_table w w'.

(** The directories are as they were, and no file has appeared under the name
    of one of them. *)
Definition tidy (w w' : World) : Prop :=
  dirs w' = dirs w ∧ ∀ p, p ∈ dirs w → files w !! p = None → files w' !! p = None.

(** Only files were written: the environment, the table, the record of the
    resolver and the directories are as they were, and no file is gone. *)
Definition only_files (w w' : World) : Prop :=
  env w' = env w ∧ known w' = known w ∧ gets w' = gets w ∧ dirs w' = dirs w
  ∧ ∀ p, is_Some (files w !! p) → is_Some (files w' !! p).

(** Every path in the table of known references is at least as long as the
    scheme prefix. *)
Definition long_keys (w : World) : Prop :=
  ∀ k, is_Some (known w !! k) → (String.length OciPrefix ≤ String.length k)%nat.

(** A computation that does not panic. *)
Definition calm {A} (m : M A) : Prop := ∀ w msg w', m w ≠ (Panic msg, w').

(** ** What the loop asks for and what it writes to the primary file *)

Section Stream.
Context `{Externals}.

(** The reference [pullComposeFiles] asks the resolver for when it comes to
    [layer]: [digested.String()], where [reference.WithDigest] succeeds. *)
Definition layerRef (ref : Named) (layer : Descriptor) : option string :=
  match WithDigest ref (Digest layer) with
  | Success digested => Some (Named_String digested)
  | Failure _ => None
  end.

Definition layerRefs (ref : Named) (layers : list Descriptor) : list string :=
  omap (layerRef ref) layers.

(** The content the resolver has for [layer]. *)
Definition fetched (ref : Named) (resolver : Opt) (layer : Descriptor) : bytes :=
  match layerRef ref layer with
  | Some r =>
      match Resolver_Get resolver r with
      | Success got => got.1
      | Failure _ => []
      end
  | None => []
  end.

(** The layers the [switch] writes to the primary file: compose-YAML layers
    without the extends annotation. *)
Definition primaryLayer (layer : Descriptor) : bool :=
  String.eqb (MediaType layer) ComposeYAMLMediaType
  && negb (bool_decide (is_Some (Annotations layer !! "com.docker.compose.extends"))).

(** The name of the file the [switch] creates for [layer], if it creates
    one: the file of an extends layer, or of an env-file layer. *)
Definition target (local : string) (layer : Descriptor) : option string :=
  if String.eqb (MediaType layer) ComposeYAMLMediaType then
    if bool_decide (is_Some (Annotations layer !! "com.docker.compose.extends"))
    then Some (Join local (default "" (Annotations layer !! "com.docker.compose.file")))
    else None
  else if String.eqb (MediaType layer) ComposeEnvFileMediaType then
    Join local <$> Annotations layer !! "com.docker.compose.envfile"
  else None.

(** What the layers [layers], which start at position [i], add to the
    primary file between them. *)
Fixpoint stream (ref : Named) (resolver : Opt) (i : nat) (layers : list Descriptor)
  : bytes :=
  match layers with
  | [] => []
  | layer :: rest =>
      (if primaryLayer layer then (lead layer i ++ fetched ref resolver layer)%list else [])
      ++ stream ref resolver (S i) rest
  end.

End Stream.


(** ** A registry to run the loader on

    Concrete externals: the media types docker compose publishes, references
    that are their own string form, a registry given as a table from reference
    strings to blobs, manifests that are encoded by their name, and a
    [filepath.Join] for clean, non-empty path elements. *)
Module Fixture.

Definition dquote : string := String (ascii_of_nat 34) EmptyString.

Definition yamlType : string := "application/vnd.docker.compose.file+yaml".
Definition envType : string := "application/vnd.docker.compose.envfile".
Definition emptyType : string := "application/vnd.docker.compose.config.empty.v1+json".
Definition projectType : string := "application/vnd.docker.compose.project".

Definition layer (mediaType digest : string) (annotations : list (string * string))
  : Descriptor :=
  {| MediaType := mediaType; Digest := digest; Annotations := list_to_map annotations |}.

Definition manifest (artifactType configType : string) (layers : list Descriptor)
  : Manifest :=
  {| ArtifactType := artifactType; Config := layer configType "sha256:c0" [];
     Layers := layers |}.

Definition yaml0 : Descriptor :=
  layer yamlType "sha256:a0" [("com.docker.compose.file", "compose.yaml")].
Definition yaml1 : Descriptor :=
  layer yamlType "sha256:a1" [("com.docker.compose.file", "compose.yaml")].
Definition yamlBare : Descriptor := layer yamlType "sha256:a1" [].
Definition extends1 : Descriptor :=
  layer yamlType "sha256:a1"
        [("com.docker.compose.extends", "true"); ("com.docker.compose.file", "extra.yaml")].
Definition envNamed : Descriptor :=
  layer envType "sha256:e0" [("com.docker.compose.envfile", ".env")].
Definition envBare : Descriptor := layer envType "sha256:e0" [].
Definition unknownLayer : Descriptor := layer "application/x-other" "sha256:a0" [].
Definition emptyLayer : Descriptor := layer emptyType "sha256:a0" [].
Definition lostLayer : Descriptor := layer "application/x-other" "sha256:ff" [].

Definition noFile : Descriptor :=
  layer yamlType "sha256:a1" [("com.docker.compose.extends", "true")].

Definition twoManifest : Manifest := manifest projectType emptyType [yaml0; yaml1].
Definition extendsManifest : Manifest := manifest projectType emptyType [yaml0; extends1].
Definition envbareManifest : Manifest := manifest projectType emptyType [envBare; yaml1].
Definition envnamedManifest : Manifest := manifest projectType emptyType [envNamed].
Definition skippedManifest : Manifest := manifest projectType emptyType [unknownLayer; yaml1].
Definition legacyManifest : Manifest := manifest "" emptyType [emptyLayer; yaml1].
Definition lostManifest : Manifest := manifest projectType emptyType [lostLayer].
Definition nofileManifest : Manifest := manifest projectType emptyType [noFile].
Definition imageManifest : Manifest :=
  manifest "application/vnd.oci.image" emptyType [yaml0].

Definition manifests : list (string * Manifest) :=
  [ ("two", twoManifest); ("extends", extendsManifest); ("envbare", envbareManifest);
    ("envnamed", envnamedManifest); ("skipped", skippedManifest);
    ("legacy", legacyManifest); ("lost", lostManifest); ("nofile", nofileManifest);
    ("image", imageManifest) ].

Definition names : list string := map fst manifests.

Definition content0 : bytes := list_byte_of_string "services: {}".
Definition content1 : bytes := list_byte_of_string "volumes: {}".
Definition contentEnv : bytes := list_byte_of_string "A=1".

Definition top (name : string) : bytes * Descriptor :=
  (list_byte_of_string name, layer "application/vnd.oci.image.manifest.v1+json"
                                   ("sha256:" ++ name) []).

Definition registry : list (string * (bytes * Descriptor)) :=
  map (λ name, ("example.com/" ++ name, top name))
      names
  ++ flat_map (λ name,
       [ ("example.com/" ++ name ++ "@sha256:a0", (content0, yaml0));
         ("example.com/" ++ name ++ "@sha256:a1", (content1, yaml1));
         ("example.com/" ++ name ++ "@sha256:e0", (contentEnv, envNamed)) ])
      names.

Definition assoc {A} (k : string) (l : list (string * A)) : option A :=
  snd <$> List.find (λ kv, String.eqb kv.1 k) l.

#[local] Instance externals : Externals := {|
  ComposeProjectArtifactType := projectType;
  ComposeYAMLMediaType := yamlType;
  ComposeEnvFileMediaType := envType;
  ComposeEmptyConfigMediaType := emptyType;
  Quote := λ s, dquote ++ s ++ dquote;
  Named := string;
  ParseDockerRef := λ s,
    if String.eqb s "" then Failure (LibError "invalid reference format") else Success s;
  Named_String := λ r, r;
  WithDigest := λ r d,
    match Hex d with
    | Some _ => Success (r ++ "@" ++ d)
    | None => Failure (LibError "invalid digest format")
    end;
  Cli := unit;
  Opt := unit;
  GetImageConfig := λ _, Success ();
  Resolver_Get := λ _ ref,
    match assoc ref registry with
    | Some blob => Success blob
    | None => Failure (LibError "not found")
    end;
  cacheDir := Success "/cache";
  Unmarshal := λ b,
    match assoc (string_of_list_byte b) manifests with
    | Some m => Success m
    | None => Failure (LibError "invalid character")
    end;
  Join := λ a b, if String.eqb a "" then b else if String.eqb b "" then a else a ++ "/" ++ b
|}.

Definition online : ociRemoteLoader := {| dockerCli := (); offline := false |}.
Definition offlineLoader : ociRemoteLoader := {| dockerCli := (); offline := true |}.

(** A fresh process: nothing on disk but the cache root, nothing known. *)
Definition world (environment : list (string * string)) : World :=
  {| env := list_to_map environment; dirs := {["/cache"]}; files := ∅; known := ∅;
     gets := [] |}.

(** The directory of the artifact [name] in the cache, the primary file as
    [pullComposeFiles] opens it there, and the world at that moment. *)
Definition cached (name : string) : string := "/cache/" ++ name.
Definition primary (name : string) : File :=
  {| fname := cached name ++ "/compose.yaml"; offset := 0 |}.
Definition started (name : string) : World :=
  (os_Create (cached name ++ "/compose.yaml") (os_MkdirAll (cached name) (world [])).2).2.

End Fixture.

Import Fixture.

(** ** Further cases to run

    A second set of externals, whose registry configuration is missing for
    the client [false] and which has no cache directory; layers that go
    wrong; and a world whose cache holds the directory of an artifact. *)
Module Cases.

Definition offgrid : Externals := {|
  ComposeProjectArtifactType := projectType;
  ComposeYAMLMediaType := yamlType;
  ComposeEnvFileMediaType := envType;
  ComposeEmptyConfigMediaType := emptyType;
  Quote := @Quote externals;
  Named := string;
  ParseDockerRef := @ParseDockerRef externals;
  Named_String := λ r, r;
  WithDigest := @WithDigest externals;
  Cli := bool;
  Opt := unit;
  GetImageConfig := λ configured : bool,
    if configured then Success () else Failure (LibError "no configuration");
  Resolver_Get := @Resolver_Get externals;
  cacheDir := Failure (LibError "no home directory");
  Unmarshal := @Unmarshal externals;
  Join := @Join externals
|}.

Definition configured : @ociRemoteLoader offgrid :=
  @Build_ociRemoteLoader offgrid true false.
Definition unconfigured : @ociRemoteLoader offgrid :=
  @Build_ociRemoteLoader offgrid false false.

(** A layer whose digest has no algorithm, and an extends layer named like
    the primary file. *)
Definition badDigest : Descriptor := layer yamlType "a0" [].
Definition clash : Descriptor :=
  layer yamlType "sha256:e0"
        [("com.docker.compose.extends", "true"); ("com.docker.compose.file", "compose.yaml")].

(** An env-file layer whose file lies in a directory of its own; an env-file
    layer without the annotation and a layer of no known media type, neither
    of which the registry can deliver: the one has no blob there, the digest
    of the other has no algorithm. *)
Definition nested : Descriptor :=
  layer envType "sha256:e0" [("com.docker.compose.envfile", "conf/.env")].
Definition envLost : Descriptor := layer envType "sha256:ff" [].
Definition badUnknown : Descriptor := layer "application/x-other" "a0" [].

Definition nestedManifest : Manifest := manifest projectType emptyType [nested].
Definition envLostManifest : Manifest := manifest projectType emptyType [envLost].

Definition mixedManifest : Manifest :=
  manifest projectType emptyType [emptyLayer; yaml0; extends1; envNamed; yaml1].

(** The cache already holds a directory for the artifact [two]. *)
Definition warm : World :=
  set_fs ({["/cache/two"]} ∪ dirs (world [])) ∅ (world []).

(** The cache root is a file, not a directory. *)
Definition jammed : World := set_fs ∅ {["/cache" := []]} (world []).

End Cases.

Import Cases.


(** ** Running computations *)

Lemma bind_Ok {A B} (m : M A) (k : A → M B) w a w' :
  m w = (Ok a, w') → bind m k w = k a w'.
Proof. intros E. unfold bind. now rewrite E. Qed.

Lemma bind_Err {A B} (m : M A) (k : A → M B) w e w' :
  m w = (Err e, w') → bind m k w = (Err e, w').
Proof. intros E. unfold bind. now rewrite E. Qed.

Lemma bind_Panic {A B} (m : M A) (k : A → M B) w msg w' :
  m w = (Panic msg, w') → bind m k w = (Panic msg, w').
Proof. intros E. unfold bind. now rewrite E. Qed.

(** Rewrite a bind whose first computation is known to run as [E] says. *)
Ltac run E :=
  first [ rewrite (bind_Ok _ _ _ _ _ E)
        | rewrite (bind_Err _ _ _ _ _ E)
        | rewrite (bind_Panic _ _ _ _ _ E) ].

Ltac run_in E H :=
  first [ rewrite (bind_Ok _ _ _ _ _ E) in H
        | rewrite (bind_Err _ _ _ _ _ E) in H
        | rewrite (bind_Panic _ _ _ _ _ E) in H ].

(** ** The feature flag *)

Lemma Getenv_unset w key : env w !! key = None → os_Getenv key w = (Ok "", w).
Proof. intros E. unfold os_Getenv. now rewrite E. Qed.

Lemma Getenv_set w key v : env w !! key = Some v → os_Getenv key w = (Ok v, w).
Proof. intros E. unfold os_Getenv. now rewrite E. Qed.

Lemma enabled_unset w :
  env w !! OCI_REMOTE_ENABLED = None → ociRemoteLoaderEnabled w = (Ok true, w).
Proof.
  intros E. unfold ociRemoteLoaderEnabled.
  now rewrite (bind_Ok _ _ _ _ _ (Getenv_unset _ _ E)).
Qed.

Lemma enabled_empty w :
  env w !! OCI_REMOTE_ENABLED = Some "" → ociRemoteLoaderEnabled w = (Ok true, w).
Proof.
  intros E. unfold ociRemoteLoaderEnabled.
  now rewrite (bind_Ok _ _ _ _ _ (Getenv_set _ _ _ E)).
Qed.

Lemma enabled_set w v :
  env w !! OCI_REMOTE_ENABLED = Some v → v ≠ "" →
  ociRemoteLoaderEnabled w =
    match ParseBool v with
    | Success enabled => (Ok enabled, w)
    | Failure err => (Err (ExpectsBoolean err), w)
    end.
Proof.
  intros E Hv. unfold ociRemoteLoaderEnabled.
  rewrite (bind_Ok _ _ _ _ _ (Getenv_set _ _ _ E)).
  destruct (String.eqb_spec v "") as [->|_]; [done|]. simpl.
  now destruct (ParseBool v).
Qed.

(** The flag check never changes the world and never panics. *)
Lemma enabled_world w :
  (ociRemoteLoaderEnabled w).2 = w ∧ ∀ msg, (ociRemoteLoaderEnabled w).1 ≠ Panic msg.
Proof.
  unfold ociRemoteLoaderEnabled, bind, os_Getenv.
  destruct (negb _); [destruct (ParseBool _)|]; simpl; done.
Qed.

Section Flag.
Context `{Externals}.

Lemma Load_flag_failed g path w e :
  ociRemoteLoaderEnabled w = (Err e, w) → Load g path w = (Err e, w).
Proof. intros E. unfold Load. now rewrite (bind_Err _ _ _ _ _ E). Qed.

Lemma Load_flag_false g path w :
  ociRemoteLoaderEnabled w = (Ok false, w) → Load g path w = (Err Disabled, w).
Proof. intros E. unfold Load. now rewrite (bind_Ok _ _ _ _ _ E). Qed.

Lemma Load_offline g path w :
  ociRemoteLoaderEnabled w = (Ok true, w) → offline g = true →
  Load g path w = (Ok "", w).
Proof. intros E Hoff. unfold Load. rewrite (bind_Ok _ _ _ _ _ E). simpl. now rewrite Hoff. Qed.

(** C7, as the code has it.  The flag is read with [os.Getenv], which cannot
    tell an unset variable from one set to the empty string: in both cases
    the loader is enabled and [strconv.ParseBool] is not consulted.  Set to a
    non-empty string that [strconv.ParseBool] rejects, the variable makes
    [Load] fail with the configuration error that wraps the parse error; set
    to a string that parses to false, it makes [Load] fail with the error
    whose text names the variable.  Neither failure changes the world. *)
Theorem feature_flag_check (g : ociRemoteLoader) (path : string) (w : World) :
  (env w !! OCI_REMOTE_ENABLED = None ∨ env w !! OCI_REMOTE_ENABLED = Some "" →
   ociRemoteLoaderEnabled w = (Ok true, w))
  ∧ (∀ v err, env w !! OCI_REMOTE_ENABLED = Some v → v ≠ "" →
       ParseBool v = Failure err →
       Load g path w = (Err (ExpectsBoolean err), w))
  ∧ (∀ v, env w !! OCI_REMOTE_ENABLED = Some v → ParseBool v = Success false →
       Load g path w = (Err Disabled, w)
       ∧ Error Disabled = "OCI remote resource is disabled by " ++ Quote OCI_REMOTE_ENABLED).
Proof.
  split; [|split].
  - intros [E|E]; [now apply enabled_unset | now apply enabled_empty].
  - intros v err E Hv HP. apply Load_flag_failed.
    rewrite (enabled_set _ _ E Hv). now rewrite HP.
  - intros v E HP. split; [|reflexivity]. apply Load_flag_false.
    assert (v ≠ "") as Hv by (intros ->; discriminate HP).
    rewrite (enabled_set _ _ E Hv). now rewrite HP.
Qed.

(** C1, as the code has it.  [Load] looks at the feature flag before it looks
    at offline mode.  An offline loader whose flag is enabled (the variable
    unset, empty, or set to a string that parses to true) returns the empty
    string and no error for every path, accepted or not, and leaves the world
    as it was: no resolver call, no file, no entry in [known].  An offline
    loader whose flag does not parse, or parses to false, returns the
    configuration error or the disabled error instead. *)
Theorem offline_load (g : ociRemoteLoader) (path : string) (w : World) :
  offline g = true →
  (env w !! OCI_REMOTE_ENABLED = None ∨ env w !! OCI_REMOTE_ENABLED = Some ""
   ∨ (∃ v, env w !! OCI_REMOTE_ENABLED = Some v ∧ ParseBool v = Success true) →
   Load g path w = (Ok "", w))
  ∧ (∀ v err, env w !! OCI_REMOTE_ENABLED = Some v → v ≠ "" →
       ParseBool v = Failure err →
       Load g path w = (Err (ExpectsBoolean err), w))
  ∧ (∀ v, env w !! OCI_REMOTE_ENABLED = Some v → ParseBool v = Success false →
       Load g path w = (Err Disabled, w)).
Proof.
  intros Hoff. split; [|split].
  - intros [E|[E|(v & E & HP)]]; apply Load_offline; try done.
    + now apply enabled_unset.
    + now apply enabled_empty.
    + assert (v ≠ "") as Hv by (intros ->; discriminate HP).
      rewrite (enabled_set _ _ E Hv). now rewrite HP.
  - intros v err E Hv HP. apply Load_flag_failed.
    rewrite (enabled_set _ _ E Hv). now rewrite HP.
  - intros v E HP. apply Load_flag_false.
    assert (v ≠ "") as Hv by (intros ->; discriminate HP).
    rewrite (enabled_set _ _ E Hv). now rewrite HP.
Qed.

End Flag.

(** ** The scheme prefix and the slice in [Load] *)

Lemma slice_from_short s n : (String.length s < n)%nat → slice_from s n = None.
Proof.
  revert n. induction s as [|c s IH]; intros [|n] Hn; simpl in *; try lia; [done|].
  apply IH. lia.
Qed.

Lemma slice_from_prefix p s :
  String.prefix p s = true →
  ∃ rest, s = p ++ rest ∧ slice_from s (String.length p) = Some rest.
Proof.
  revert s. induction p as [|a p IH]; intros s Hp.
  - exists s. split; [reflexivity | now destruct s].
  - destruct s as [|b s]; simpl in Hp; [discriminate|].
    destruct (ascii_dec a b) as [->|]; [|discriminate].
    destruct (IH s Hp) as (rest & -> & Hs). exists rest. split; [reflexivity | exact Hs].
Qed.

Lemma prefix_length p s : String.prefix p s = true → (String.length p ≤ String.length s)%nat.
Proof.
  revert s. induction p as [|a p IH]; intros s Hp; simpl; [lia|].
  destruct s as [|b s]; simpl in Hp; [discriminate|].
  destruct (ascii_dec a b); [|discriminate]. apply IH in Hp. simpl. lia.
Qed.

Section Slice.
Context `{Externals}.

Lemma Load_short g path w :
  ociRemoteLoaderEnabled w = (Ok true, w) → offline g = false →
  known w !! path = None → (String.length path < String.length OciPrefix)%nat →
  Load g path w = (Panic "slice bounds out of range", w).
Proof.
  intros E Hoff Hk Hlen. unfold Load. rewrite (bind_Ok _ _ _ _ _ E).
  cbn [negb]. rewrite Hoff, Hk. now rewrite (slice_from_short _ _ Hlen).
Qed.

(** C10, as the code has it.  The slice [path[len(OciPrefix):]] is the first
    thing [Load] does with a path it has not resolved before, but it comes
    after the feature-flag check, the offline check and the lookup in
    [known].  A path shorter than the prefix is one [Accept] rejects; handed
    to [Load] with the flag enabled, the loader online and the path not in
    [known], it makes [Load] panic and leaves the world as it was.  For a
    path [Accept] accepts the slice is in range and yields what follows the
    prefix. *)
Theorem short_path_panics (g : ociRemoteLoader) (path : string) (w : World) :
  ((String.length path < String.length OciPrefix)%nat →
   Accept g path = false
   ∧ (ociRemoteLoaderEnabled w = (Ok true, w) → offline g = false →
      known w !! path = None →
      Load g path w = (Panic "slice bounds out of range", w)))
  ∧ (Accept g path = true →
     ∃ rest, path = OciPrefix ++ rest
             ∧ slice_from path (String.length OciPrefix) = Some rest).
Proof.
  split.
  - intros Hlen. split.
    + unfold Accept, HasPrefix. destruct (String.prefix OciPrefix path) eqn:Hp; [|done].
      apply prefix_length in Hp. lia.
    + intros E Hoff Hk. now apply Load_short.
  - intros Hacc. now apply slice_from_prefix.
Qed.

End Slice.

(** ** The manifest check of [pullComposeFiles] *)

Section Validation.
Context `{Externals}.

Lemma notComposeProject_false manifest :
  ComposeProjectArtifactType ≠ "" →
  notComposeProject manifest = false
  ↔ ArtifactType manifest = ComposeProjectArtifactType
    ∨ (ArtifactType manifest = ""
       ∧ MediaType (Config manifest) = ComposeEmptyConfigMediaType).
Proof.
  intros Hne. unfold notComposeProject.
  destruct (String.eqb_spec (ArtifactType manifest) "") as [E0|E0];
    destruct (String.eqb_spec (ArtifactType manifest) ComposeProjectArtifactType) as [E1|E1];
    destruct (String.eqb_spec (MediaType (Config manifest)) ComposeEmptyConfigMediaType)
      as [E2|E2]; simpl; split; intros Hx; try done; try (now left); try (now right);
    try congruence; destruct Hx as [?|[? ?]]; congruence.
Qed.

Lemma pullComposeFiles_checked g local manifest ref resolver w w1 f w2 :
  os_MkdirAll local w = (Ok (), w1) →
  os_Create (Join local "compose.yaml") w1 = (Ok f, w2) →
  pullComposeFiles g local manifest ref resolver w =
    if notComposeProject manifest
    then (Err (NotComposeArtifact (Named_String ref) (ArtifactType manifest)), w2)
    else pullLayers local ref resolver 0 (Layers manifest) f w2.
Proof.
  intros Hm Hc. unfold pullComposeFiles.
  rewrite (bind_Ok _ _ _ _ _ Hm), (bind_Ok _ _ _ _ _ Hc).
  now destruct (notComposeProject manifest).
Qed.

Lemma MkdirAll_gets name w r w' : os_MkdirAll name w = (r, w') → gets w' = gets w.
Proof.
  unfold os_MkdirAll. destruct (String.eqb name ""); [now intros [= _ <-]|].
  destruct (List.find _ _); now intros [= _ <-].
Qed.

Lemma Create_gets name w r w' : os_Create name w = (r, w') → gets w' = gets w.
Proof.
  unfold os_Create. destruct (String.eqb name ""); [now intros [= _ <-]|].
  destruct (is_dir w name); [now intros [= _ <-]|].
  destruct (List.last _ _) as [p|]; [|now intros [= _ <-]].
  destruct (is_dir w p); [now intros [= _ <-]|].
  destruct (is_file w p); now intros [= _ <-].
Qed.

(** C3.  The compose-project artifact type is a non-empty constant.  The
    manifest passes the check of [pullComposeFiles] exactly when its artifact
    type is that constant, or its artifact type is empty and the media type
    of its config descriptor is the empty-config media type.  Once the
    directory and the primary file have been created, a manifest that passes
    goes on to the loop over its layers, and any other manifest makes
    [pullComposeFiles] return the error whose text names the reference and
    the manifest's artifact type, before the resolver is asked for any
    layer. *)
Theorem manifest_validation (g : ociRemoteLoader) (local : string) (manifest : Manifest)
    (ref : Named) (resolver : Opt) (w w1 w2 : World) (f : File) :
  ComposeProjectArtifactType ≠ "" →
  os_MkdirAll local w = (Ok (), w1) →
  os_Create (Join local "compose.yaml") w1 = (Ok f, w2) →
  (notComposeProject manifest = false
   ↔ ArtifactType manifest = ComposeProjectArtifactType
     ∨ (ArtifactType manifest = ""
        ∧ MediaType (Config manifest) = ComposeEmptyConfigMediaType))
  ∧ (notComposeProject manifest = false →
     pullComposeFiles g local manifest ref resolver w
     = pullLayers local ref resolver 0 (Layers manifest) f w2)
  ∧ (notComposeProject manifest = true →
     pullComposeFiles g local manifest ref resolver w
     = (Err (NotComposeArtifact (Named_String ref) (ArtifactType manifest)), w2)
     ∧ gets w2 = gets w
     ∧ Error (NotComposeArtifact (Named_String ref) (ArtifactType manifest))
       = Named_String ref ++ " is not a compose project OCI artifact, but "
         ++ ArtifactType manifest).
Proof.
  intros Hne Hm Hc. split; [now apply notComposeProject_false|].
  rewrite (pullComposeFiles_checked g _ manifest ref resolver _ _ _ _ Hm Hc).
  split; intros ->; [reflexivity|]. split; [reflexivity|]. split; [|reflexivity].
  rewrite (Create_gets _ _ _ _ Hc). now apply (MkdirAll_gets _ _ _ _ Hm).
Qed.

End Validation.

(** ** Files *)

Open Scope list_scope.

Lemma write_at_end old b : write_at old (length old) b = old ++ b.
Proof.
  destruct b as [|x b]; [now rewrite app_nil_r|].
  unfold write_at. rewrite firstn_all, Nat.sub_diag. simpl.
  rewrite drop_ge by (simpl; lia). now rewrite app_nil_r.
Qed.

Lemma Create_Ok name w f w' :
  os_Create name w = (Ok f, w') →
  f = {| fname := name; offset := 0 |}
  ∧ w' = set_fs (dirs w) (<[name := []]> (files w)) w.
Proof.
  unfold os_Create. destruct (String.eqb name ""); [discriminate|].
  destruct (is_dir w name); [discriminate|].
  destruct (List.last _ _) as [p|]; [|now intros [= <- <-]].
  destruct (is_dir w p); [now intros [= <- <-]|].
  destruct (is_file w p); discriminate.
Qed.

(** [os.Create] that fails has changed nothing. *)
Lemma Create_failed name w r w' :
  os_Create name w = (r, w') → (∀ h, r ≠ Ok h) → w' = w.
Proof.
  unfold os_Create. intros E Hr. revert E.
  destruct (String.eqb name ""); [now intros [= _ <-]|].
  destruct (is_dir w name); [now intros [= _ <-]|].
  destruct (List.last _ _) as [p|].
  - destruct (is_dir w p); [intros [= <- _]; now destruct (Hr _ eq_refl)|].
    destruct (is_file w p); now intros [= _ <-].
  - intros [= <- _]. now destruct (Hr _ eq_refl).
Qed.

(** Appending to a file whose offset is at its end. *)
Lemma Write_append f b w old :
  files w !! fname f = Some old → offset f = length old →
  File_Write f b w
  = (Ok {| fname := fname f; offset := length (old ++ b) |},
     set_fs (dirs w) (<[fname f := old ++ b]> (files w)) w).
Proof.
  intros Hold Hoff. unfold File_Write. rewrite Hold, Hoff. simpl.
  rewrite write_at_end. now rewrite length_app.
Qed.

Section Writing.
Context `{Externals}.

Lemma writeComposeFile_append layer i f content w old :
  files w !! fname f = Some old → offset f = length old →
  writeComposeFile layer i f content w
  = (Ok {| fname := fname f; offset := length (old ++ lead layer i ++ content) |},
     set_fs (dirs w) (<[fname f := old ++ lead layer i ++ content]> (files w)) w).
Proof.
  intros Hold Hoff. unfold writeComposeFile, lead.
  destruct (bool_decide (0 < i) && _).
  - rewrite (bind_Ok _ _ _ _ _ (Write_append f separator w old Hold Hoff)).
    rewrite (Write_append _ content _ (old ++ separator)); simpl.
    + rewrite insert_insert_eq. now rewrite <- app_assoc.
    + apply lookup_insert_eq.
    + reflexivity.
  - rewrite (bind_Ok _ _ _ f w); [|reflexivity].
    now rewrite (Write_append f content w old Hold Hoff).
Qed.

End Writing.

(** ** The loop over the layers *)

Section Layers.
Context `{Externals}.

Variables (local : string) (ref : Named) (resolver : Opt).

(** The loop reaches the layer after [before] with the primary file and the
    world the turns for [before] left, and goes on from there. *)
Lemma pullLayers_app i before after f w f' w' :
  turns local ref resolver i before f w = (Ok f', w') →
  pullLayers local ref resolver i (before ++ after) f w
  = pullLayers local ref resolver (i + length before) after f' w'.
Proof.
  revert i f w. induction before as [|layer rest IH]; intros i f w; simpl.
  - intros [= <- <-]. now rewrite Nat.add_0_r.
  - destruct (pullLayer local ref resolver i layer f w) as [[f1|e|msg] w1] eqn:E;
      do 2 run E; [|discriminate..].
    intros Hrest. rewrite (IH _ _ _ Hrest).
    now replace (S i + length rest) with (i + S (length rest)) by lia.
Qed.

Lemma pullLayers_reach before layer after f0 w0 f w :
  turns local ref resolver 0 before f0 w0 = (Ok f, w) →
  pullLayers local ref resolver 0 (before ++ layer :: after) f0 w0
  = bind (pullLayer local ref resolver (length before) layer f)
         (pullLayers local ref resolver (S (length before)) after) w.
Proof. intros Hb. now rewrite (pullLayers_app _ _ _ _ _ _ _ Hb). Qed.

(** A turn whose layer was fetched is the [switch] on that layer. *)
Lemma pullLayer_fetched i layer f w digested content descriptor :
  WithDigest ref (Digest layer) = Success digested →
  Resolver_Get resolver (Named_String digested) = Success (content, descriptor) →
  pullLayer local ref resolver i layer f w
  = dispatchLayer local i layer f content (log_get (Named_String digested) w).
Proof.
  intros Hd Hg. unfold pullLayer, bind, resolver_Get. rewrite Hd. simpl.
  now rewrite Hg.
Qed.

(** A turn whose layer has a digest that makes no reference ends the loop
    with that error before the resolver is asked. *)
Lemma pullLayer_unnamed i layer f w e :
  WithDigest ref (Digest layer) = Failure e →
  pullLayer local ref resolver i layer f w = (Err e, w).
Proof. intros Hd. unfold pullLayer, bind, lift. now rewrite Hd. Qed.

(** A turn whose layer the resolver cannot deliver ends the loop with the
    resolver's error, whatever the media type of the layer. *)
Lemma pullLayer_lost i layer f w digested e :
  WithDigest ref (Digest layer) = Success digested →
  Resolver_Get resolver (Named_String digested) = Failure e →
  pullLayer local ref resolver i layer f w = (Err e, log_get (Named_String digested) w).
Proof.
  intros Hd Hg. unfold pullLayer, bind, resolver_Get. rewrite Hd. simpl.
  now rewrite Hg.
Qed.

Lemma writeEnvFile_Ok layer content w envfilePath target w1 :
  Annotations layer !! "com.docker.compose.envfile" = Some envfilePath →
  os_Create (Join local envfilePath) w = (Ok target, w1) →
  writeEnvFile layer local content w
  = (Ok (), set_fs (dirs w) (<[Join local envfilePath := content]> (files w)) w).
Proof.
  intros Hsome Hc. unfold writeEnvFile. rewrite Hsome. run Hc.
  destruct (Create_Ok _ _ _ _ Hc) as [-> ->].
  erewrite bind_Ok; [|apply (Write_append _ content _ []); [apply lookup_insert_eq|done]].
  simpl. now rewrite insert_insert_eq.
Qed.

Lemma dispatch_other i layer f content w :
  MediaType layer ≠ ComposeYAMLMediaType → MediaType layer ≠ ComposeEnvFileMediaType →
  dispatchLayer local i layer f content w = (Ok f, w).
Proof.
  intros Hy He. unfold dispatchLayer.
  destruct (String.eqb_spec (MediaType layer) ComposeYAMLMediaType); [done|].
  destruct (String.eqb_spec (MediaType layer) ComposeEnvFileMediaType); [done|].
  now destruct (String.eqb _ _).
Qed.

Lemma dispatch_env i layer f content w :
  ComposeEnvFileMediaType ≠ ComposeYAMLMediaType →
  MediaType layer = ComposeEnvFileMediaType →
  dispatchLayer local i layer f content w
  = bind (writeEnvFile layer local content) (λ _, ret f) w.
Proof.
  intros Hne He. unfold dispatchLayer. rewrite He.
  destruct (String.eqb_spec ComposeEnvFileMediaType ComposeYAMLMediaType); [done|].
  now rewrite String.eqb_refl.
Qed.

Lemma dispatch_primary i layer f content w :
  MediaType layer = ComposeYAMLMediaType →
  Annotations layer !! "com.docker.compose.extends" = None →
  dispatchLayer local i layer f content w = writeComposeFile layer i f content w.
Proof.
  intros Hy Hx. unfold dispatchLayer. rewrite Hy, String.eqb_refl, Hx.
  rewrite bool_decide_eq_false_2; [reflexivity|]. now intros [? ?].
Qed.

Lemma dispatch_extends i layer f content w :
  MediaType layer = ComposeYAMLMediaType →
  is_Some (Annotations layer !! "com.docker.compose.extends") →
  dispatchLayer local i layer f content w
  = bind (os_Create
            (Join local (default "" (Annotations layer !! "com.docker.compose.file"))))
         (λ target, bind (writeComposeFile layer i target content) (λ _, ret f)) w.
Proof.
  intros Hy Hx. unfold dispatchLayer. rewrite Hy, String.eqb_refl.
  now rewrite bool_decide_eq_true_2.
Qed.

(** C9.  The empty-config media type is a constant other than the compose-YAML
    and the compose-env-file media types.  For a layer whose media type is
    the empty-config type, or none of the three, the [switch] of
    [pullComposeFiles] does nothing: it returns no error and leaves the
    primary file and the world as they are.  But the loop fetches every
    layer before the [switch].  So when the loop has run the turns for the
    layers [before] and comes to such a layer: if the digest of the layer
    makes no reference, [pullLayers] returns that error and nothing has been
    asked; if the resolver fails for the layer, [pullLayers] returns the
    resolver's error; and if the resolver delivers the layer, the turn
    returns no error, leaves the directories, the files and the table as
    they were (all it adds to the world is the record of the fetch), and the
    loop goes on with the layers [after]. *)
Theorem unrecognized_layer_skipped (layer : Descriptor) :
  ComposeEmptyConfigMediaType ≠ ComposeYAMLMediaType →
  ComposeEmptyConfigMediaType ≠ ComposeEnvFileMediaType →
  MediaType layer = ComposeEmptyConfigMediaType
  ∨ (MediaType layer ≠ ComposeYAMLMediaType
     ∧ MediaType layer ≠ ComposeEnvFileMediaType
     ∧ MediaType layer ≠ ComposeEmptyConfigMediaType) →
  (∀ i f content w, dispatchLayer local i layer f content w = (Ok f, w))
  ∧ (∀ before after f0 f w0 w,
       turns local ref resolver 0 before f0 w0 = (Ok f, w) →
       (∀ e, WithDigest ref (Digest layer) = Failure e →
             pullLayers local ref resolver 0 (before ++ layer :: after) f0 w0 = (Err e, w))
       ∧ (∀ digested e,
            WithDigest ref (Digest layer) = Success digested →
            Resolver_Get resolver (Named_String digested) = Failure e →
            pullLayers local ref resolver 0 (before ++ layer :: after) f0 w0
            = (Err e, log_get (Named_String digested) w))
       ∧ (∀ digested content descriptor,
            WithDigest ref (Digest layer) = Success digested →
            Resolver_Get resolver (Named_String digested) = Success (content, descriptor) →
            ∃ w', pullLayer local ref resolver (length before) layer f w = (Ok f, w')
                  ∧ dirs w' = dirs w ∧ files w' = files w ∧ known w' = known w
                  ∧ gets w' = gets w ++ [Named_String digested]
                  ∧ pullLayers local ref resolver 0 (before ++ layer :: after) f0 w0
                    = pullLayers local ref resolver (S (length before)) after f w')).
Proof.
  intros Hy He Hm.
  assert (∀ i f content w, dispatchLayer local i layer f content w = (Ok f, w)) as Hnoop.
  { intros i f content w. apply dispatch_other; destruct Hm as [->|(? & ? & _)]; done. }
  split; [exact Hnoop|].
  intros before after f0 f w0 w Hb.
  rewrite (pullLayers_reach _ _ _ _ _ _ _ Hb). split; [|split].
  - intros e Hd. apply bind_Err. now apply pullLayer_unnamed.
  - intros digested e Hd Hg. apply bind_Err. now apply pullLayer_lost.
  - intros digested content descriptor Hd Hg.
    exists (log_get (Named_String digested) w).
    assert (pullLayer local ref resolver (length before) layer f w
            = (Ok f, log_get (Named_String digested) w)) as Hturn.
    { rewrite (pullLayer_fetched _ _ _ _ _ _ _ Hd Hg). apply Hnoop. }
    split; [exact Hturn|]. repeat (split; [reflexivity|]). now run Hturn.
Qed.

(** C6.  The compose-env-file media type is a constant other than the
    compose-YAML media type.  For a compose-env-file layer without the
    envfile annotation the [switch] of [pullComposeFiles] returns the
    missing-annotation error, whose text names the annotation and the layer's
    digest, and changes nothing.  But the loop fetches every layer before
    the [switch], and the file has to be created before it is written.  So
    when the loop has run the turns for the layers [before] and comes to a
    compose-env-file layer: if the digest of the layer makes no reference,
    or the resolver fails for the layer, [pullLayers] returns that error,
    with or without the annotation.  If the resolver delivers the layer and
    the annotation is missing, [pullLayers] returns the missing-annotation
    error whatever layers come [after], and the world it leaves holds the
    fetch of this layer and nothing of a later one.  If the annotation is
    there and the file of that name under [local] cannot be created,
    [pullLayers] returns the error of [os.Create] and nothing is written;
    and if the file can be created, the layer's content, unchanged, becomes
    the content of that file, nothing else changes, and the loop goes on
    with the layers [after]. *)
Theorem envfile_layer (layer : Descriptor) :
  ComposeEnvFileMediaType ≠ ComposeYAMLMediaType →
  MediaType layer = ComposeEnvFileMediaType →
  (Annotations layer !! "com.docker.compose.envfile" = None →
   (∀ i f content w,
      dispatchLayer local i layer f content w = (Err (MissingEnvfile (Digest layer)), w))
   ∧ Error (MissingEnvfile (Digest layer))
     = ("missing annotation com.docker.compose.envfile in layer "
        +:+ Quote (Digest layer))%string)
  ∧ (∀ before after f0 f w0 w,
       turns local ref resolver 0 before f0 w0 = (Ok f, w) →
       (∀ e, WithDigest ref (Digest layer) = Failure e →
             pullLayers local ref resolver 0 (before ++ layer :: after) f0 w0 = (Err e, w))
       ∧ (∀ digested e,
            WithDigest ref (Digest layer) = Success digested →
            Resolver_Get resolver (Named_String digested) = Failure e →
            pullLayers local ref resolver 0 (before ++ layer :: after) f0 w0
            = (Err e, log_get (Named_String digested) w))
       ∧ (∀ digested content descriptor,
            WithDigest ref (Digest layer) = Success digested →
            Resolver_Get resolver (Named_String digested) = Success (content, descriptor) →
            (Annotations layer !! "com.docker.compose.envfile" = None →
             pullLayers local ref resolver 0 (before ++ layer :: after) f0 w0
             = (Err (MissingEnvfile (Digest layer)), log_get (Named_String digested) w))
            ∧ (∀ envfilePath,
                 Annotations layer !! "com.docker.compose.envfile" = Some envfilePath →
                 (∀ e w1,
                    os_Create (Join local envfilePath) (log_get (Named_String digested) w)
                    = (Err e, w1) →
                    pullLayers local ref resolver 0 (before ++ layer :: after) f0 w0
                    = (Err e, log_get (Named_String digested) w))
                 ∧ (∀ target w1,
                      os_Create (Join local envfilePath) (log_get (Named_String digested) w)
                      = (Ok target, w1) →
                      pullLayers local ref resolver 0 (before ++ layer :: after) f0 w0
                      = pullLayers local ref resolver (S (length before)) after f
                          (set_fs (dirs w)
                             (<[Join local envfilePath := content]> (files w))
                             (log_get (Named_String digested) w)))))).
Proof.
  intros Hne Hm.
  assert (Annotations layer !! "com.docker.compose.envfile" = None →
          ∀ i f content w,
            dispatchLayer local i layer f content w
            = (Err (MissingEnvfile (Digest layer)), w)) as Hmissing.
  { intros Hnone i f content w. rewrite (dispatch_env _ _ _ _ _ Hne Hm).
    unfold writeEnvFile. now rewrite Hnone. }
  split.
  - intros Hnone. split; [now apply Hmissing | reflexivity].
  - intros before after f0 f w0 w Hb.
    rewrite (pullLayers_reach _ _ _ _ _ _ _ Hb). split; [|split].
    + intros e Hd. apply bind_Err. now apply pullLayer_unnamed.
    + intros digested e Hd Hg. apply bind_Err. now apply pullLayer_lost.
    + intros digested content descriptor Hd Hg.
      pose proof (pullLayer_fetched (length before) layer f w _ _ _ Hd Hg) as Hturn.
      split.
      * intros Hnone. rewrite (Hmissing Hnone) in Hturn. now run Hturn.
      * intros envfilePath Hsome. split.
        -- intros e w1 Hc.
           assert (w1 = log_get (Named_String digested) w) as ->
             by (apply (Create_failed _ _ _ _ Hc); discriminate).
           apply bind_Err. rewrite Hturn, (dispatch_env _ _ _ _ _ Hne Hm).
           apply bind_Err. unfold writeEnvFile. rewrite Hsome. now apply bind_Err.
        -- intros target w1 Hc.
           rewrite (dispatch_env _ _ _ _ _ Hne Hm) in Hturn.
           rewrite (bind_Ok _ _ _ _ _ (writeEnvFile_Ok layer content _ _ _ _ Hsome Hc))
             in Hturn.
           now run Hturn.
Qed.

End Layers.

(** ** Compose files *)

Section ComposeFiles.
Context `{Externals}.

Variables (local : string) (ref : Named) (resolver : Opt).

Lemma lead_first layer : lead layer 0 = [].
Proof. reflexivity. Qed.

Lemma lead_bare layer i :
  Annotations layer !! "com.docker.compose.file" = None → lead layer i = [].
Proof.
  intros Hnone. unfold lead. rewrite Hnone.
  rewrite (bool_decide_eq_false_2 (is_Some None)); [|now intros [? ?]].
  now rewrite andb_false_r.
Qed.

Lemma lead_later layer i :
  0 < i → is_Some (Annotations layer !! "com.docker.compose.file") →
  lead layer i = separator.
Proof. intros Hi Hf. unfold lead. now rewrite !bool_decide_eq_true_2. Qed.

Lemma writeComposeFile_plain layer i f content w :
  lead layer i = [] →
  writeComposeFile layer i f content w = File_Write f content w.
Proof.
  unfold lead, writeComposeFile. now destruct (bool_decide (0 < i) && _).
Qed.

(** C2, as the code has it.  The loop has run the turns for the layers
    [before] and comes to a compose-YAML layer with the extends annotation.
    If the digest of the layer makes no reference, or the resolver fails for
    the layer, [pullLayers] returns that error.  If the resolver delivers the
    layer, the [switch] calls [os.Create] on the name the layer's file
    annotation gives under [local].  Where that fails, [pullLayers] returns
    the error and nothing is written; it fails for a layer without a file
    annotation, whose name is the empty string, wherever [filepath.Join]
    makes of it the directory [local] itself.  Where the file can be created,
    the turn makes it consist of what [writeComposeFile] writes for any
    layer: the layer's content, once, after the separator when the layer is
    not the first of the manifest and has a file annotation.  So the content
    alone is in the file when the layer is at position 0, and the separator
    and the content when it is at a later position and names its file.  No
    other file changes, the primary file is where it was, and the loop goes
    on. *)
Theorem extends_layer_written (before after : list Descriptor) (layer : Descriptor)
    (f0 f : File) (w0 w : World) :
  MediaType layer = ComposeYAMLMediaType →
  is_Some (Annotations layer !! "com.docker.compose.extends") →
  turns local ref resolver 0 before f0 w0 = (Ok f, w) →
  (∀ e, WithDigest ref (Digest layer) = Failure e →
        pullLayers local ref resolver 0 (before ++ layer :: after) f0 w0 = (Err e, w))
  ∧ (∀ digested e,
       WithDigest ref (Digest layer) = Success digested →
       Resolver_Get resolver (Named_String digested) = Failure e →
       pullLayers local ref resolver 0 (before ++ layer :: after) f0 w0
       = (Err e, log_get (Named_String digested) w))
  ∧ (∀ digested content descriptor,
       WithDigest ref (Digest layer) = Success digested →
       Resolver_Get resolver (Named_String digested) = Success (content, descriptor) →
       (∀ e w1,
          os_Create (Join local (default "" (Annotations layer !! "com.docker.compose.file")))
                    (log_get (Named_String digested) w) = (Err e, w1) →
          pullLayers local ref resolver 0 (before ++ layer :: after) f0 w0
          = (Err e, log_get (Named_String digested) w))
       ∧ (Annotations layer !! "com.docker.compose.file" = None →
          Join local "" = local → local ≠ "" → local ∈ dirs w →
          pullLayers local ref resolver 0 (before ++ layer :: after) f0 w0
          = (Err (PathError "open" local EISDIR), log_get (Named_String digested) w))
       ∧ (∀ target w1,
            os_Create (Join local (default "" (Annotations layer !! "com.docker.compose.file")))
                      (log_get (Named_String digested) w) = (Ok target, w1) →
            ∃ w', pullLayer local ref resolver (length before) layer f w = (Ok f, w')
                  ∧ files w'
                    = <[Join local
                          (default "" (Annotations layer !! "com.docker.compose.file"))
                        := lead layer (length before) ++ content]> (files w)
                  ∧ dirs w' = dirs w
                  ∧ (length before = 0 → lead layer (length before) = [])
                  ∧ (0 < length before →
                     is_Some (Annotations layer !! "com.docker.compose.file") →
                     lead layer (length before) = separator)
                  ∧ pullLayers local ref resolver 0 (before ++ layer :: after) f0 w0
                    = pullLayers local ref resolver (S (length before)) after f w')).
Proof.
  intros Hy Hx Hb.
  rewrite (pullLayers_reach _ _ _ _ _ _ _ _ _ _ Hb). split; [|split].
  - intros e Hd. apply bind_Err. now apply pullLayer_unnamed.
  - intros digested e Hd Hg. apply bind_Err. now apply pullLayer_lost.
  - intros digested content descriptor Hd Hg.
    pose proof (pullLayer_fetched local ref resolver (length before) layer f w _ _ _ Hd Hg)
      as Hturn.
    rewrite (dispatch_extends _ _ _ _ _ _ Hy Hx) in Hturn.
    assert (∀ e w1,
              os_Create
                (Join local (default "" (Annotations layer !! "com.docker.compose.file")))
                (log_get (Named_String digested) w) = (Err e, w1) →
              bind (pullLayer local ref resolver (length before) layer f)
                   (pullLayers local ref resolver (S (length before)) after) w
              = (Err e, log_get (Named_String digested) w)) as Hfailed.
    { intros e w1 Hc.
      assert (w1 = log_get (Named_String digested) w) as ->
        by (apply (Create_failed _ _ _ _ Hc); discriminate).
      apply bind_Err. rewrite Hturn. now apply bind_Err. }
    split; [exact Hfailed|]. split.
    + intros Hnone Hjoin Hne Hdir.
      apply (Hfailed _ (log_get (Named_String digested) w)).
      rewrite Hnone. simpl. rewrite Hjoin. unfold os_Create.
      destruct (String.eqb_spec local ""); [done|].
      unfold is_dir. simpl. now rewrite bool_decide_eq_true_2.
    + intros target w1 Hc.
      rewrite (bind_Ok _ _ _ _ _ Hc) in Hturn.
      destruct (Create_Ok _ _ _ _ Hc) as [-> ->].
      erewrite bind_Ok in Hturn;
        [|apply (writeComposeFile_append _ _ _ content _ []); [apply lookup_insert_eq|done]].
      simpl in Hturn. rewrite insert_insert_eq in Hturn.
      eexists. split; [exact Hturn|]. split; [reflexivity|]. split; [reflexivity|].
      split; [intros ->; apply lead_first|]. split; [apply lead_later|].
      now run Hturn.
Qed.

(** C5.  A manifest that passes the check starts with two compose-YAML
    layers, neither with the extends annotation, both with a file annotation;
    the directory and the primary file can be created and the resolver
    delivers both layers.  Then the first two turns of the loop return no
    error and leave the primary file open at its end and consisting of the
    content of the first layer, the separator and the content of the second
    layer; [pullComposeFiles] goes on from there with the layers that follow,
    and returns no error when there are none.  And [writeComposeFile] writes
    the content alone, with no separator before it, for a layer at position 0
    and for a layer without a file annotation at any position. *)
Theorem primary_file_two_layers :
  (∀ (g : ociRemoteLoader) (manifest : Manifest) (l0 l1 : Descriptor) (w w1 w2 : World)
     (f : File) (d0 d1 : Named) (c0 c1 : bytes) (x0 x1 : Descriptor),
     os_MkdirAll local w = (Ok (), w1) →
     os_Create (Join local "compose.yaml") w1 = (Ok f, w2) →
     notComposeProject manifest = false →
     MediaType l0 = ComposeYAMLMediaType → MediaType l1 = ComposeYAMLMediaType →
     Annotations l0 !! "com.docker.compose.extends" = None →
     Annotations l1 !! "com.docker.compose.extends" = None →
     is_Some (Annotations l0 !! "com.docker.compose.file") →
     is_Some (Annotations l1 !! "com.docker.compose.file") →
     WithDigest ref (Digest l0) = Success d0 →
     Resolver_Get resolver (Named_String d0) = Success (c0, x0) →
     WithDigest ref (Digest l1) = Success d1 →
     Resolver_Get resolver (Named_String d1) = Success (c1, x1) →
     ∃ f' w', turns local ref resolver 0 [l0; l1] f w2 = (Ok f', w')
              ∧ files w' !! Join local "compose.yaml" = Some (c0 ++ separator ++ c1)
              ∧ f' = {| fname := Join local "compose.yaml";
                        offset := length (c0 ++ separator ++ c1) |}
              ∧ (∀ rest, Layers manifest = l0 :: l1 :: rest →
                         pullComposeFiles g local manifest ref resolver w
                         = pullLayers local ref resolver 2 rest f' w')
              ∧ (Layers manifest = [l0; l1] →
                 pullComposeFiles g local manifest ref resolver w = (Ok (), w')))
  ∧ (∀ (layer : Descriptor) (i : nat) (f : File) (content : bytes) (w : World),
       i = 0 ∨ Annotations layer !! "com.docker.compose.file" = None →
       writeComposeFile layer i f content w = File_Write f content w).
Proof.
  split.
  - intros g manifest l0 l1 w w1 w2 f d0 d1 c0 c1 x0 x1
           Hm Hc Hv Hy0 Hy1 Hx0 Hx1 Hf0 Hf1 Hd0 Hg0 Hd1 Hg1.
    pose proof (pullComposeFiles_checked g _ manifest ref resolver _ _ _ _ Hm Hc) as Hpull.
    rewrite Hv in Hpull.
    destruct (Create_Ok _ _ _ _ Hc) as [-> ->].
    pose proof (pullLayer_fetched local ref resolver 0 l0
                  {| fname := Join local "compose.yaml"; offset := 0 |}
                  (set_fs (dirs w1) (<[Join local "compose.yaml" := []]> (files w1)) w1)
                  _ _ _ Hd0 Hg0) as Hturn0.
    rewrite (dispatch_primary _ _ _ _ _ _ Hy0 Hx0) in Hturn0.
    rewrite (writeComposeFile_append _ _ _ _ _ []) in Hturn0;
      [|apply lookup_insert_eq|done].
    match type of Hturn0 with _ = (Ok ?f', ?w') =>
      pose proof (pullLayer_fetched local ref resolver 1 l1 f' w' _ _ _ Hd1 Hg1) as Hturn1
    end.
    rewrite (dispatch_primary _ _ _ _ _ _ Hy1 Hx1) in Hturn1.
    rewrite (writeComposeFile_append _ _ _ _ _ ([] ++ lead l0 0 ++ c0)) in Hturn1;
      [|apply lookup_insert_eq|done].
    rewrite (lead_later l1 1) in Hturn1 by (lia || done).
    rewrite lead_first in Hturn0, Hturn1. simpl in Hturn0, Hturn1.
    match type of Hturn1 with _ = (Ok ?f', ?w') =>
      assert (turns local ref resolver 0 [l0; l1]
                {| fname := Join local "compose.yaml"; offset := 0 |}
                (set_fs (dirs w1) (<[Join local "compose.yaml" := []]> (files w1)) w1)
              = (Ok f', w')) as Hturns
        by (simpl; run Hturn0; run Hturn1; reflexivity);
      exists f', w'
    end.
    split; [exact Hturns|]. split; [simpl; apply lookup_insert_eq|].
    split; [reflexivity|].
    match type of Hturns with _ = (Ok ?f', ?w') =>
      assert (∀ rest, Layers manifest = l0 :: l1 :: rest →
                      pullComposeFiles g local manifest ref resolver w
                      = pullLayers local ref resolver 2 rest f' w') as Hrest
    end.
    { intros rest Hl. rewrite Hpull, Hl.
      exact (pullLayers_app local ref resolver 0 [l0; l1] rest _ _ _ _ Hturns). }
    split; [exact Hrest|]. intros Hl. now rewrite (Hrest [] Hl).
  - intros layer i f content w [->|Hnone]; apply writeComposeFile_plain;
      [apply lead_first | now apply lead_bare].
Qed.

End ComposeFiles.

(** ** What a computation leaves alone *)

Lemma same_table_refl w : same_table w w.
Proof. now split. Qed.

Lemma same_table_trans w1 w2 w3 :
  same_table w1 w2 → same_table w2 w3 → same_table w1 w3.
Proof. intros [? ?] [? ?]. split; congruence. Qed.

Lemma keeps_ret {A} (a : A) : keeps (ret a).
Proof. intros w r w' [= _ <-]. apply same_table_refl. Qed.

Lemma keeps_throw {A} e : keeps (@throw A e).
Proof. intros w r w' [= _ <-]. apply same_table_refl. Qed.

Lemma keeps_lift {A} (x : result A) : keeps (lift x).
Proof. destruct x; [apply keeps_ret | apply keeps_throw]. Qed.

Lemma keeps_bind {A B} (m : M A) (k : A → M B) :
  keeps m → (∀ a, keeps (k a)) → keeps (bind m k).
Proof.
  intros Hm Hk w r w'. unfold bind.
  destruct (m w) as [[a|e|msg] w1] eqn:E; pose proof (Hm _ _ _ E) as H1.
  - intros E2. exact (same_table_trans _ _ _ H1 (Hk _ _ _ _ E2)).
  - now intros [= _ <-].
  - now intros [= _ <-].
Qed.

Lemma keeps_MkdirAll name : keeps (os_MkdirAll name).
Proof.
  intros w r w'. unfold os_MkdirAll. destruct (String.eqb name "").
  - intros [= _ <-]. apply same_table_refl.
  - destruct (List.find _ _); intros [= _ <-]; now split.
Qed.

Lemma keeps_Create name : keeps (os_Create name).
Proof.
  intros w r w'. unfold os_Create.
  destruct (String.eqb name ""); [intros [= _ <-]; now split|].
  destruct (is_dir w name); [intros [= _ <-]; now split|].
  destruct (List.last _ _) as [p|]; [|intros [= _ <-]; now split].
  destruct (is_dir w p); [intros [= _ <-]; now split|].
  destruct (is_file w p); intros [= _ <-]; now split.
Qed.

Lemma keeps_Write f b : keeps (File_Write f b).
Proof. intros w r w' [= _ <-]. now split. Qed.

Lemma keeps_RemoveAll name : keeps (os_RemoveAll name).
Proof.
  intros w r w'. unfold os_RemoveAll.
  destruct (String.eqb name ""); intros [= _ <-]; now split.
Qed.

Section Keeps.
Context `{Externals}.

Lemma keeps_Get resolver ref : keeps (resolver_Get resolver ref).
Proof.
  intros w r w'. unfold resolver_Get.
  destruct (Resolver_Get resolver ref); intros [= _ <-]; now split.
Qed.

Lemma keeps_writeComposeFile layer i f content : keeps (writeComposeFile layer i f content).
Proof.
  unfold writeComposeFile. apply keeps_bind.
  - destruct (_ && _); [apply keeps_Write | apply keeps_ret].
  - intros f'. apply keeps_Write.
Qed.

Lemma keeps_writeEnvFile layer local content : keeps (writeEnvFile layer local content).
Proof.
  unfold writeEnvFile. destruct (_ !! _); [|apply keeps_throw].
  apply keeps_bind; [apply keeps_Create|]. intros f.
  apply keeps_bind; [apply keeps_Write|]. intros _. apply keeps_ret.
Qed.

Lemma keeps_dispatchLayer local i layer f content :
  keeps (dispatchLayer local i layer f content).
Proof.
  unfold dispatchLayer. destruct (String.eqb _ _).
  - destruct (bool_decide _); [|apply keeps_writeComposeFile].
    apply keeps_bind; [apply keeps_Create|]. intros target.
    apply keeps_bind; [apply keeps_writeComposeFile|]. intros _. apply keeps_ret.
  - destruct (String.eqb _ _).
    + apply keeps_bind; [apply keeps_writeEnvFile|]. intros _. apply keeps_ret.
    + destruct (String.eqb _ _); apply keeps_ret.
Qed.

Lemma keeps_pullLayer local ref resolver i layer f :
  keeps (pullLayer local ref resolver i layer f).
Proof.
  unfold pullLayer. apply keeps_bind; [apply keeps_lift|]. intros digested.
  apply keeps_bind; [apply keeps_Get|]. intros got. apply keeps_dispatchLayer.
Qed.

Lemma keeps_pullLayers local ref resolver i layers f :
  keeps (pullLayers local ref resolver i layers f).
Proof.
  revert i f. induction layers as [|layer rest IH]; intros i f; simpl.
  - apply keeps_ret.
  - apply keeps_bind; [apply keeps_pullLayer|]. intros f'. apply IH.
Qed.

Lemma keeps_pullComposeFiles g local manifest ref resolver :
  keeps (pullComposeFiles g local manifest ref resolver).
Proof.
  unfold pullComposeFiles. apply keeps_bind; [apply keeps_MkdirAll|]. intros _.
  apply keeps_bind; [apply keeps_Create|]. intros f.
  destruct (notComposeProject manifest); [apply keeps_throw | apply keeps_pullLayers].
Qed.

End Keeps.

(** ** Directories stay directories *)

Lemma tidy_refl w : tidy w w.
Proof. now split. Qed.

Lemma tidy_trans w1 w2 w3 : tidy w1 w2 → tidy w2 w3 → tidy w1 w3.
Proof.
  intros [Hd1 Hf1] [Hd2 Hf2]. split; [congruence|].
  intros p Hp Hnone. apply Hf2; [now rewrite Hd1 | now apply Hf1].
Qed.

Lemma Create_tidy name w r w' :
  os_Create name w = (r, w') →
  tidy w w' ∧ ∀ h, r = Ok h → fname h ∉ dirs w'.
Proof.
  unfold os_Create. destruct (String.eqb name ""); [intros [= <- <-]; now split|].
  unfold is_dir at 1. destruct (bool_decide_reflect (name ∈ dirs w)) as [Hd|Hd];
    [intros [= <- <-]; now split|].
  assert (tidy w (set_fs (dirs w) (<[name := []]> (files w)) w)) as Ht.
  { split; [reflexivity|]. intros p Hp Hnone. simpl.
    rewrite lookup_insert_ne; [exact Hnone | congruence]. }
  destruct (List.last _ _) as [p|].
  - destruct (is_dir w p).
    + intros [= <- <-]. split; [exact Ht|]. now intros h [= <-].
    + destruct (is_file w p); intros [= <- <-]; now split.
  - intros [= <- <-]. split; [exact Ht|]. now intros h [= <-].
Qed.

Lemma Write_tidy f b w r w' :
  fname f ∉ dirs w → File_Write f b w = (r, w') →
  tidy w w' ∧ ∀ f', r = Ok f' → fname f' = fname f.
Proof.
  intros Hf [= <- <-]. split; [|now intros f' [= <-]].
  split; [reflexivity|]. intros p Hp Hnone. simpl.
  rewrite lookup_insert_ne; [exact Hnone | congruence].
Qed.

Lemma MkdirAll_Ok name w w' :
  os_MkdirAll name w = (Ok (), w') →
  files w' = files w ∧ ∀ p, p ∈ ancestors name → p ∈ dirs w'.
Proof.
  unfold os_MkdirAll. destruct (String.eqb name ""); [discriminate|].
  destruct (List.find _ _); [discriminate|]. intros [= <-]. split; [reflexivity|].
  intros p Hp. simpl. apply elem_of_union_l, elem_of_list_to_set, elem_of_app. now left.
Qed.

Lemma MkdirAll_files name w r w' : os_MkdirAll name w = (r, w') → files w' = files w.
Proof.
  unfold os_MkdirAll. destruct (String.eqb name ""); [now intros [= _ <-]|].
  destruct (List.find _ _); now intros [= _ <-].
Qed.

Section Tidy.
Context `{Externals}.

Lemma Get_tidy resolver ref w r w' : resolver_Get resolver ref w = (r, w') → tidy w w'.
Proof.
  unfold resolver_Get. destruct (Resolver_Get resolver ref); intros [= _ <-]; now split.
Qed.

Lemma writeComposeFile_tidy layer i f content w r w' :
  fname f ∉ dirs w → writeComposeFile layer i f content w = (r, w') →
  tidy w w' ∧ ∀ f', r = Ok f' → fname f' = fname f.
Proof.
  intros Hf. unfold writeComposeFile, bind.
  destruct (_ && _).
  - destruct (File_Write f separator w) as [[f1|e|msg] w1] eqn:E1;
      destruct (Write_tidy _ _ _ _ _ Hf E1) as [Ht1 Hn1]; [|discriminate..].
    intros E2. pose proof (Hn1 _ eq_refl) as Hname.
    assert (fname f1 ∉ dirs w1) as Hf1 by (rewrite Hname; now rewrite (proj1 Ht1)).
    destruct (Write_tidy _ _ _ _ _ Hf1 E2) as [Ht2 Hn2].
    split; [exact (tidy_trans _ _ _ Ht1 Ht2)|]. intros f' ->.
    now rewrite (Hn2 _ eq_refl).
  - simpl. now apply Write_tidy.
Qed.

Lemma writeEnvFile_tidy layer local content w r w' :
  writeEnvFile layer local content w = (r, w') → tidy w w'.
Proof.
  unfold writeEnvFile. destruct (_ !! _) as [envfilePath|];
    [|intros [= _ <-]; apply tidy_refl].
  unfold bind. destruct (os_Create _ w) as [[f|e|msg] w1] eqn:E1;
    destruct (Create_tidy _ _ _ _ E1) as [Ht1 Hn1];
    [|now intros [= _ <-] ..].
  destruct (File_Write f content w1) as [[f2|e|msg] w2] eqn:E2;
    destruct (Write_tidy _ _ _ _ _ (Hn1 _ eq_refl) E2) as [Ht2 _];
    intros [= _ <-]; exact (tidy_trans _ _ _ Ht1 Ht2).
Qed.

Lemma dispatchLayer_tidy local i layer f content w r w' :
  fname f ∉ dirs w → dispatchLayer local i layer f content w = (r, w') →
  tidy w w' ∧ ∀ f', r = Ok f' → fname f' = fname f.
Proof.
  intros Hf. unfold dispatchLayer. destruct (String.eqb _ _).
  - destruct (bool_decide _); [|now apply writeComposeFile_tidy].
    unfold bind. destruct (os_Create _ w) as [[target|e|msg] w1] eqn:E1;
      destruct (Create_tidy _ _ _ _ E1) as [Ht1 Hn1];
      [|intros [= <- <-]; now split ..].
    destruct (writeComposeFile layer i target content w1) as [[f2|e|msg] w2] eqn:E2;
      destruct (writeComposeFile_tidy _ _ _ _ _ _ _ (Hn1 _ eq_refl) E2) as [Ht2 _];
      intros [= <- <-]; (split; [exact (tidy_trans _ _ _ Ht1 Ht2)|]);
      [now intros f' [= <-] | discriminate..].
  - destruct (String.eqb _ _).
    + unfold bind. destruct (writeEnvFile layer local content w) as [[[]|e|msg] w1] eqn:E1;
        pose proof (writeEnvFile_tidy _ _ _ _ _ _ E1) as Ht1;
        intros [= <- <-]; (split; [exact Ht1|]); [now intros f' [= <-] | discriminate..].
    + destruct (String.eqb _ _); intros [= <- <-];
        (split; [apply tidy_refl | now intros f' [= <-]]).
Qed.

Lemma pullLayer_tidy local ref resolver i layer f w r w' :
  fname f ∉ dirs w → pullLayer local ref resolver i layer f w = (r, w') →
  tidy w w' ∧ ∀ f', r = Ok f' → fname f' = fname f.
Proof.
  intros Hf. unfold pullLayer, bind.
  destruct (lift (WithDigest ref (Digest layer)) w) as [[digested|e|msg] w0] eqn:E0;
    assert (w0 = w) as -> by (destruct (WithDigest _ _); now injection E0);
    [|intros [= <- <-]; split; [apply tidy_refl | discriminate] ..].
  destruct (resolver_Get resolver _ w) as [[got|e|msg] w1] eqn:E1;
    pose proof (Get_tidy _ _ _ _ _ E1) as Ht1;
    [|intros [= <- <-]; split; [exact Ht1 | discriminate] ..].
  intros E2. assert (fname f ∉ dirs w1) as Hf1 by now rewrite (proj1 Ht1).
  destruct (dispatchLayer_tidy _ _ _ _ _ _ _ _ Hf1 E2) as [Ht2 Hn2].
  split; [exact (tidy_trans _ _ _ Ht1 Ht2) | exact Hn2].
Qed.

Lemma pullLayers_tidy local ref resolver i layers f w r w' :
  fname f ∉ dirs w → pullLayers local ref resolver i layers f w = (r, w') → tidy w w'.
Proof.
  revert i f w. induction layers as [|layer rest IH]; intros i f w Hf; simpl.
  - intros [= _ <-]. apply tidy_refl.
  - unfold bind. destruct (pullLayer local ref resolver i layer f w) as [[f1|e|msg] w1] eqn:E1;
      destruct (pullLayer_tidy _ _ _ _ _ _ _ _ _ Hf E1) as [Ht1 Hn1];
      [|now intros [= _ <-] ..].
    intros E2. apply (tidy_trans _ _ _ Ht1). refine (IH _ _ _ _ E2).
    rewrite (Hn1 _ eq_refl). now rewrite (proj1 Ht1).
Qed.

(** [pullComposeFiles] puts no file where an ancestor of [local] is. *)
Lemma pullComposeFiles_above g local manifest ref resolver w r w' :
  (∀ p, p ∈ ancestors local → files w !! p = None) →
  pullComposeFiles g local manifest ref resolver w = (r, w') →
  ∀ p, p ∈ ancestors local → files w' !! p = None.
Proof.
  intros Habove. unfold pullComposeFiles, bind.
  destruct (os_MkdirAll local w) as [[[]|e|msg] w1] eqn:E1;
    [|intros [= _ <-] p Hp; rewrite (MkdirAll_files _ _ _ _ E1); now apply Habove ..].
  destruct (MkdirAll_Ok _ _ _ E1) as [Hfiles Hdirs].
  destruct (os_Create _ w1) as [[f|e|msg] w2] eqn:E2;
    destruct (Create_tidy _ _ _ _ E2) as [Ht2 Hn2];
    [|intros [= _ <-] p Hp; apply (proj2 Ht2);
      [now apply Hdirs | rewrite Hfiles; now apply Habove] ..].
  assert (∀ p, p ∈ ancestors local → files w2 !! p = None) as Habove2.
  { intros p Hp. apply (proj2 Ht2); [now apply Hdirs | rewrite Hfiles; now apply Habove]. }
  destruct (notComposeProject manifest); [now intros [= _ <-]|].
  intros E3 p Hp. apply (proj2 (pullLayers_tidy _ _ _ _ _ _ _ _ _ (Hn2 _ eq_refl) E3)).
  - rewrite (proj1 Ht2). now apply Hdirs.
  - now apply Habove2.
Qed.

End Tidy.

(** ** What [os.Stat] sees *)

Lemma stat_missing_above w name :
  IsNotExist (stat w name) = true → ∀ p, p ∈ ancestors name → files w !! p = None.
Proof.
  unfold stat. destruct (String.eqb_spec name "") as [->|Hne].
  - intros _ p Hp. now apply not_elem_of_nil in Hp.
  - destruct (existsb _ _) eqn:Hex; [discriminate|]. intros _ p Hp.
    destruct (files w !! p) as [x|] eqn:Hx; [|reflexivity].
    assert (existsb (is_file w) (ancestors name) = true) as Hex'; [|congruence].
    apply existsb_exists. exists p. split; [now apply list_elem_of_In|].
    unfold is_file. rewrite Hx. now apply bool_decide_eq_true_2.
Qed.

Lemma stat_removed name w :
  (∀ p, p ∈ ancestors name → files w !! p = None) →
  IsNotExist (stat (os_RemoveAll name w).2 name) = true.
Proof.
  intros Habove. unfold os_RemoveAll, stat.
  destruct (String.eqb_spec name "") as [->|Hne]; [reflexivity|]. simpl.
  assert (under name name = true) as Hu.
  { unfold under. now rewrite String.eqb_refl. }
  destruct (existsb _ _) eqn:Hex.
  - exfalso. apply existsb_exists in Hex as (p & Hp & Hfile).
    apply list_elem_of_In in Hp. unfold is_file in Hfile. simpl in Hfile.
    apply bool_decide_eq_true_1 in Hfile as [x Hx].
    apply map_lookup_filter_Some in Hx as [Hx _]. rewrite (Habove p Hp) in Hx. discriminate.
  - unfold is_dir, is_file. simpl.
    rewrite bool_decide_eq_false_2.
    + rewrite bool_decide_eq_false_2; [reflexivity|].
      intros [x Hx]. apply map_lookup_filter_Some in Hx as [_ Hx]. simpl in Hx. congruence.
    + intros Hx. apply elem_of_filter in Hx as [Hx _]. congruence.
Qed.

(** ** [Load] *)

Lemma enabled_env w w' :
  env w' = env w → ociRemoteLoaderEnabled w = (Ok true, w) →
  ociRemoteLoaderEnabled w' = (Ok true, w').
Proof.
  unfold ociRemoteLoaderEnabled, bind, os_Getenv. intros ->.
  destruct (negb _); [destruct (ParseBool _)|]; intros [=]; subst; reflexivity.
Qed.

Section Materialization.
Context `{Externals}.

Variables (g : ociRemoteLoader) (path rest : string) (ref : Named) (resolver : Opt)
  (content : bytes) (descriptor : Descriptor) (cache hex : string).

Hypothesis Honline : offline g = false.
Hypothesis Hslice : slice_from path (String.length OciPrefix) = Some rest.
Hypothesis Hparse : ParseDockerRef rest = Success ref.
Hypothesis Hconfig : GetImageConfig (dockerCli g) = Success resolver.
Hypothesis Hget : Resolver_Get resolver (Named_String ref) = Success (content, descriptor).
Hypothesis Hcache : cacheDir = Success cache.
Hypothesis Hhex : Hex (Digest descriptor) = Some hex.

(** With the flag enabled and the path not yet known, [Load] gets as far as
    the look at the disk. *)
Lemma Load_resolved w :
  ociRemoteLoaderEnabled w = (Ok true, w) → known w !! path = None →
  Load g path w
  = bind (os_Stat (Join cache hex))
         (λ err,
            bind (if IsNotExist err then
                    bind (lift (Unmarshal content))
                         (λ manifest,
                            catch (pullComposeFiles g (Join cache hex) manifest ref resolver)
                                  (λ err, bind (os_RemoveAll (Join cache hex))
                                               (λ _, throw err)))
                  else ret ())
                 (λ _, bind (λ w', (Ok (), set_known (<[path := Join cache hex]> (known w')) w'))
                            (λ _, ret (Join (Join cache hex) "compose.yaml"))))
         (log_get (Named_String ref) w).
Proof.
  intros E Hk. unfold Load. run E. cbn [negb]. rewrite Honline, Hk, Hslice, Hparse, Hconfig.
  unfold lift at 1 2. unfold bind at 1 2, ret at 1 2.
  unfold bind at 1. unfold resolver_Get at 1. rewrite Hget. unfold lift at 1, ret at 1.
  cbn [fst snd]. rewrite Hcache. unfold bind at 1, catch, lift at 1, ret at 1.
  rewrite Hhex. reflexivity.
Qed.

(** When the directory is not on disk and the manifest decodes, [Load] is
    what it makes of [pullComposeFiles]. *)
Lemma Load_materializes manifest w :
  ociRemoteLoaderEnabled w = (Ok true, w) → known w !! path = None →
  IsNotExist (stat w (Join cache hex)) = true →
  Unmarshal content = Success manifest →
  Load g path w
  = afterPull path (Join cache hex)
      (pullComposeFiles g (Join cache hex) manifest ref resolver
         (log_get (Named_String ref) w)).
Proof.
  intros E Hk Hp Hj. rewrite (Load_resolved _ E Hk).
  unfold bind at 1, os_Stat.
  change (stat (log_get (Named_String ref) w) (Join cache hex))
    with (stat w (Join cache hex)).
  rewrite Hp, Hj. unfold lift, afterPull.
  unfold bind, catch, ret, throw.
  destruct (pullComposeFiles _ _ _ _ _ _) as [[[]|e|msg] w1]; try reflexivity.
  unfold os_RemoveAll. now destruct (String.eqb _ _).
Qed.

(** C4.  [Load] has an enabled flag and an online loader, has not resolved
    the path before, gets the manifest from the resolver, finds no directory
    for its digest in the cache and decodes the manifest.  If
    [pullComposeFiles] then fails, for whatever reason, [Load] returns the
    error of [pullComposeFiles], and in the world it leaves the directory
    does not exist and the path is not in [known].  A second [Load] of the
    path in that world therefore does not take the cache for warm: it is
    again what [Load] makes of a run of [pullComposeFiles]. *)
Theorem failed_materialization_removed (manifest : Manifest) (w w1 : World) (e : error) :
  ociRemoteLoaderEnabled w = (Ok true, w) →
  known w !! path = None →
  IsNotExist (stat w (Join cache hex)) = true →
  Unmarshal content = Success manifest →
  pullComposeFiles g (Join cache hex) manifest ref resolver (log_get (Named_String ref) w)
  = (Err e, w1) →
  ∃ w', Load g path w = (Err e, w')
        ∧ w' = (os_RemoveAll (Join cache hex) w1).2
        ∧ IsNotExist (stat w' (Join cache hex)) = true
        ∧ known w' !! path = None
        ∧ Load g path w'
          = afterPull path (Join cache hex)
              (pullComposeFiles g (Join cache hex) manifest ref resolver
                 (log_get (Named_String ref) w')).
Proof.
  intros E Hk Hp Hj Hpull.
  exists (os_RemoveAll (Join cache hex) w1).2.
  pose proof (Load_materializes manifest w E Hk Hp Hj) as HL.
  rewrite Hpull in HL. simpl in HL.
  destruct (keeps_pullComposeFiles _ _ _ _ _ _ _ _ Hpull) as [Henv Hknown].
  destruct (keeps_RemoveAll (Join cache hex) w1 _ _ (surjective_pairing _))
    as [Henv' Hknown'].
  simpl in Henv, Hknown.
  assert (known (os_RemoveAll (Join cache hex) w1).2 !! path = None) as Hk'
    by (rewrite Hknown', Hknown; exact Hk).
  assert (IsNotExist (stat (os_RemoveAll (Join cache hex) w1).2 (Join cache hex)) = true)
    as Hgone.
  { apply stat_removed.
    apply (pullComposeFiles_above _ _ _ _ _ _ _ _
             (stat_missing_above (log_get (Named_String ref) w) _ Hp) Hpull). }
  split; [exact HL|]. split; [reflexivity|].
  split; [exact Hgone|]. split; [exact Hk'|].
  apply Load_materializes; try done.
  apply (enabled_env w); [congruence | exact E].
Qed.

End Materialization.

(** ** The table of known references *)

(** What [os.IsNotExist] lets through: no error, or [ENOTDIR]. *)
Lemma stat_found w name :
  IsNotExist (stat w name) = false →
  stat w name = None ∨ stat w name = Some (PathError "stat" name ENOTDIR).
Proof.
  unfold stat. destruct (String.eqb name ""); [discriminate|].
  destruct (existsb _ _); [now right|]. destruct (_ || _); [now left | discriminate].
Qed.

Section Known.
Context `{Externals}.

(** Every run of [Load] either leaves the world as it was, or belongs to an
    enabled, online loader that did not know the path and asked the resolver;
    such a run leaves [known] alone unless it succeeds, and then it adds the
    path with the directory whose primary file it returns: either [os.Stat]
    did not report the directory missing, and then no directory and no file
    has changed, or [pullComposeFiles] returned without error. *)
Lemma Load_inv g path w r w' :
  Load g path w = (r, w') →
  w' = w
  ∨ (ociRemoteLoaderEnabled w = (Ok true, w)
     ∧ offline g = false
     ∧ known w !! path = None
     ∧ env w' = env w
     ∧ ((known w' = known w ∧ ∀ p, r ≠ Ok p)
        ∨ ∃ local, r = Ok (Join local "compose.yaml")
                   ∧ known w' = <[path := local]> (known w)
                   ∧ ((IsNotExist (stat w local) = false
                       ∧ dirs w' = dirs w ∧ files w' = files w)
                      ∨ ∃ manifest ref resolver content descriptor w1,
                          Resolver_Get resolver (Named_String ref)
                          = Success (content, descriptor)
                          ∧ Unmarshal content = Success manifest
                          ∧ pullComposeFiles g local manifest ref resolver
                              (log_get (Named_String ref) w) = (Ok (), w1)
                          ∧ w' = set_known (<[path := local]> (known w1)) w1))).
Proof.
  intros HL. pose proof (enabled_world w) as [Hw _].
  destruct (ociRemoteLoaderEnabled w) as [[[]|e|msg] w0] eqn:E; simpl in Hw; subst w0;
    [| left; unfold Load in HL; run_in E HL; now injection HL ..].
  destruct (offline g) eqn:Hoff.
  { left. rewrite (Load_offline g path w E Hoff) in HL. now injection HL. }
  destruct (known w !! path) as [local|] eqn:Hk.
  { left. unfold Load in HL. run_in E HL. cbn [negb] in HL. rewrite Hoff, Hk in HL.
    now injection HL. }
  destruct (slice_from path (String.length OciPrefix)) as [rest|] eqn:Hs;
    [|left; unfold Load in HL; run_in E HL; cbn [negb] in HL;
      rewrite Hoff, Hk, Hs in HL; now injection HL].
  destruct (ParseDockerRef rest) as [ref|e] eqn:Hp;
    [|left; unfold Load in HL; run_in E HL; cbn [negb] in HL;
      rewrite Hoff, Hk, Hs, Hp in HL; now injection HL].
  destruct (GetImageConfig (dockerCli g)) as [resolver|e] eqn:Hc;
    [|left; unfold Load in HL; run_in E HL; cbn [negb] in HL;
      rewrite Hoff, Hk, Hs, Hp, Hc in HL; now injection HL].
  right. do 3 (split; [reflexivity|]).
  destruct (Resolver_Get resolver (Named_String ref)) as [[content descriptor]|e] eqn:Hg;
    [|unfold Load in HL; run_in E HL; cbn [negb] in HL;
      rewrite Hoff, Hk, Hs, Hp, Hc in HL; unfold bind, lift, ret, resolver_Get in HL;
      rewrite Hg in HL; simpl in HL; injection HL as <- <-;
      split; [reflexivity | left; split; [reflexivity | discriminate]]].
  destruct cacheDir as [cache|e] eqn:Hd;
    [|unfold Load in HL; run_in E HL; cbn [negb] in HL;
      rewrite Hoff, Hk, Hs, Hp, Hc in HL; unfold bind, lift, ret, resolver_Get in HL;
      rewrite Hg in HL; simpl in HL; rewrite Hd in HL; simpl in HL; injection HL as <- <-;
      split; [reflexivity | left; split; [reflexivity | discriminate]]].
  destruct (Hex (Digest descriptor)) as [hex|] eqn:Hh;
    [|unfold Load in HL; run_in E HL; cbn [negb] in HL;
      rewrite Hoff, Hk, Hs, Hp, Hc in HL; unfold bind, lift, ret, resolver_Get in HL;
      rewrite Hg in HL; simpl in HL; rewrite Hd in HL; simpl in HL; rewrite Hh in HL;
      injection HL as <- <-;
      split; [reflexivity | left; split; [reflexivity | discriminate]]].
  rewrite (Load_resolved g path rest ref resolver content descriptor cache hex
             Hoff Hs Hp Hc Hg Hd Hh w E Hk) in HL.
  unfold bind at 1, os_Stat in HL.
  change (stat (log_get (Named_String ref) w) (Join cache hex))
    with (stat w (Join cache hex)) in HL.
  destruct (IsNotExist (stat w (Join cache hex))) eqn:Hstat.
  - destruct (Unmarshal content) as [manifest|e] eqn:Hj;
      [|unfold bind, lift, throw in HL; injection HL as <- <-;
        split; [reflexivity | left; split; [reflexivity | discriminate]]].
    unfold bind at 1 2, lift at 1, ret at 1, catch in HL.
    destruct (pullComposeFiles g (Join cache hex) manifest ref resolver
                (log_get (Named_String ref) w)) as [[[]|e|msg] w1] eqn:Hpull;
      destruct (keeps_pullComposeFiles _ _ _ _ _ _ _ _ Hpull) as [He1 Hk1];
      simpl in He1, Hk1.
    + unfold bind, ret in HL. injection HL as <- <-. split; [exact He1|].
      right. exists (Join cache hex). split; [reflexivity|].
      split; [simpl; now rewrite Hk1|]. right.
      exists manifest, ref, resolver, content, descriptor, w1. now repeat split.
    + unfold bind at 1 in HL.
      destruct (os_RemoveAll (Join cache hex) w1) as [[[]|e'|msg'] w2] eqn:Hr;
        destruct (keeps_RemoveAll _ _ _ _ Hr) as [He2 Hk2];
        unfold throw in HL; injection HL as <- <-;
        (split; [congruence | left; split; [congruence | discriminate]]).
    + injection HL as <- <-. split; [exact He1 | left; split; [exact Hk1 | discriminate]].
  - unfold bind, ret in HL. injection HL as <- <-. split; [reflexivity|].
    right. exists (Join cache hex). split; [reflexivity|]. split; [reflexivity|].
    left. now repeat split.
Qed.

(** C8.  Whatever a run of [Load] returns, every entry of [known] is still
    there afterwards, and [known] is otherwise as before unless the run
    succeeded, for a path it did not know, and added the path with the
    directory whose primary file it returns.  It does so in three cases:
    [os.Stat] found something under the directory's name; [os.Stat] failed
    with an error other than the one [os.IsNotExist] looks for, which here is
    [ENOTDIR]; or [pullComposeFiles] returned without error for that
    directory.  In the first two cases no directory and no file has changed:
    nothing was materialized.  After a run that returned a file name, a
    second [Load] of the same path returns the same file name and leaves the
    world exactly as the first run left it: no reference is added to those
    the resolver was asked for, and no directory or file changes. *)
Theorem memo_hit (g : ociRemoteLoader) (path : string) (w w' : World) (r : outcome string) :
  Load g path w = (r, w') →
  known w ⊆ known w'
  ∧ (known w' ≠ known w →
     ∃ local, r = Ok (Join local "compose.yaml") ∧ known w !! path = None
              ∧ known w' = <[path := local]> (known w)
              ∧ (((stat w local = None
                   ∨ stat w local = Some (PathError "stat" local ENOTDIR))
                  ∧ dirs w' = dirs w ∧ files w' = files w)
                 ∨ ∃ manifest ref resolver content descriptor w1,
                     Resolver_Get resolver (Named_String ref) = Success (content, descriptor)
                     ∧ Unmarshal content = Success manifest
                     ∧ pullComposeFiles g local manifest ref resolver
                         (log_get (Named_String ref) w) = (Ok (), w1)
                     ∧ w' = set_known (<[path := local]> (known w1)) w1))
  ∧ (∀ p, r = Ok p → Load g path w' = (Ok p, w')
                     ∧ (offline g = false →
                        ∃ local, known w' !! path = Some local
                                 ∧ p = Join local "compose.yaml")).
Proof.
  intros HL.
  destruct (Load_inv _ _ _ _ _ HL)
    as [->|(E & Hoff & Hk & He & [[Hsame Hfail]|(local & -> & Hadd & Hwhy)])].
  - split; [reflexivity|]. split; [done|]. intros p ->. split; [exact HL|].
    intros Hoff. pose proof (enabled_world w) as [Hw _].
    destruct (ociRemoteLoaderEnabled w) as [[[]|e|msg] w0] eqn:E; simpl in Hw; subst w0;
      unfold Load in HL; run_in E HL; try discriminate HL.
    cbn [negb] in HL. rewrite Hoff in HL.
    destruct (known w !! path) as [local|] eqn:Hk.
    + injection HL as <-. now exists local.
    + exfalso. clear E. revert HL.
      destruct (slice_from _ _); [|discriminate].
      unfold bind, lift, resolver_Get, catch, ret, throw, panic, os_Stat.
      repeat match goal with
             | |- context [match ?x with _ => _ end] => destruct x eqn:?; try discriminate
             end.
      all: intros [= _ Hw]; apply (f_equal known) in Hw; simpl in Hw.
      all: match goal with
           | Hp : pullComposeFiles _ _ _ _ _ _ = _ |- _ =>
               destruct (keeps_pullComposeFiles _ _ _ _ _ _ _ _ Hp) as [_ Hk1];
               simpl in Hk1; rewrite Hk1 in Hw
           | _ => idtac
           end.
      all: apply (f_equal (λ m, m !! path)) in Hw; rewrite lookup_insert_eq, Hk in Hw;
        discriminate.
  - rewrite Hsame. split; [reflexivity|]. split; [done|]. intros p ->. now destruct (Hfail p).
  - rewrite Hadd. split; [now apply insert_subseteq|]. split.
    + intros _. exists local. do 3 (split; [done|]).
      destruct Hwhy as [(Hstat & Hdirs & Hfiles)|Hpulled]; [left | now right].
      split; [now apply stat_found | now split].
    + intros p [= <-].
      assert (Load g path w' = (Ok (Join local "compose.yaml"), w')) as Hagain.
      { unfold Load. rewrite (bind_Ok _ _ _ _ _ (enabled_env w w' He E)).
        cbn [negb]. now rewrite Hoff, Hadd, lookup_insert_eq. }
      split; [exact Hagain|]. intros _. exists local.
      split; [apply lookup_insert_eq | reflexivity].
Qed.

End Known.

(** ** [Accept], [Dir] and the paths [Load] takes *)

Lemma prefix_app p rest : String.prefix p (p +:+ rest) = true.
Proof.
  induction p as [|a p IH]; simpl; [now destruct rest|].
  destruct (ascii_dec a a); [exact IH | done].
Qed.

Section Paths.
Context `{Externals}.

(** [Accept] is true of the strings that start with the scheme prefix, and of
    no other; the loader it is asked of makes no difference. *)
Theorem Accept_scheme (g : ociRemoteLoader) (path : string) :
  Accept g path = true ↔ ∃ rest, path = (OciPrefix +:+ rest)%string.
Proof.
  split.
  - intros Hacc. destruct (slice_from_prefix OciPrefix path Hacc) as (rest & -> & _).
    now exists rest.
  - intros (rest & ->). apply prefix_app.
Qed.

(** A path shorter than the prefix never gets [Load] to change anything. *)
Lemma Load_short_inv g path w r w' :
  (String.length path < String.length OciPrefix)%nat →
  Load g path w = (r, w') → w' = w.
Proof.
  intros Hlen HL. destruct (Load_inv _ _ _ _ _ HL) as [->|(E & Hoff & Hk & _)]; [done|].
  rewrite (Load_short g path w E Hoff Hk Hlen) in HL. now injection HL.
Qed.

(** What a successful [Load] of an online loader returns is in the table. *)
Lemma Load_Ok_known g path w p w' :
  offline g = false → Load g path w = (Ok p, w') →
  ∃ local, known w' !! path = Some local ∧ p = Join local "compose.yaml".
Proof.
  intros Hoff HL.
  destruct (Load_inv _ _ _ _ _ HL)
    as [->|(E & _ & Hk & He & [[_ Hfail]|(local & [= ->] & Hadd & _)])].
  - pose proof (enabled_world w) as [Hw _].
    destruct (ociRemoteLoaderEnabled w) as [[[]|e|msg] w0] eqn:E; simpl in Hw; subst w0;
      unfold Load in HL; run_in E HL; try discriminate HL.
    cbn [negb] in HL. rewrite Hoff in HL.
    destruct (known w !! path) as [local|] eqn:Hk.
    + injection HL as <-. now exists local.
    + exfalso. clear E. revert HL.
      destruct (slice_from _ _); [|discriminate].
      unfold bind, lift, resolver_Get, catch, ret, throw, panic, os_Stat.
      repeat match goal with
             | |- context [match ?x with _ => _ end] => destruct x eqn:?; try discriminate
             end.
      all: intros [= _ Hw]; apply (f_equal known) in Hw; simpl in Hw.
      all: match goal with
           | Hp : pullComposeFiles _ _ _ _ _ _ = _ |- _ =>
               destruct (keeps_pullComposeFiles _ _ _ _ _ _ _ _ Hp) as [_ Hk1];
               simpl in Hk1; rewrite Hk1 in Hw
           | _ => idtac
           end.
      all: apply (f_equal (λ m, m !! path)) in Hw; rewrite lookup_insert_eq, Hk in Hw;
        discriminate.
  - now destruct (Hfail p).
  - exists local. split; [|reflexivity]. rewrite Hadd. apply lookup_insert_eq.
Qed.

(** After [Load] has returned a file name to an online loader, [Dir] of the
    same path returns the directory of that file, and asking changes
    nothing. *)
Theorem Dir_after_Load (g : ociRemoteLoader) (path p : string) (w w' : World) :
  offline g = false → Load g path w = (Ok p, w') →
  ∃ local, Dir g path w' = (Ok local, w') ∧ p = Join local "compose.yaml".
Proof.
  intros Hoff HL. destruct (Load_Ok_known _ _ _ _ _ Hoff HL) as (local & Hk & ->).
  exists local. split; [|reflexivity]. unfold Dir. now rewrite Hk.
Qed.

(** [Load] of one path leaves the environment alone and what [Dir] returns
    for every other path; when it does not return a file name it leaves what
    [Dir] returns for its own path too.  And a loader that has just been
    made returns the empty string for every path: so does a loader for a
    path no [Load] of that loader has succeeded for. *)
Theorem Load_leaves_Dir (g : ociRemoteLoader) (path : string) (w w' : World)
    (r : outcome string) :
  Load g path w = (r, w') →
  env w' = env w
  ∧ (∀ q, q ≠ path → (Dir g q w').1 = (Dir g q w).1)
  ∧ ((∀ p, r ≠ Ok p) → (Dir g path w').1 = (Dir g path w).1)
  ∧ (∀ cli off w0 made w1, NewOCIRemoteLoader cli off w0 = (Ok made, w1) →
                           ∀ q, Dir made q w1 = (Ok "", w1)).
Proof.
  intros HL.
  assert (∀ cli off w0 made w1, NewOCIRemoteLoader cli off w0 = (Ok made, w1) →
                                ∀ q, Dir made q w1 = (Ok "", w1)) as Hnew.
  { intros cli off w0 made w1 [= <- <-] q. unfold Dir. simpl. now rewrite lookup_empty. }
  unfold Dir. simpl.
  destruct (Load_inv _ _ _ _ _ HL)
    as [->|(_ & _ & _ & He & [[-> Hfail]|(local & -> & -> & _)])]; try done.
  split; [exact He|]. split; [|split; [|exact Hnew]].
  - intros q Hq. now rewrite lookup_insert_ne.
  - intros Hfail. now destruct (Hfail (Join local "compose.yaml")).
Qed.

(** The table of a new loader holds no path shorter than the scheme prefix,
    and no [Load] puts one there.  On such a table [Load] of a shorter path,
    on an online loader with the flag enabled, panics at the slice. *)
Theorem short_paths_stay_out (g : ociRemoteLoader) (path : string) (w : World) :
  (∀ cli off w0, long_keys (NewOCIRemoteLoader cli off w0).2)
  ∧ (long_keys w → ∀ r w', Load g path w = (r, w') → long_keys w')
  ∧ (long_keys w → (String.length path < String.length OciPrefix)%nat →
     ociRemoteLoaderEnabled w = (Ok true, w) → offline g = false →
     Load g path w = (Panic "slice bounds out of range", w)).
Proof.
  split; [|split].
  - intros cli off w0 k [v Hv]. simpl in Hv. now rewrite lookup_empty in Hv.
  - intros Hlong r w' HL.
    destruct (le_lt_dec (String.length OciPrefix) (String.length path)) as [Hlen|Hlen].
    + destruct (Load_inv _ _ _ _ _ HL)
        as [->|(_ & _ & _ & _ & [[Hsame _]|(local & _ & Hadd & _)])]; [done| |].
      * intros k. rewrite Hsame. apply Hlong.
      * intros k. rewrite Hadd. destruct (decide (path = k)) as [<-|Hne]; [done|].
        rewrite lookup_insert_ne by done. apply Hlong.
    + now rewrite (Load_short_inv _ _ _ _ _ Hlen HL).
  - intros Hlong Hlen E Hoff. apply Load_short; try done.
    destruct (known w !! path) eqn:Hk; [|done].
    assert (String.length OciPrefix ≤ String.length path)%nat by (apply Hlong; eauto). lia.
Qed.

End Paths.


(** ** [Load] before it writes *)

Section Errors.
Context `{Externals}.

Variables (g : ociRemoteLoader) (path rest : string) (w : World).

Hypothesis Henabled : ociRemoteLoaderEnabled w = (Ok true, w).
Hypothesis Honline : offline g = false.
Hypothesis Hunknown : known w !! path = None.
Hypothesis Hslice : slice_from path (String.length OciPrefix) = Some rest.

(** An enabled, online loader is handed a path it does not know.  If the
    rest of the path does not parse as a reference, or the registry
    configuration cannot be read, [Load] returns that error and has done
    nothing, not even asked the resolver.  If the resolver fails, [Load]
    returns its error and has done nothing but ask.  If [cacheDir] fails,
    [Load] returns its error under the text of line 104, again having done
    nothing but ask. *)
Theorem Load_fails_early :
  (∀ e, ParseDockerRef rest = Failure e → Load g path w = (Err e, w))
  ∧ (∀ ref e, ParseDockerRef rest = Success ref →
       GetImageConfig (dockerCli g) = Failure e → Load g path w = (Err e, w))
  ∧ (∀ ref resolver e, ParseDockerRef rest = Success ref →
       GetImageConfig (dockerCli g) = Success resolver →
       Resolver_Get resolver (Named_String ref) = Failure e →
       Load g path w = (Err e, log_get (Named_String ref) w))
  ∧ (∀ ref resolver got e, ParseDockerRef rest = Success ref →
       GetImageConfig (dockerCli g) = Success resolver →
       Resolver_Get resolver (Named_String ref) = Success got →
       cacheDir = Failure e →
       Load g path w = (Err (CacheInit e), log_get (Named_String ref) w)
       ∧ Error (CacheInit e)
         = ("initializing remote resource cache: " +:+ Error e)%string).
Proof.
  split; [|split; [|split]].
  - intros e Hp. unfold Load. run Henabled. cbn [negb].
    rewrite Honline, Hunknown, Hslice, Hp. reflexivity.
  - intros ref e Hp Hc. unfold Load. run Henabled. cbn [negb].
    rewrite Honline, Hunknown, Hslice, Hp, Hc. reflexivity.
  - intros ref resolver e Hp Hc Hg. unfold Load. run Henabled. cbn [negb].
    rewrite Honline, Hunknown, Hslice, Hp, Hc.
    unfold bind, lift, ret, resolver_Get. now rewrite Hg.
  - intros ref resolver got e Hp Hc Hg Hd. split; [|reflexivity].
    unfold Load. run Henabled. cbn [negb].
    rewrite Honline, Hunknown, Hslice, Hp, Hc.
    unfold bind, lift, ret, resolver_Get, catch, throw. now rewrite Hg, Hd.
Qed.

End Errors.

Section OnDisk.
Context `{Externals}.

Variables (g : ociRemoteLoader) (path rest : string) (ref : Named) (resolver : Opt)
  (content : bytes) (descriptor : Descriptor) (cache hex : string) (w : World).

Hypothesis Henabled : ociRemoteLoaderEnabled w = (Ok true, w).
Hypothesis Honline : offline g = false.
Hypothesis Hunknown : known w !! path = None.
Hypothesis Hslice : slice_from path (String.length OciPrefix) = Some rest.
Hypothesis Hparse : ParseDockerRef rest = Success ref.
Hypothesis Hconfig : GetImageConfig (dockerCli g) = Success resolver.
Hypothesis Hget : Resolver_Get resolver (Named_String ref) = Success (content, descriptor).
Hypothesis Hcache : cacheDir = Success cache.
Hypothesis Hhex : Hex (Digest descriptor) = Some hex.

(** The loader has the descriptor of the artifact, and [os.Stat] does not
    report the directory of its digest missing.  Then [Load] returns the name
    of the primary file in that directory and records the directory for the
    path, having asked the resolver once, for the manifest, and done nothing
    else: it does not decode the manifest, asks for no layer, and neither
    looks for the primary file nor writes anything. *)
Theorem Load_warm_directory :
  IsNotExist (stat w (Join cache hex)) = false →
  Load g path w
  = (Ok (Join (Join cache hex) "compose.yaml"),
     set_known (<[path := Join cache hex]> (known w)) (log_get (Named_String ref) w)).
Proof.
  intros Hstat.
  rewrite (Load_resolved g path rest ref resolver content descriptor cache hex
             Honline Hslice Hparse Hconfig Hget Hcache Hhex w Henabled Hunknown).
  unfold bind at 1, os_Stat.
  change (stat (log_get (Named_String ref) w) (Join cache hex))
    with (stat w (Join cache hex)).
  now rewrite Hstat.
Qed.

(** The directory is missing and the manifest does not decode.  Then [Load]
    returns the error of [json.Unmarshal], having asked the resolver once and
    done nothing else: no directory is made and none is removed. *)
Theorem Load_undecodable_manifest (e : error) :
  IsNotExist (stat w (Join cache hex)) = true →
  Unmarshal content = Failure e →
  Load g path w = (Err e, log_get (Named_String ref) w).
Proof.
  intros Hstat Hj.
  rewrite (Load_resolved g path rest ref resolver content descriptor cache hex
             Honline Hslice Hparse Hconfig Hget Hcache Hhex w Henabled Hunknown).
  unfold bind at 1, os_Stat.
  change (stat (log_get (Named_String ref) w) (Join cache hex))
    with (stat w (Join cache hex)).
  now rewrite Hstat, Hj.
Qed.

End OnDisk.

Section Scheme.
Context `{Externals}.


End Scheme.


(** ** What the loop adds to the world *)

Lemma only_files_refl w : only_files w w.
Proof. now repeat split. Qed.

Lemma only_files_trans w1 w2 w3 : only_files w1 w2 → only_files w2 w3 → only_files w1 w3.
Proof.
  intros (He1 & Hk1 & Hg1 & Hd1 & Hf1) (He2 & Hk2 & Hg2 & Hd2 & Hf2).
  repeat split; try congruence. intros p Hp. now apply Hf2, Hf1.
Qed.

Lemma Create_only name w r w' :
  os_Create name w = (r, w') →
  only_files w w' ∧ ∀ h, r = Ok h → h = {| fname := name; offset := 0 |}
                                  ∧ files w' = <[name := []]> (files w).
Proof.
  assert (only_files w (set_fs (dirs w) (<[name := []]> (files w)) w)) as Hins.
  { repeat split. intros p Hp. simpl.
    destruct (decide (name = p)) as [<-|Hne];
      [rewrite lookup_insert_eq; eauto | now rewrite lookup_insert_ne]. }
  unfold os_Create. destruct (String.eqb name "");
    [intros [= <- <-]; split; [apply only_files_refl | discriminate]|].
  destruct (is_dir w name); [intros [= <- <-]; split; [apply only_files_refl | discriminate]|].
  destruct (List.last _ _) as [p|].
  - destruct (is_dir w p).
    + intros [= <- <-]. split; [exact Hins|]. now intros h [= <-].
    + destruct (is_file w p); intros [= <- <-]; (split; [apply only_files_refl | discriminate]).
  - intros [= <- <-]. split; [exact Hins|]. now intros h [= <-].
Qed.

Lemma Write_only f b w r w' :
  File_Write f b w = (r, w') →
  only_files w w' ∧ (∃ f', r = Ok f' ∧ fname f' = fname f)
  ∧ ∀ q, q ≠ fname f → files w' !! q = files w !! q.
Proof.
  intros [= <- <-]. split; [|split; [eauto|]].
  - repeat split. intros p Hp. simpl.
    destruct (decide (fname f = p)) as [<-|Hne];
      [rewrite lookup_insert_eq; eauto | now rewrite lookup_insert_ne].
  - intros q Hq. simpl. now rewrite lookup_insert_ne.
Qed.

Section Adds.
Context `{Externals}.

Lemma writeComposeFile_only layer i f content w r w' :
  writeComposeFile layer i f content w = (r, w') →
  only_files w w' ∧ (∃ f', r = Ok f' ∧ fname f' = fname f)
  ∧ ∀ q, q ≠ fname f → files w' !! q = files w !! q.
Proof.
  unfold writeComposeFile, bind. destruct (_ && _); [|apply Write_only].
  destruct (File_Write f separator w) as [r1 w1] eqn:E1.
  destruct (Write_only _ _ _ _ _ E1) as (Ho1 & (f1 & -> & Hn1) & Hq1).
  intros E2. destruct (Write_only _ _ _ _ _ E2) as (Ho2 & (f2 & -> & Hn2) & Hq2).
  split; [exact (only_files_trans _ _ _ Ho1 Ho2)|]. split; [exists f2; split; congruence|].
  intros q Hq. rewrite Hq2 by congruence. now apply Hq1.
Qed.

Lemma writeEnvFile_only layer local content w r w' :
  writeEnvFile layer local content w = (r, w') →
  only_files w w'
  ∧ ∀ q, Join local <$> Annotations layer !! "com.docker.compose.envfile" ≠ Some q →
         files w' !! q = files w !! q.
Proof.
  unfold writeEnvFile. destruct (_ !! _) as [envfilePath|]; simpl;
    [|intros [= _ <-]; split; [apply only_files_refl | done]].
  unfold bind. destruct (os_Create _ w) as [[h|e|msg] w1] eqn:E1;
    destruct (Create_only _ _ _ _ E1) as [Ho1 Hh];
    [|intros [= _ <-]; split; [done|intros q _];
      now rewrite (Create_failed _ _ _ _ E1) ..].
  destruct (Hh _ eq_refl) as [-> Hf1].
  destruct (File_Write _ content w1) as [r2 w2] eqn:E2.
  destruct (Write_only _ _ _ _ _ E2) as (Ho2 & (f2 & -> & _) & Hq2).
  intros [= _ <-]. split; [exact (only_files_trans _ _ _ Ho1 Ho2)|].
  intros q Hq. simpl in Hq2. rewrite Hq2 by congruence. rewrite Hf1.
  apply lookup_insert_ne. congruence.
Qed.

End Adds.


Section Turns.
Context `{Externals}.

Variables (local : string) (ref : Named) (resolver : Opt).

Lemma dispatchLayer_only i layer f content w r w' :
  dispatchLayer local i layer f content w = (r, w') →
  only_files w w' ∧ ∀ f', r = Ok f' → fname f' = fname f.
Proof.
  unfold dispatchLayer. destruct (String.eqb _ _).
  - destruct (bool_decide _).
    + unfold bind. destruct (os_Create _ w) as [[h|e|msg] w1] eqn:E1;
        destruct (Create_only _ _ _ _ E1) as [Ho1 _];
        [|intros [= <- <-]; split; [exact Ho1 | discriminate] ..].
      destruct (writeComposeFile layer i h content w1) as [r2 w2] eqn:E2.
      destruct (writeComposeFile_only _ _ _ _ _ _ _ E2) as (Ho2 & (f2 & -> & _) & _).
      intros [= <- <-]. split; [exact (only_files_trans _ _ _ Ho1 Ho2)|]. now intros f' [= <-].
    + intros E. destruct (writeComposeFile_only _ _ _ _ _ _ _ E) as (Ho & (f2 & -> & Hn) & _).
      split; [exact Ho|]. now intros f' [= <-].
  - destruct (String.eqb _ _).
    + unfold bind. destruct (writeEnvFile layer local content w) as [[[]|e|msg] w1] eqn:E1;
        destruct (writeEnvFile_only _ _ _ _ _ _ E1) as [Ho1 _];
        intros [= <- <-]; (split; [exact Ho1|]); [now intros f' [= <-] | discriminate..].
    + destruct (String.eqb _ _); intros [= <- <-];
        (split; [apply only_files_refl | now intros f' [= <-]]).
Qed.

(** A layer that is not written to the primary file leaves every file alone
    but the one it creates, and the primary file open where it was. *)
Lemma dispatchLayer_spares i layer f content w r w' :
  primaryLayer layer = false →
  dispatchLayer local i layer f content w = (r, w') →
  (∀ f', r = Ok f' → f' = f)
  ∧ ∀ q, target local layer ≠ Some q → files w' !! q = files w !! q.
Proof.
  unfold primaryLayer, dispatchLayer, target. destruct (String.eqb _ _); simpl.
  - destruct (bool_decide _); [intros _|discriminate].
    unfold bind. destruct (os_Create _ w) as [[h|e|msg] w1] eqn:E1;
      destruct (Create_only _ _ _ _ E1) as [_ Hh];
      [|intros [= <- <-]; split; [discriminate|intros q _];
        now rewrite (Create_failed _ _ _ _ E1) ..].
    destruct (Hh _ eq_refl) as [-> Hf1].
    destruct (writeComposeFile layer i _ content w1) as [r2 w2] eqn:E2.
    destruct (writeComposeFile_only _ _ _ _ _ _ _ E2) as (_ & (f2 & -> & _) & Hq2).
    intros [= <- <-]. split; [now intros f' [= <-]|].
    intros q Hq. simpl in Hq2. rewrite Hq2 by congruence. rewrite Hf1.
    apply lookup_insert_ne. congruence.
  - intros _. destruct (String.eqb _ _).
    + unfold bind. destruct (writeEnvFile layer local content w) as [[[]|e|msg] w1] eqn:E1;
        destruct (writeEnvFile_only _ _ _ _ _ _ E1) as [_ Hq1];
        intros [= <- <-]; (split; [|exact Hq1]); [now intros f' [= <-] | discriminate..].
    + destruct (String.eqb _ _); intros [= <- <-]; (split; [now intros f' [= <-] | done]).
Qed.

(** A turn: either the digest does not make a reference and nothing
    happens, or the resolver is asked and, after that, only files change. *)
Lemma pullLayer_cases i layer f w r w' :
  pullLayer local ref resolver i layer f w = (r, w') →
  (layerRef ref layer = None ∧ w' = w ∧ ∀ f', r ≠ Ok f')
  ∨ ∃ d, layerRef ref layer = Some d ∧ only_files (log_get d w) w'
         ∧ ∀ f', r = Ok f' →
                 fname f' = fname f
                 ∧ ∃ got, Resolver_Get resolver d = Success got
                          ∧ dispatchLayer local i layer f got.1 (log_get d w) = (Ok f', w').
Proof.
  unfold pullLayer, layerRef, bind, resolver_Get.
  destruct (WithDigest ref (Digest layer)) as [digested|e]; simpl;
    [|intros [= <- <-]; left; repeat split; discriminate].
  intros E. right. exists (Named_String digested). split; [reflexivity|].
  destruct (Resolver_Get resolver (Named_String digested)) as [got|e]; simpl in E;
    [|injection E as <- <-; split; [apply only_files_refl | discriminate]].
  destruct (dispatchLayer_only _ _ _ _ _ _ _ E) as [Ho Hn].
  split; [exact Ho|]. intros f' ->. split; [now apply Hn|]. now exists got.
Qed.

Lemma layerRefs_cons_Some layer rest d :
  layerRef ref layer = Some d → layerRefs ref (layer :: rest) = d :: layerRefs ref rest.
Proof. intros Hd. unfold layerRefs. simpl. now rewrite Hd. Qed.

(** The loop: the environment, the table and the directories stay, no file
    goes, and the resolver has been asked for the first [n] layers, each
    under its own reference, in their order, where the loop ended at or after
    the [n]th layer. *)
Lemma pullLayers_adds i layers f w r w' :
  pullLayers local ref resolver i layers f w = (r, w') →
  env w' = env w ∧ known w' = known w ∧ dirs w' = dirs w
  ∧ (∀ p, is_Some (files w !! p) → is_Some (files w' !! p))
  ∧ (∃ n asked, (n ≤ length layers)%nat
                ∧ Forall2 (λ layer r, layerRef ref layer = Some r) (take n layers) asked
                ∧ gets w' = gets w ++ asked)
  ∧ (r = Ok () → gets w' = gets w ++ layerRefs ref layers
                 ∧ length (layerRefs ref layers) = length layers).
Proof.
  revert i f w. induction layers as [|layer rest IH]; intros i f w; cbn [pullLayers].
  - intros [= <- <-]. simpl. repeat split; try done.
    + exists 0, []. split; [done|]. split; [constructor|]. now rewrite app_nil_r.
    + now rewrite app_nil_r.
  - unfold bind.
    destruct (pullLayer local ref resolver i layer f w) as [r1 w1] eqn:E1.
    destruct (pullLayer_cases _ _ _ _ _ _ E1)
      as [(Hd & -> & Hfail)|(d & Hd & (He & Hk & Hg & Hdir & Hf) & Hok)].
    + destruct r1 as [f1|e|msg]; [now destruct (Hfail f1)|intros [= <- <-] ..];
        (repeat split; try done; exists 0, []; split; [lia|]; split; [constructor|];
         now rewrite app_nil_r).
    + rewrite (layerRefs_cons_Some _ rest _ Hd). simpl in He, Hk, Hg, Hdir, Hf.
      destruct r1 as [f1|e|msg].
      * intros E2.
        destruct (IH _ _ _ E2)
          as (He2 & Hk2 & Hdir2 & Hf2 & (n & asked & Hn & Hasked & Hg2) & Hok2).
        split; [congruence|]. split; [congruence|]. split; [congruence|].
        split; [|split].
        -- intros p Hp. now apply Hf2, Hf.
        -- exists (S n), (d :: asked). split; [simpl; lia|].
           split; [simpl; now constructor|].
           rewrite Hg2, Hg. now rewrite <- app_assoc.
        -- intros Hr. destruct (Hok2 Hr) as [Hall Hlen]. split.
           ++ rewrite Hall, Hg. now rewrite <- app_assoc.
           ++ simpl. now rewrite Hlen.
      * intros [= <- <-]. repeat split; try done.
        exists 1, [d]. split; [simpl; lia|]. simpl. rewrite take_0.
        split; [now repeat constructor | exact Hg].
      * intros [= <- <-]. repeat split; try done.
        exists 1, [d]. split; [simpl; lia|]. simpl. rewrite take_0.
        split; [now repeat constructor | exact Hg].
Qed.

End Turns.


(** ** Materialization as a whole *)

Lemma MkdirAll_made name w w' :
  os_MkdirAll name w = (Ok (), w') →
  name ≠ "" ∧ files w' = files w ∧ env w' = env w ∧ known w' = known w
  ∧ gets w' = gets w ∧ dirs w ⊆ dirs w' ∧ name ∈ dirs w'
  ∧ ∀ p, p ∈ ancestors name → p ∈ dirs w' ∧ files w !! p = None.
Proof.
  unfold os_MkdirAll. destruct (String.eqb_spec name "") as [->|Hne]; [discriminate|].
  destruct (List.find _ _) eqn:Hfind; [discriminate|]. intros [= <-]. simpl.
  repeat split; try done.
  - apply union_subseteq_r.
  - apply elem_of_union_l, elem_of_list_to_set, elem_of_app. right. now left.
  - apply elem_of_union_l, elem_of_list_to_set, elem_of_app. now left.
  - pose proof (find_none _ _ Hfind p) as Hp. unfold is_file in Hp.
    destruct (files w !! p) eqn:Hx; [|done].
    rewrite bool_decide_eq_true_2 in Hp by eauto.
    discriminate Hp. apply in_or_app. left. now apply list_elem_of_In.
Qed.

Lemma MkdirAll_grows name w r w' :
  os_MkdirAll name w = (r, w') →
  env w' = env w ∧ known w' = known w ∧ gets w' = gets w ∧ files w' = files w
  ∧ dirs w ⊆ dirs w'.
Proof.
  unfold os_MkdirAll. destruct (String.eqb name ""); [now intros [= _ <-]|].
  destruct (List.find _ _); intros [= _ <-]; [done|].
  repeat split. apply union_subseteq_r.
Qed.

Lemma stat_present w name :
  name ≠ "" → (∀ p, p ∈ ancestors name → files w !! p = None) → name ∈ dirs w →
  stat w name = None.
Proof.
  intros Hne Habove Hdir. unfold stat.
  destruct (String.eqb_spec name ""); [done|].
  destruct (existsb _ _) eqn:Hex.
  - apply existsb_exists in Hex as (p & Hp & Hfile).
    apply list_elem_of_In in Hp. unfold is_file in Hfile.
    apply bool_decide_eq_true_1 in Hfile as [x Hx]. rewrite (Habove p Hp) in Hx. discriminate.
  - unfold is_dir. now rewrite bool_decide_eq_true_2.
Qed.

Section Materialized.
Context `{Externals}.

Lemma pullComposeFiles_Ok_inv g local manifest ref resolver w w' :
  pullComposeFiles g local manifest ref resolver w = (Ok (), w') →
  ∃ w1 w2, os_MkdirAll local w = (Ok (), w1)
           ∧ os_Create (Join local "compose.yaml") w1
             = (Ok {| fname := Join local "compose.yaml"; offset := 0 |}, w2)
           ∧ notComposeProject manifest = false
           ∧ pullLayers local ref resolver 0 (Layers manifest)
               {| fname := Join local "compose.yaml"; offset := 0 |} w2 = (Ok (), w').
Proof.
  unfold pullComposeFiles, bind.
  destruct (os_MkdirAll local w) as [[[]|e|msg] w1] eqn:E1; [|discriminate..].
  destruct (os_Create _ w1) as [[f|e|msg] w2] eqn:E2; [|discriminate..].
  destruct (Create_Ok _ _ _ _ E2) as [-> ->].
  destruct (notComposeProject manifest); [discriminate|].
  intros E3. eauto 6.
Qed.

(** A layer the resolver cannot deliver ends the loop, whatever its media
    type: when the loop has run the turns for the layers [before] and the
    digest of the next layer makes no reference, [pullLayers] returns that
    error without asking the resolver; when the resolver fails for the
    layer, [pullLayers] returns the resolver's error.  Either way nothing is
    asked or written for the layers [after]. *)
Theorem layer_fetch_failure (local : string) (ref : Named) (resolver : Opt)
    (before after : list Descriptor) (layer : Descriptor) (f0 f : File) (w0 w : World) :
  turns local ref resolver 0 before f0 w0 = (Ok f, w) →
  (∀ e, WithDigest ref (Digest layer) = Failure e →
        pullLayers local ref resolver 0 (before ++ layer :: after) f0 w0 = (Err e, w))
  ∧ (∀ digested e, WithDigest ref (Digest layer) = Success digested →
        Resolver_Get resolver (Named_String digested) = Failure e →
        pullLayers local ref resolver 0 (before ++ layer :: after) f0 w0
        = (Err e, log_get (Named_String digested) w)).
Proof.
  intros Hb. rewrite (pullLayers_reach _ _ _ _ _ _ _ _ _ _ Hb). split.
  - intros e Hd. unfold bind, pullLayer, bind. now rewrite Hd.
  - intros digested e Hd Hg.
    now rewrite (bind_Err _ _ _ _ _ (pullLayer_lost _ _ _ _ _ _ _ _ _ Hd Hg)).
Qed.

(** Whatever [pullComposeFiles] returns, it has left the environment and the
    table of known references alone, has removed no directory and no file,
    and has asked the resolver for nothing but the first [n] layers of the
    manifest, for some [n]: each of them once, under the reference its own
    digest makes, in the order of the manifest. *)
Theorem pullComposeFiles_only_adds (g : ociRemoteLoader) (local : string)
    (manifest : Manifest) (ref : Named) (resolver : Opt) (w w' : World) (r : outcome ()) :
  pullComposeFiles g local manifest ref resolver w = (r, w') →
  env w' = env w ∧ known w' = known w
  ∧ dirs w ⊆ dirs w'
  ∧ (∀ p, is_Some (files w !! p) → is_Some (files w' !! p))
  ∧ ∃ n asked, (n ≤ length (Layers manifest))%nat
               ∧ Forall2 (λ layer r, layerRef ref layer = Some r)
                         (take n (Layers manifest)) asked
               ∧ gets w' = gets w ++ asked.
Proof.
  assert (∀ v : World, ∃ n asked, (n ≤ length (Layers manifest))%nat
                     ∧ Forall2 (λ layer r, layerRef ref layer = Some r)
                               (take n (Layers manifest)) asked
                     ∧ gets v = gets v ++ asked) as Hnone.
  { intros v. exists 0, []. split; [lia|]. rewrite take_0, app_nil_r.
    split; [constructor | reflexivity]. }
  unfold pullComposeFiles, bind.
  destruct (os_MkdirAll local w) as [r1 w1] eqn:E1.
  destruct (MkdirAll_grows _ _ _ _ E1) as (He1 & Hk1 & Hg1 & Hf1 & Hd1).
  destruct r1 as [[]|e|msg];
    [|intros [= <- <-]; repeat split; try done;
      [now rewrite Hf1 | rewrite Hg1; apply Hnone] ..].
  destruct (os_Create _ w1) as [r2 w2] eqn:E2.
  destruct (Create_only _ _ _ _ E2) as [(He2 & Hk2 & Hg2 & Hd2 & Hf2) _].
  assert (∀ p, is_Some (files w !! p) → is_Some (files w2 !! p)) as Hf12.
  { intros p Hp. apply Hf2. now rewrite Hf1. }
  destruct r2 as [f|e|msg];
    [|intros [= <- <-]; repeat split; try congruence; try done;
      [now rewrite Hd2 | rewrite Hg2, Hg1; apply Hnone] ..].
  destruct (notComposeProject manifest).
  { intros [= <- <-]. repeat split; try congruence; try done;
      [now rewrite Hd2 | rewrite Hg2, Hg1; apply Hnone]. }
  intros E3.
  destruct (pullLayers_adds _ _ _ _ _ _ _ _ _ E3)
    as (He3 & Hk3 & Hd3 & Hf3 & (n & asked & Hn & Hasked & Hg3) & _).
  repeat split; try congruence.
  - now rewrite Hd3, Hd2.
  - intros p Hp. now apply Hf3, Hf12.
  - exists n, asked. split; [exact Hn|]. split; [exact Hasked|]. now rewrite Hg3, Hg2, Hg1.
Qed.

(** When [pullComposeFiles] returns no error, the resolver has been asked for
    every layer of the manifest, in the order of the manifest, each exactly
    once, and for nothing else. *)
Theorem pullComposeFiles_fetches_in_order (g : ociRemoteLoader) (local : string)
    (manifest : Manifest) (ref : Named) (resolver : Opt) (w w' : World) :
  pullComposeFiles g local manifest ref resolver w = (Ok (), w') →
  gets w' = gets w ++ layerRefs ref (Layers manifest)
  ∧ length (layerRefs ref (Layers manifest)) = length (Layers manifest).
Proof.
  intros Hpull.
  destruct (pullComposeFiles_Ok_inv _ _ _ _ _ _ _ Hpull) as (w1 & w2 & E1 & E2 & _ & E3).
  destruct (MkdirAll_made _ _ _ E1) as (_ & _ & _ & _ & Hg1 & _).
  destruct (Create_only _ _ _ _ E2) as [(_ & _ & Hg2 & _) _].
  destruct (pullLayers_adds _ _ _ _ _ _ _ _ _ E3) as (_ & _ & _ & _ & _ & Hok).
  destruct (Hok eq_refl) as [Hg3 Hlen]. split; [|exact Hlen].
  now rewrite Hg3, Hg2, Hg1.
Qed.

(** A manifest that is refused is refused after the directory and the primary
    file have been made: [pullComposeFiles] returns with the directory in
    place, as [os.Stat] sees it, and the primary file empty.  It is [Load]
    that removes them. *)
Theorem refused_manifest_leaves_directory (g : ociRemoteLoader) (local : string)
    (manifest : Manifest) (ref : Named) (resolver : Opt) (w w1 w2 : World) (f : File) :
  os_MkdirAll local w = (Ok (), w1) →
  os_Create (Join local "compose.yaml") w1 = (Ok f, w2) →
  notComposeProject manifest = true →
  pullComposeFiles g local manifest ref resolver w
  = (Err (NotComposeArtifact (Named_String ref) (ArtifactType manifest)), w2)
  ∧ stat w2 local = None
  ∧ files w2 !! Join local "compose.yaml" = Some [].
Proof.
  intros E1 E2 Hv.
  rewrite (pullComposeFiles_checked g _ manifest ref resolver _ _ _ _ E1 E2), Hv.
  split; [reflexivity|].
  destruct (MkdirAll_made _ _ _ E1) as (Hne & Hf1 & _ & _ & _ & _ & Hdir & Habove).
  destruct (Create_tidy _ _ _ _ E2) as [[Hd2 Hf2] _].
  destruct (Create_Ok _ _ _ _ E2) as [_ Hw2]. split.
  - apply stat_present; [exact Hne| |now rewrite Hd2].
    intros p Hp. destruct (Habove p Hp) as [Hpd Hpf]. apply Hf2; [exact Hpd|].
    now rewrite Hf1.
  - rewrite Hw2. simpl. apply lookup_insert_eq.
Qed.

(** An extends layer without a file annotation has its file named by the
    empty string, which [filepath.Join] joins to the directory itself: where
    it does, the [switch] tries to create the directory as a file and returns
    the error of [os.Create], having written nothing. *)
Theorem extends_without_file (local : string) (i : nat) (layer : Descriptor) (f : File)
    (content : bytes) (w : World) :
  MediaType layer = ComposeYAMLMediaType →
  is_Some (Annotations layer !! "com.docker.compose.extends") →
  Annotations layer !! "com.docker.compose.file" = None →
  Join local "" = local → local ≠ "" → local ∈ dirs w →
  dispatchLayer local i layer f content w = (Err (PathError "open" local EISDIR), w).
Proof.
  intros Hy Hx Hnone Hjoin Hne Hdir.
  rewrite (dispatch_extends _ _ _ _ _ _ Hy Hx), Hnone. simpl. rewrite Hjoin.
  apply bind_Err. unfold os_Create.
  destruct (String.eqb_spec local ""); [done|].
  unfold is_dir. now rewrite bool_decide_eq_true_2.
Qed.

End Materialized.


(** ** The primary file as a stream of documents *)

Lemma write_at_some old off b :
  b ≠ [] →
  write_at old off b
  = take off old ++ replicate (off - length old) x00 ++ b ++ drop (off + length b) old.
Proof. now destruct b. Qed.

Lemma write_at_twice old off a b :
  write_at (write_at old off a) (off + length a) b = write_at old off (a ++ b).
Proof.
  destruct (decide (a = [])) as [->|Ha]; [simpl; now rewrite Nat.add_0_r|].
  destruct (decide (b = [])) as [->|Hb]; [now rewrite app_nil_r|].
  rewrite !write_at_some; [|now destruct a|done|done].
  remember (take off old ++ replicate (off - length old) x00) as P eqn:EP.
  assert (length P = off) as HP.
  { subst P. rewrite length_app, length_take, length_replicate. lia. }
  rewrite !(app_assoc (take off old)). rewrite <- EP.
  assert (length (P ++ a ++ drop (off + length a) old) >= off + length a) as Hlen
    by (rewrite !length_app; lia).
  replace (off + length a - length (P ++ a ++ drop (off + length a) old)) with 0 by lia.
  simpl.
  rewrite (app_assoc P a (drop _ _)).
  rewrite take_app_length' by (rewrite length_app; lia).
  rewrite drop_app_ge by (rewrite length_app; lia).
  rewrite drop_drop, !length_app, <- !app_assoc.
  do 3 f_equal. f_equal. lia.
Qed.

Section Primary.
Context `{Externals}.

Variables (local : string) (ref : Named) (resolver : Opt).

(** [writeComposeFile] on any file, at any offset. *)
Lemma writeComposeFile_at layer i f content w :
  writeComposeFile layer i f content w
  = (Ok {| fname := fname f; offset := offset f + length (lead layer i ++ content) |},
     set_fs (dirs w)
       (<[fname f := write_at (default [] (files w !! fname f)) (offset f)
                              (lead layer i ++ content)]> (files w)) w).
Proof.
  unfold writeComposeFile, lead, bind, File_Write, ret.
  destruct (bool_decide (0 < i) && _); cbn -[write_at].
  - rewrite lookup_insert_eq, insert_insert_eq. cbn -[write_at].
    rewrite write_at_twice. do 3 f_equal. rewrite ?length_app. simpl. lia.
  - reflexivity.
Qed.

Lemma primaryLayer_true layer :
  primaryLayer layer = true →
  MediaType layer = ComposeYAMLMediaType
  ∧ Annotations layer !! "com.docker.compose.extends" = None.
Proof.
  unfold primaryLayer. destruct (String.eqb_spec (MediaType layer) ComposeYAMLMediaType);
    [|discriminate]. simpl. intros Hx. split; [done|].
  destruct (bool_decide_reflect (is_Some (Annotations layer !! "com.docker.compose.extends")))
    as [?|Hn]; [discriminate|].
  destruct (_ !! _); [|done]. destruct Hn. eauto.
Qed.

Lemma pullLayers_Ok_turns i layers f w w' :
  pullLayers local ref resolver i layers f w = (Ok (), w') →
  ∃ f', turns local ref resolver i layers f w = (Ok f', w').
Proof.
  revert i f w. induction layers as [|layer rest IH]; intros i f w; simpl.
  - intros [= <-]. now exists f.
  - unfold bind. destruct (pullLayer _ _ _ _ _ _ _) as [[f1|e|msg] w1]; [|discriminate..].
    apply IH.
Qed.

(** The turns for [layers] leave the primary file longer by what [stream]
    says, when none of the layers creates a file of the primary file's
    name. *)
Lemma turns_stream layers i f w old f' w' :
  files w !! fname f = Some old → offset f = length old →
  Forall (λ layer, target local layer ≠ Some (fname f)) layers →
  turns local ref resolver i layers f w = (Ok f', w') →
  files w' !! fname f = Some (old ++ stream ref resolver i layers)
  ∧ f' = {| fname := fname f; offset := length (old ++ stream ref resolver i layers) |}.
Proof.
  revert i f w old. induction layers as [|layer rest IH]; intros i f w old Hold Hoff Hspare.
  - intros [= <- <-]. simpl. rewrite app_nil_r. split; [exact Hold|].
    destruct f. simpl in *. now subst.
  - apply Forall_cons in Hspare as [Hlayer Hrest]. cbn [turns stream]. unfold bind.
    destruct (pullLayer local ref resolver i layer f w) as [[f1|e|msg] w1] eqn:E1;
      [|discriminate..].
    destruct (pullLayer_cases _ _ _ _ _ _ _ _ _ E1)
      as [(_ & _ & Hfail)|(d & Hd & _ & Hok)]; [now destruct (Hfail f1)|].
    destruct (Hok _ eq_refl) as (Hname & got & Hg & Hdisp).
    assert (fetched ref resolver layer = got.1) as Hfetched
      by (unfold fetched; now rewrite Hd, Hg).
    assert (files w1 !! fname f1
            = Some (old ++ (if primaryLayer layer
                            then lead layer i ++ fetched ref resolver layer else []))
            ∧ offset f1
              = length (old ++ (if primaryLayer layer
                                then lead layer i ++ fetched ref resolver layer else [])))
      as [Hold1 Hoff1].
    { destruct (primaryLayer layer) eqn:Hprim.
      - destruct (primaryLayer_true _ Hprim) as [Hy Hx].
        rewrite (dispatch_primary _ _ _ _ _ _ Hy Hx) in Hdisp.
        rewrite (writeComposeFile_append _ _ _ _ _ old) in Hdisp by done.
        injection Hdisp as <- <-. simpl. rewrite lookup_insert_eq, Hfetched. done.
      - destruct (dispatchLayer_spares _ _ _ _ _ _ _ _ Hprim Hdisp) as [Hsame Hother].
        rewrite (Hsame _ eq_refl), app_nil_r. split; [|exact Hoff].
        rewrite (Hother _ Hlayer). exact Hold. }
    intros E2. rewrite <- Hname in *.
    destruct (IH _ _ _ _ Hold1 Hoff1 Hrest E2) as [Hfinal Hf'].
    rewrite <- !app_assoc in Hfinal, Hf'. now split.
Qed.

(** When [pullComposeFiles] returns no error for a manifest none of whose
    extends and env-file layers is named like the primary file, the primary
    file consists of the contents of the compose-YAML layers without the
    extends annotation, in the order of the manifest, each after the
    separator when it is not the first layer of the manifest and has a file
    annotation. *)
Theorem primary_file_is_stream (g : ociRemoteLoader) (manifest : Manifest) (w w' : World) :
  Forall (λ layer, target local layer ≠ Some (Join local "compose.yaml")) (Layers manifest) →
  pullComposeFiles g local manifest ref resolver w = (Ok (), w') →
  files w' !! Join local "compose.yaml" = Some (stream ref resolver 0 (Layers manifest)).
Proof.
  intros Hspare Hpull.
  destruct (pullComposeFiles_Ok_inv _ _ _ _ _ _ _ Hpull) as (w1 & w2 & _ & E2 & _ & E3).
  destruct (Create_Ok _ _ _ _ E2) as [_ ->].
  destruct (pullLayers_Ok_turns _ _ _ _ _ E3) as [f' Hturns].
  eapply (turns_stream _ _ _ _ []) in Hturns.
  - now destruct Hturns.
  - simpl. apply lookup_insert_eq.
  - reflexivity.
  - exact Hspare.
Qed.

(** An extends layer whose file is named like the primary file takes the
    primary file's place: after its turn the file consists of what was
    written for this layer, whatever earlier layers had put there, while the
    primary file stays open at the offset it had. *)
Theorem extends_layer_replaces_primary (i : nat) (layer : Descriptor) (f target : File)
    (w w1 : World) (digested : Named) (content : bytes) (descriptor : Descriptor) :
  MediaType layer = ComposeYAMLMediaType →
  is_Some (Annotations layer !! "com.docker.compose.extends") →
  Join local (default "" (Annotations layer !! "com.docker.compose.file")) = fname f →
  WithDigest ref (Digest layer) = Success digested →
  Resolver_Get resolver (Named_String digested) = Success (content, descriptor) →
  os_Create (fname f) (log_get (Named_String digested) w) = (Ok target, w1) →
  ∃ w', pullLayer local ref resolver i layer f w = (Ok f, w')
        ∧ files w' !! fname f = Some (lead layer i ++ content).
Proof.
  intros Hy Hx Hname Hd Hg Hc.
  rewrite (pullLayer_fetched local ref resolver i layer f w _ _ _ Hd Hg).
  rewrite (dispatch_extends _ _ _ _ _ _ Hy Hx), Hname. run Hc.
  destruct (Create_Ok _ _ _ _ Hc) as [-> ->].
  erewrite bind_Ok;
    [|apply (writeComposeFile_append _ _ _ content _ []); [apply lookup_insert_eq|done]].
  eexists. split; [reflexivity|]. simpl. apply lookup_insert_eq.
Qed.

(** A layer written to the primary file goes where the file's offset is,
    not where the file ends.  When the file has been cut short since it was
    opened, as by an extends layer of the same name, zero bytes fill the gap
    between what is left and what is written; when nothing is written, the
    layer having no content and no separator before it, the file stays as
    short as it is.  The offset advances by what was written. *)
Theorem primary_layer_written_at_offset (i : nat) (layer : Descriptor) (f : File)
    (w : World) (digested : Named) (content : bytes) (descriptor : Descriptor)
    (old : bytes) :
  primaryLayer layer = true →
  WithDigest ref (Digest layer) = Success digested →
  Resolver_Get resolver (Named_String digested) = Success (content, descriptor) →
  files w !! fname f = Some old → (length old ≤ offset f)%nat →
  ∃ f' w', pullLayer local ref resolver i layer f w = (Ok f', w')
           ∧ files w' !! fname f
             = Some (if decide (lead layer i ++ content = []) then old
                     else old ++ replicate (offset f - length old) x00
                          ++ lead layer i ++ content)
           ∧ f' = {| fname := fname f;
                     offset := offset f + length (lead layer i ++ content) |}.
Proof.
  intros Hprim Hd Hg Hold Hlen. destruct (primaryLayer_true _ Hprim) as [Hy Hx].
  rewrite (pullLayer_fetched local ref resolver i layer f w _ _ _ Hd Hg).
  rewrite (dispatch_primary _ _ _ _ _ _ Hy Hx), writeComposeFile_at.
  eexists _, _. split; [reflexivity|]. split; [|reflexivity].
  cbn -[write_at]. rewrite lookup_insert_eq, Hold. cbn -[write_at].
  destruct (decide (lead layer i ++ content = [])) as [->|Hsome]; [reflexivity|].
  rewrite write_at_some by done.
  rewrite take_ge by lia. rewrite drop_ge by lia. now rewrite app_nil_r.
Qed.

End Primary.

Section Exists.
Context `{Externals}.

Variables (g : ociRemoteLoader) (path rest : string) (ref : Named) (resolver : Opt)
  (content : bytes) (descriptor : Descriptor) (cache hex : string) (w : World).

Hypothesis Henabled : ociRemoteLoaderEnabled w = (Ok true, w).
Hypothesis Honline : offline g = false.
Hypothesis Hunknown : known w !! path = None.
Hypothesis Hslice : slice_from path (String.length OciPrefix) = Some rest.
Hypothesis Hparse : ParseDockerRef rest = Success ref.
Hypothesis Hconfig : GetImageConfig (dockerCli g) = Success resolver.
Hypothesis Hget : Resolver_Get resolver (Named_String ref) = Success (content, descriptor).
Hypothesis Hcache : cacheDir = Success cache.
Hypothesis Hhex : Hex (Digest descriptor) = Some hex.

(** When [Load] has materialized an artifact, what it returns is the name of
    a file that exists, in a directory that exists as [os.Stat] sees it, and
    [Dir] of the path is that directory. *)
Theorem Load_materialized_exists (manifest : Manifest) (w1 : World) :
  IsNotExist (stat w (Join cache hex)) = true →
  Unmarshal content = Success manifest →
  pullComposeFiles g (Join cache hex) manifest ref resolver (log_get (Named_String ref) w)
  = (Ok (), w1) →
  ∃ w', Load g path w = (Ok (Join (Join cache hex) "compose.yaml"), w')
        ∧ stat w' (Join cache hex) = None
        ∧ is_Some (files w' !! Join (Join cache hex) "compose.yaml")
        ∧ Dir g path w' = (Ok (Join cache hex), w').
Proof.
  intros Hstat Hj Hpull.
  pose proof (Load_materializes g path rest ref resolver content descriptor cache hex
                Honline Hslice Hparse Hconfig Hget Hcache Hhex manifest w
                Henabled Hunknown Hstat Hj) as HL.
  rewrite Hpull in HL. simpl in HL. eexists. split; [exact HL|].
  destruct (pullComposeFiles_Ok_inv _ _ _ _ _ _ _ Hpull) as (wa & wb & E1 & E2 & _ & E3).
  destruct (MkdirAll_made _ _ _ E1) as (Hne & _ & _ & _ & _ & _ & Hdir & _).
  destruct (Create_only _ _ _ _ E2) as [(_ & _ & _ & Hdb & _) Hh].
  destruct (Hh _ eq_refl) as [_ Hfb].
  destruct (pullLayers_adds _ _ _ _ _ _ _ _ _ E3) as (_ & _ & Hd3 & Hf3 & _).
  split; [|split].
  - apply stat_present; [exact Hne| |simpl; now rewrite Hd3, Hdb].
    exact (pullComposeFiles_above _ _ _ _ _ _ _ _
             (stat_missing_above (log_get (Named_String ref) w) _ Hstat) Hpull).
  - simpl. apply Hf3. rewrite Hfb, lookup_insert_eq. eauto.
  - unfold Dir. simpl. now rewrite lookup_insert_eq.
Qed.

End Exists.


(** ** Where [Load] panics, and what it does not look at again *)

Lemma calm_ret {A} (a : A) : calm (ret a).
Proof. intros w msg w'. discriminate. Qed.

Lemma calm_throw {A} e : calm (@throw A e).
Proof. intros w msg w'. discriminate. Qed.

Lemma calm_lift {A} (x : result A) : calm (lift x).
Proof. destruct x; [apply calm_ret | apply calm_throw]. Qed.

Lemma calm_bind {A B} (m : M A) (k : A → M B) :
  calm m → (∀ a, calm (k a)) → calm (bind m k).
Proof.
  intros Hm Hk w msg w'. unfold bind.
  destruct (m w) as [[a|e|msg1] w1] eqn:E; [apply Hk|discriminate|].
  now destruct (Hm _ _ _ E).
Qed.

Lemma calm_catch {A} (m : M A) (h : error → M A) :
  calm m → (∀ e, calm (h e)) → calm (catch m h).
Proof.
  intros Hm Hh w msg w'. unfold catch.
  destruct (m w) as [[a|e|msg1] w1] eqn:E; [discriminate|apply Hh|].
  now destruct (Hm _ _ _ E).
Qed.

Lemma calm_MkdirAll name : calm (os_MkdirAll name).
Proof.
  intros w msg w'. unfold os_MkdirAll.
  destruct (String.eqb name ""); [discriminate|]. destruct (List.find _ _); discriminate.
Qed.

Lemma calm_Create name : calm (os_Create name).
Proof.
  intros w msg w'. unfold os_Create.
  destruct (String.eqb name ""); [discriminate|].
  destruct (is_dir w name); [discriminate|].
  destruct (List.last _ _) as [p|]; [|discriminate].
  destruct (is_dir w p); [discriminate|]. destruct (is_file w p); discriminate.
Qed.

Lemma calm_Write f b : calm (File_Write f b).
Proof. intros w msg w'. discriminate. Qed.

Lemma calm_RemoveAll name : calm (os_RemoveAll name).
Proof. intros w msg w'. unfold os_RemoveAll. destruct (String.eqb name ""); discriminate. Qed.

Section Calm.
Context `{Externals}.

Lemma calm_Get resolver ref : calm (resolver_Get resolver ref).
Proof.
  intros w msg w'. unfold resolver_Get. destruct (Resolver_Get resolver ref); discriminate.
Qed.

Lemma calm_dispatchLayer local i layer f content :
  calm (dispatchLayer local i layer f content).
Proof.
  assert (∀ g, calm (writeComposeFile layer i g content)) as Hwrite.
  { intros g. unfold writeComposeFile. apply calm_bind.
    - destruct (_ && _); [apply calm_Write | apply calm_ret].
    - intros f'. apply calm_Write. }
  unfold dispatchLayer. destruct (String.eqb _ _).
  - destruct (bool_decide _); [|apply Hwrite].
    apply calm_bind; [apply calm_Create|]. intros target.
    apply calm_bind; [apply Hwrite|]. intros _. apply calm_ret.
  - destruct (String.eqb _ _).
    + apply calm_bind; [|intros _; apply calm_ret].
      unfold writeEnvFile. destruct (_ !! _); [|apply calm_throw].
      apply calm_bind; [apply calm_Create|]. intros g.
      apply calm_bind; [apply calm_Write|]. intros _. apply calm_ret.
    + destruct (String.eqb _ _); apply calm_ret.
Qed.

Lemma calm_pullLayers local ref resolver i layers f :
  calm (pullLayers local ref resolver i layers f).
Proof.
  revert i f. induction layers as [|layer rest IH]; intros i f; simpl.
  - apply calm_ret.
  - apply calm_bind; [|intros f'; apply IH].
    unfold pullLayer. apply calm_bind; [apply calm_lift|]. intros digested.
    apply calm_bind; [apply calm_Get|]. intros got. apply calm_dispatchLayer.
Qed.

Lemma calm_pullComposeFiles g local manifest ref resolver :
  calm (pullComposeFiles g local manifest ref resolver).
Proof.
  unfold pullComposeFiles. apply calm_bind; [apply calm_MkdirAll|]. intros _.
  apply calm_bind; [apply calm_Create|]. intros f.
  destruct (notComposeProject manifest); [apply calm_throw | apply calm_pullLayers].
Qed.

(** With the calls into other packages returning as their signatures say,
    [pullComposeFiles] never panics, and [Load] panics in two places only: at
    the slice, for a path shorter than the scheme prefix, having done
    nothing; and at [digest.Digest.Hex], for a descriptor whose digest has no
    colon. *)
Theorem Load_panics_only (g : ociRemoteLoader) (path : string) (w w' : World) (msg : string) :
  Load g path w = (Panic msg, w') →
  ((String.length path < String.length OciPrefix)%nat
   ∧ msg = "slice bounds out of range" ∧ w' = w)
  ∨ msg = "no ':' separator in digest".
Proof.
  unfold Load, bind. pose proof (enabled_world w) as [Hw Hcalm].
  destruct (ociRemoteLoaderEnabled w) as [[[]|e|m0] w0]; simpl in Hw; subst w0;
    [|simpl; discriminate..|now destruct (Hcalm m0)].
  cbn [negb]. destruct (offline g); [discriminate|].
  destruct (known w !! path); [discriminate|].
  destruct (slice_from path (String.length OciPrefix)) as [rest|] eqn:Hs.
  - destruct (lift (ParseDockerRef rest) w) as [[ref|e|m1] w1] eqn:E1; cbv beta iota;
      [|discriminate|now destruct (calm_lift _ _ _ _ E1)].
    destruct (lift (GetImageConfig (dockerCli g)) w1) as [[opt|e|m2] w2] eqn:E2;
      cbv beta iota; [|discriminate|now destruct (calm_lift _ _ _ _ E2)].
    destruct (resolver_Get opt (Named_String ref) w2) as [[got|e|m3] w3] eqn:E3;
      cbv beta iota; [|discriminate|now destruct (calm_Get _ _ _ _ _ E3)].
    destruct (catch (lift cacheDir) (λ err, throw (CacheInit err)) w3)
      as [[cache|e|m4] w4] eqn:E4; cbv beta iota; [|discriminate|].
    2: { exfalso. revert E4. apply calm_catch; [apply calm_lift|intros; apply calm_throw]. }
    destruct (Hex (Digest got.2)) as [hex|]; [|intros [= <- _]; now right].
    intros HL. exfalso. revert HL.
    change (bind (os_Stat (Join cache hex))
              (λ err, bind (if IsNotExist err
                            then bind (lift (Unmarshal got.1))
                                   (λ manifest,
                                      catch (pullComposeFiles g (Join cache hex) manifest ref opt)
                                        (λ err, bind (os_RemoveAll (Join cache hex))
                                                  (λ _, throw err)))
                            else ret ())
                        (λ _, bind (λ w', (Ok (), set_known (<[path := Join cache hex]> (known w')) w'))
                                (λ _, ret (Join (Join cache hex) "compose.yaml")))) w4
            ≠ (Panic msg, w')).
    apply calm_bind; [intros ? ? ?; discriminate|]. intros err.
    apply calm_bind;
      [|intros _; apply calm_bind; [intros ? ? ?; discriminate|intros _; apply calm_ret]].
    destruct (IsNotExist err); [|apply calm_ret].
    apply calm_bind; [apply calm_lift|]. intros manifest.
    apply calm_catch; [apply calm_pullComposeFiles|]. intros e.
    apply calm_bind; [apply calm_RemoveAll|]. intros _. apply calm_throw.
  - intros [= <- <-]. left. repeat split.
    clear -Hs. revert Hs. generalize (String.length OciPrefix).
    induction path as [|c path IH]; intros [|n]; simpl; try discriminate; try lia.
    intros Hs. apply IH in Hs. lia.
Qed.

(** Once [Load] has returned a file name for a path, an online loader goes
    on returning it for that path whatever is removed from the disk in
    between: the table is not checked against the file system. *)
Theorem Load_memo_is_not_rechecked (g : ociRemoteLoader) (path p name : string)
    (w w' : World) :
  offline g = false → Load g path w = (Ok p, w') →
  Load g path (os_RemoveAll name w').2 = (Ok p, (os_RemoveAll name w').2).
Proof.
  intros Hoff HL. destruct (Load_Ok_known _ _ _ _ _ Hoff HL) as (local & Hk & ->).
  destruct (keeps_RemoveAll name w' _ _ (surjective_pairing _)) as [He' Hk'].
  assert (ociRemoteLoaderEnabled w = (Ok true, w)) as E.
  { pose proof (enabled_world w) as [Hw Hcalm]. unfold Load in HL.
    destruct (ociRemoteLoaderEnabled w) as [[[]|e|m0] w0] eqn:E; simpl in Hw; subst w0;
      [reflexivity|run_in E HL; discriminate HL..]. }
  assert (env w' = env w) as He.
  { destruct (Load_inv _ _ _ _ _ HL) as [->|(_ & _ & _ & He & _)]; done. }
  unfold Load. rewrite (bind_Ok _ _ _ true (os_RemoveAll name w').2).
  - cbn [negb]. now rewrite Hoff, Hk', Hk.
  - apply (enabled_env w); [congruence | exact E].
Qed.

End Calm.


(** ** The directories of the files the layers name *)

Lemma Create_no_parent name p w :
  List.last (map Some (ancestors name)) None = Some p → p ∉ dirs w →
  ∃ errno, os_Create name w = (Err (PathError "open" name errno), w).
Proof.
  intros Hp Hdir. unfold os_Create.
  destruct (String.eqb name ""); [eauto|].
  destruct (is_dir w name); [eauto|]. rewrite Hp.
  unfold is_dir at 1. rewrite bool_decide_eq_false_2 by done.
  destruct (is_file w p); eauto.
Qed.

Section Directories.
Context `{Externals}.

Variables (local : string) (ref : Named) (resolver : Opt).

Lemma turns_dirs layers i f w r w' :
  turns local ref resolver i layers f w = (r, w') → dirs w' = dirs w.
Proof.
  revert i f w. induction layers as [|layer rest IH]; intros i f w; simpl.
  - now intros [= _ <-].
  - unfold bind. destruct (pullLayer local ref resolver i layer f w) as [r1 w1] eqn:E1.
    assert (dirs w1 = dirs w) as Hd.
    { destruct (pullLayer_cases _ _ _ _ _ _ _ _ _ E1)
        as [(_ & -> & _)|(d & _ & (_ & _ & _ & Hdir & _) & _)]; [done|exact Hdir]. }
    destruct r1 as [f1|e|msg]; [|now intros [= _ <-]..].
    intros E2. rewrite (IH _ _ _ E2). exact Hd.
Qed.

(** The loop makes no directory.  So an extends or env-file layer whose file
    lies in a directory that is missing when the loop starts ends the loop
    with the error of [os.Create] for that file, whatever the layers before
    it were, and nothing is asked or written for the layers after it. *)
Theorem layer_file_needs_its_directory (before after : list Descriptor)
    (layer : Descriptor) (f0 f : File) (w0 w : World) (name p : string)
    (digested : Named) (content : bytes) (descriptor : Descriptor) :
  turns local ref resolver 0 before f0 w0 = (Ok f, w) →
  target local layer = Some name →
  List.last (map Some (ancestors name)) None = Some p → p ∉ dirs w0 →
  WithDigest ref (Digest layer) = Success digested →
  Resolver_Get resolver (Named_String digested) = Success (content, descriptor) →
  dirs w = dirs w0
  ∧ ∃ errno, pullLayers local ref resolver 0 (before ++ layer :: after) f0 w0
             = (Err (PathError "open" name errno), log_get (Named_String digested) w).
Proof.
  intros Hb Ht Hp Hdir Hd Hg. pose proof (turns_dirs _ _ _ _ _ _ Hb) as Hsame.
  split; [exact Hsame|].
  destruct (Create_no_parent name p (log_get (Named_String digested) w) Hp) as [errno Hc].
  { simpl. now rewrite Hsame. }
  exists errno. rewrite (pullLayers_reach _ _ _ _ _ _ _ _ _ _ Hb).
  apply bind_Err. rewrite (pullLayer_fetched local ref resolver _ layer f w _ _ _ Hd Hg).
  unfold target in Ht. unfold dispatchLayer.
  destruct (String.eqb (MediaType layer) ComposeYAMLMediaType).
  - destruct (bool_decide _); [|discriminate]. injection Ht as ->. now apply bind_Err.
  - destruct (String.eqb (MediaType layer) ComposeEnvFileMediaType); [|discriminate].
    apply bind_Err. unfold writeEnvFile.
    destruct (Annotations layer !! "com.docker.compose.envfile") as [envfilePath|];
      [|discriminate].
    injection Ht as <-. now apply bind_Err.
Qed.

End Directories.


(** ** The loader at work

    The theorems above, applied to the registry of [Fixture], and the runs
    that show where the loader departs from its description. *)

#[local] Existing Instance externals.

Lemma feature_flag_check_witness :
  ociRemoteLoaderEnabled (world []) = (Ok true, world [])
  ∧ Load online "oci://example.com/two" (world [(OCI_REMOTE_ENABLED, "yes")])
    = (Err (ExpectsBoolean (NumError "ParseBool" "yes")),
       world [(OCI_REMOTE_ENABLED, "yes")])
  ∧ Load online "oci://example.com/two" (world [(OCI_REMOTE_ENABLED, "0")])
    = (Err Disabled, world [(OCI_REMOTE_ENABLED, "0")]).
Proof.
  split; [|split].
  - apply (feature_flag_check online "" (world [])). left. reflexivity.
  - apply (feature_flag_check online "oci://example.com/two"
             (world [(OCI_REMOTE_ENABLED, "yes")]) ) with (v := "yes");
      [reflexivity | discriminate | reflexivity].
  - apply (feature_flag_check online "oci://example.com/two"
             (world [(OCI_REMOTE_ENABLED, "0")])) with (v := "0"); reflexivity.
Defined.

(** C7 as the spec words it fails where the variable is set to the empty
    string: the empty string is no boolean for [strconv.ParseBool], and yet
    the flag check reports enabled and [Load] goes on to fetch the artifact. *)
Lemma feature_flag_check_counterexample :
  env (world [(OCI_REMOTE_ENABLED, "")]) !! OCI_REMOTE_ENABLED = Some ""
  ∧ ParseBool "" = Failure (NumError "ParseBool" "")
  ∧ ociRemoteLoaderEnabled (world [(OCI_REMOTE_ENABLED, "")])
    = (Ok true, world [(OCI_REMOTE_ENABLED, "")])
  ∧ (Load online "oci://example.com/two" (world [(OCI_REMOTE_ENABLED, "")])).1
    = Ok "/cache/two/compose.yaml".
Proof. repeat split; vm_compute; reflexivity. Qed.

Lemma offline_load_witness :
  offline offlineLoader = true
  ∧ Load offlineLoader "oci://example.com/two" (world [(OCI_REMOTE_ENABLED, "true")])
    = (Ok "", world [(OCI_REMOTE_ENABLED, "true")])
  ∧ Load offlineLoader "oci://example.com/two" (world [(OCI_REMOTE_ENABLED, "yes")])
    = (Err (ExpectsBoolean (NumError "ParseBool" "yes")),
       world [(OCI_REMOTE_ENABLED, "yes")])
  ∧ Load offlineLoader "oci://example.com/two" (world [(OCI_REMOTE_ENABLED, "false")])
    = (Err Disabled, world [(OCI_REMOTE_ENABLED, "false")]).
Proof.
  split; [reflexivity|]. split; [|split].
  - apply (offline_load offlineLoader "oci://example.com/two"
             (world [(OCI_REMOTE_ENABLED, "true")]) eq_refl).
    right. right. exists "true". split; reflexivity.
  - apply (offline_load offlineLoader "oci://example.com/two"
             (world [(OCI_REMOTE_ENABLED, "yes")]) eq_refl) with (v := "yes");
      [reflexivity | discriminate | reflexivity].
  - apply (offline_load offlineLoader "oci://example.com/two"
             (world [(OCI_REMOTE_ENABLED, "false")]) eq_refl) with (v := "false");
      reflexivity.
Defined.

(** C1 as the spec words it fails for an offline loader whose flag is set to
    false: the path is accepted and [Load] returns the disabled error, not the
    empty string. *)
Lemma offline_load_counterexample :
  Accept offlineLoader "oci://example.com/two" = true
  ∧ offline offlineLoader = true
  ∧ Load offlineLoader "oci://example.com/two" (world [(OCI_REMOTE_ENABLED, "false")])
    = (Err Disabled, world [(OCI_REMOTE_ENABLED, "false")])
  ∧ Load offlineLoader "oci://example.com/two" (world [(OCI_REMOTE_ENABLED, "false")])
    ≠ (Ok "", world [(OCI_REMOTE_ENABLED, "false")]).
Proof.
  assert (Load offlineLoader "oci://example.com/two" (world [(OCI_REMOTE_ENABLED, "false")])
          = (Err Disabled, world [(OCI_REMOTE_ENABLED, "false")])) as E
    by (vm_compute; reflexivity).
  split; [reflexivity|]. split; [reflexivity|].
  split; [exact E | rewrite E; discriminate].
Qed.

Lemma short_path_panics_witness :
  (String.length "oci:/" < String.length OciPrefix)%nat
  ∧ Accept online "oci:/" = false
  ∧ Load online "oci:/" (world []) = (Panic "slice bounds out of range", world [])
  ∧ Accept online "oci://example.com/two" = true
  ∧ ∃ rest, "oci://example.com/two" = (OciPrefix ++ rest)%string
            ∧ slice_from "oci://example.com/two" (String.length OciPrefix) = Some rest.
Proof.
  assert ((String.length "oci:/" < String.length OciPrefix)%nat) as Hlen by (simpl; lia).
  destruct (short_path_panics online "oci:/" (world [])) as [Hshort _].
  destruct (Hshort Hlen) as [Hrej Hpanic].
  destruct (short_path_panics online "oci://example.com/two" (world [])) as [_ Hsafe].
  split; [exact Hlen|]. split; [exact Hrej|].
  split; [apply Hpanic; reflexivity|]. split; [reflexivity|].
  exact (Hsafe eq_refl).
Defined.

(** C10 as the spec words it fails for a short path handed to an offline
    loader, or to a loader whose flag is false: [Load] returns before it
    reaches the slice. *)
Lemma short_path_panics_counterexample :
  (String.length "oci:/" < String.length OciPrefix)%nat
  ∧ Load offlineLoader "oci:/" (world []) = (Ok "", world [])
  ∧ Load online "oci:/" (world [(OCI_REMOTE_ENABLED, "false")])
    = (Err Disabled, world [(OCI_REMOTE_ENABLED, "false")]).
Proof. split; [simpl; lia|]. split; vm_compute; reflexivity. Qed.

Lemma manifest_validation_witness :
  ComposeProjectArtifactType (Externals := externals) ≠ ""
  ∧ notComposeProject (H := externals) twoManifest = false
  ∧ notComposeProject (H := externals) legacyManifest = false
  ∧ pullComposeFiles online "/cache/image" imageManifest "example.com/image" ()
      (world [])
    = (Err (NotComposeArtifact "example.com/image" "application/vnd.oci.image"),
       (os_Create "/cache/image/compose.yaml"
          (os_MkdirAll "/cache/image" (world [])).2).2).
Proof.
  assert (ComposeProjectArtifactType (Externals := externals) ≠ "") as Hne by discriminate.
  split; [exact Hne|].
  split; [apply (manifest_validation online "/cache/image" twoManifest
                   "example.com/image" () (world []) _ _ _ Hne eq_refl eq_refl);
          left; reflexivity|].
  split; [apply (manifest_validation online "/cache/image" legacyManifest
                   "example.com/image" () (world []) _ _ _ Hne eq_refl eq_refl);
          right; split; reflexivity|].
  apply (manifest_validation online "/cache/image" imageManifest
           "example.com/image" () (world []) _ _ _ Hne eq_refl eq_refl).
  reflexivity.
Defined.

Lemma unrecognized_layer_skipped_witness :
  dispatchLayer "/cache/skipped" 0 unknownLayer (primary "skipped") content0
    (started "skipped") = (Ok (primary "skipped"), started "skipped")
  ∧ (∃ w', pullLayer "/cache/skipped" "example.com/skipped" () 0 unknownLayer
             (primary "skipped") (started "skipped") = (Ok (primary "skipped"), w')
           ∧ dirs w' = dirs (started "skipped") ∧ files w' = files (started "skipped")
           ∧ known w' = known (started "skipped")
           ∧ gets w' = gets (started "skipped") ++ ["example.com/skipped@sha256:a0"%string]
           ∧ pullLayers "/cache/skipped" "example.com/skipped" () 0
               ([] ++ unknownLayer :: [yaml1]) (primary "skipped") (started "skipped")
             = pullLayers "/cache/skipped" "example.com/skipped" () 1 [yaml1]
                 (primary "skipped") w')
  ∧ pullLayers "/cache/lost" "example.com/lost" () 0
      ([] ++ lostLayer :: [yaml1]) (primary "lost") (started "lost")
    = (Err (LibError "not found"), log_get "example.com/lost@sha256:ff" (started "lost"))
  ∧ pullLayers "/cache/two" "example.com/two" () 0
      ([] ++ badUnknown :: [yaml1]) (primary "two") (started "two")
    = (Err (LibError "invalid digest format"), started "two")
  ∧ dispatchLayer "/cache/legacy" 0 emptyLayer (primary "legacy") content0
      (started "legacy") = (Ok (primary "legacy"), started "legacy").
Proof.
  assert (ComposeEmptyConfigMediaType ≠ ComposeYAMLMediaType) as Hy by discriminate.
  assert (ComposeEmptyConfigMediaType ≠ ComposeEnvFileMediaType) as He by discriminate.
  destruct (unrecognized_layer_skipped (H := externals) "/cache/skipped"
              "example.com/skipped" () unknownLayer Hy He) as [Hnoop Hloop].
  { right. repeat split; discriminate. }
  destruct (unrecognized_layer_skipped (H := externals) "/cache/lost"
              "example.com/lost" () lostLayer Hy He) as [_ Hlost].
  { right. repeat split; discriminate. }
  destruct (unrecognized_layer_skipped (H := externals) "/cache/two"
              "example.com/two" () badUnknown Hy He) as [_ Hbad].
  { right. repeat split; discriminate. }
  destruct (unrecognized_layer_skipped (H := externals) "/cache/legacy"
              "example.com/legacy" () emptyLayer Hy He) as [Hempty _].
  { left. reflexivity. }
  destruct (Hloop [] [yaml1] (primary "skipped") (primary "skipped") (started "skipped")
              (started "skipped") eq_refl) as (_ & _ & Hfetched).
  destruct (Hlost [] [yaml1] (primary "lost") (primary "lost") (started "lost")
              (started "lost") eq_refl) as (_ & Hmissing & _).
  destruct (Hbad [] [yaml1] (primary "two") (primary "two") (started "two")
              (started "two") eq_refl) as (Hnoref & _ & _).
  split; [apply Hnoop|]. split; [|split; [|split; [|apply Hempty]]].
  - apply (Hfetched "example.com/skipped@sha256:a0"%string content0 yaml0); reflexivity.
  - apply (Hmissing "example.com/lost@sha256:ff"%string); reflexivity.
  - apply Hnoref. reflexivity.
Defined.

(** C9 as the specification words it fails for a layer of a media type the
    loader does not know whose blob the registry does not have: the layer is
    fetched like any other, and materialization ends with the resolver's
    error. *)
Lemma unrecognized_layer_skipped_counterexample :
  Layers lostManifest = [lostLayer]
  ∧ MediaType lostLayer ≠ ComposeYAMLMediaType (Externals := externals)
  ∧ MediaType lostLayer ≠ ComposeEnvFileMediaType (Externals := externals)
  ∧ MediaType lostLayer ≠ ComposeEmptyConfigMediaType (Externals := externals)
  ∧ pullComposeFiles online "/cache/lost" lostManifest "example.com/lost" () (world [])
    = (Err (LibError "not found"), log_get "example.com/lost@sha256:ff" (started "lost"))
  ∧ (Load online "oci://example.com/lost" (world [])).1 = Err (LibError "not found").
Proof.
  split; [reflexivity|]. do 3 (split; [discriminate|]).
  split; vm_compute; reflexivity.
Qed.

Lemma envfile_layer_witness :
  dispatchLayer "/cache/envbare" 0 envBare (primary "envbare") contentEnv (started "envbare")
  = (Err (MissingEnvfile "sha256:e0"), started "envbare")
  ∧ pullLayers "/cache/envbare" "example.com/envbare" () 0
      ([] ++ envBare :: [yaml1]) (primary "envbare") (started "envbare")
    = (Err (MissingEnvfile "sha256:e0"),
       log_get "example.com/envbare@sha256:e0" (started "envbare"))
  ∧ pullLayers "/cache/envnamed" "example.com/envnamed" () 0
      ([] ++ envNamed :: []) (primary "envnamed") (started "envnamed")
    = pullLayers "/cache/envnamed" "example.com/envnamed" () 1 [] (primary "envnamed")
        (set_fs (dirs (started "envnamed"))
           (<["/cache/envnamed/.env"%string := contentEnv]> (files (started "envnamed")))
           (log_get "example.com/envnamed@sha256:e0" (started "envnamed")))
  ∧ pullLayers "/cache/two" "example.com/two" () 0
      ([] ++ nested :: [yaml1]) (primary "two") (started "two")
    = (Err (PathError "open" "/cache/two/conf/.env" ENOENT),
       log_get "example.com/two@sha256:e0" (started "two"))
  ∧ pullLayers "/cache/two" "example.com/two" () 0
      ([] ++ envLost :: [yaml1]) (primary "two") (started "two")
    = (Err (LibError "not found"), log_get "example.com/two@sha256:ff" (started "two")).
Proof.
  assert (ComposeEnvFileMediaType ≠ ComposeYAMLMediaType) as Hne by discriminate.
  destruct (envfile_layer (H := externals) "/cache/envbare" "example.com/envbare" ()
              envBare Hne eq_refl) as [Hswitch Hbare].
  destruct (Hswitch eq_refl) as [Hmissing _].
  destruct (Hbare [] [yaml1] (primary "envbare") (primary "envbare") (started "envbare")
              (started "envbare") eq_refl) as (_ & _ & Hbare').
  destruct (Hbare' "example.com/envbare@sha256:e0"%string contentEnv envNamed
              eq_refl eq_refl) as [Hnone _].
  destruct (envfile_layer (H := externals) "/cache/envnamed" "example.com/envnamed" ()
              envNamed Hne eq_refl) as [_ Hnamed].
  destruct (Hnamed [] [] (primary "envnamed") (primary "envnamed") (started "envnamed")
              (started "envnamed") eq_refl) as (_ & _ & Hnamed').
  destruct (Hnamed' "example.com/envnamed@sha256:e0"%string contentEnv envNamed
              eq_refl eq_refl) as [_ Hsome].
  destruct (Hsome ".env"%string eq_refl) as [_ Hwritten].
  destruct (envfile_layer (H := externals) "/cache/two" "example.com/two" ()
              nested Hne eq_refl) as [_ Hnested].
  destruct (Hnested [] [yaml1] (primary "two") (primary "two") (started "two")
              (started "two") eq_refl) as (_ & _ & Hnested').
  destruct (Hnested' "example.com/two@sha256:e0"%string contentEnv envNamed
              eq_refl eq_refl) as [_ Hdeep].
  destruct (Hdeep "conf/.env"%string eq_refl) as [Hrefused _].
  destruct (envfile_layer (H := externals) "/cache/two" "example.com/two" ()
              envLost Hne eq_refl) as [_ Hlost].
  destruct (Hlost [] [yaml1] (primary "two") (primary "two") (started "two")
              (started "two") eq_refl) as (_ & Hunfetched & _).
  split; [apply Hmissing|]. split; [exact (Hnone eq_refl)|]. split; [|split].
  - apply (Hwritten {| fname := "/cache/envnamed/.env"; offset := 0 |}
             (os_Create "/cache/envnamed/.env"
                (log_get "example.com/envnamed@sha256:e0" (started "envnamed"))).2).
    reflexivity.
  - apply (Hrefused _ (log_get "example.com/two@sha256:e0" (started "two"))).
    vm_compute. reflexivity.
  - apply (Hunfetched "example.com/two@sha256:ff"%string); reflexivity.
Defined.

(** C6 as the specification words it fails both ways.  An env-file layer
    without the annotation whose blob the registry does not have ends
    materialization with the resolver's error, not with the
    missing-annotation error.  And an env-file layer whose annotation names
    a file in a directory of its own is not written: nothing makes that
    directory, and materialization ends with the error of [os.Create]. *)
Lemma envfile_layer_counterexample :
  MediaType envLost = ComposeEnvFileMediaType (Externals := externals)
  ∧ Annotations envLost !! "com.docker.compose.envfile" = None
  ∧ pullComposeFiles online "/cache/two" envLostManifest "example.com/two" () (world [])
    = (Err (LibError "not found"), log_get "example.com/two@sha256:ff" (started "two"))
  ∧ MediaType nested = ComposeEnvFileMediaType (Externals := externals)
  ∧ Annotations nested !! "com.docker.compose.envfile" = Some "conf/.env"%string
  ∧ Resolver_Get () "example.com/two@sha256:e0" = Success (contentEnv, envNamed)
  ∧ ∃ w', pullComposeFiles online "/cache/two" nestedManifest "example.com/two" () (world [])
          = (Err (PathError "open" "/cache/two/conf/.env" ENOENT), w')
          ∧ files w' !! "/cache/two/conf/.env" = None.
Proof.
  do 2 (split; [reflexivity|]). split; [vm_compute; reflexivity|].
  do 3 (split; [reflexivity|]).
  eexists. split; vm_compute; reflexivity.
Qed.

Lemma extends_layer_written_witness :
  let f := {| fname := "/cache/extends/compose.yaml"; offset := 12 |} in
  let w := (turns "/cache/extends" "example.com/extends" () 0 [yaml0]
              (primary "extends") (started "extends")).2 in
  (∃ w', pullLayer "/cache/extends" "example.com/extends" () 1 extends1 f w = (Ok f, w')
         ∧ files w' = <["/cache/extends/extra.yaml"%string := separator ++ content1]> (files w)
         ∧ dirs w' = dirs w
         ∧ pullLayers "/cache/extends" "example.com/extends" () 0
             ([yaml0] ++ extends1 :: []) (primary "extends") (started "extends")
           = pullLayers "/cache/extends" "example.com/extends" () 2 [] f w')
  ∧ pullLayers "/cache/nofile" "example.com/nofile" () 0
      ([] ++ noFile :: [yaml1]) (primary "nofile") (started "nofile")
    = (Err (PathError "open" "/cache/nofile" EISDIR),
       log_get "example.com/nofile@sha256:a1" (started "nofile")).
Proof.
  intros f w.
  destruct (extends_layer_written (H := externals) "/cache/extends" "example.com/extends" ()
              [yaml0] [] extends1 (primary "extends") f (started "extends") w
              eq_refl (ex_intro _ "true"%string eq_refl) eq_refl)
    as (_ & _ & Hfetched).
  destruct (Hfetched "example.com/extends@sha256:a1"%string content1 yaml1 eq_refl eq_refl)
    as (_ & _ & Hcreated).
  destruct (Hcreated {| fname := "/cache/extends/extra.yaml"; offset := 0 |}
              (os_Create "/cache/extends/extra.yaml"
                 (log_get "example.com/extends@sha256:a1" w)).2 eq_refl)
    as (w' & Hturn & Hfiles & Hdirs & _ & Hlead & Hloop).
  destruct (extends_layer_written (H := externals) "/cache/nofile" "example.com/nofile" ()
              [] [yaml1] noFile (primary "nofile") (primary "nofile") (started "nofile")
              (started "nofile") eq_refl (ex_intro _ "true"%string eq_refl) eq_refl)
    as (_ & _ & Hbare).
  destruct (Hbare "example.com/nofile@sha256:a1"%string content1 yaml1 eq_refl eq_refl)
    as (_ & Hisdir & _).
  split.
  - exists w'. split; [exact Hturn|]. split; [|split; [exact Hdirs | exact Hloop]].
    rewrite Hfiles. reflexivity.
  - apply Hisdir; [reflexivity | reflexivity | discriminate|].
    apply (bool_decide_eq_true_1 ("/cache/nofile"%string ∈ dirs (started "nofile"))).
    vm_compute. reflexivity.
Defined.

(** C2 as the spec words it fails for an extends layer at position 1 that
    names its file: materialization puts the separator before the layer's
    content in the layer's own file. *)
Lemma extends_layer_written_counterexample :
  Layers extendsManifest = [yaml0; extends1]
  ∧ MediaType extends1 = ComposeYAMLMediaType
  ∧ Annotations extends1 !! "com.docker.compose.extends" = Some "true"%string
  ∧ Annotations extends1 !! "com.docker.compose.file" = Some "extra.yaml"%string
  ∧ Resolver_Get () "example.com/extends@sha256:a1" = Success (content1, yaml1)
  ∧ ∃ w', pullComposeFiles online "/cache/extends" extendsManifest "example.com/extends" ()
            (world []) = (Ok (), w')
          ∧ files w' !! "/cache/extends/extra.yaml" = Some (separator ++ content1)
          ∧ files w' !! "/cache/extends/extra.yaml" ≠ Some content1.
Proof.
  repeat (split; [reflexivity|]).
  eexists. split; [vm_compute; reflexivity|].
  split; [vm_compute; reflexivity|]. vm_compute. discriminate.
Qed.

Lemma primary_file_two_layers_witness :
  (∃ w', pullComposeFiles online "/cache/two" twoManifest "example.com/two" () (world [])
         = (Ok (), w')
         ∧ files w' !! "/cache/two/compose.yaml" = Some (content0 ++ separator ++ content1))
  ∧ writeComposeFile yaml0 0 (primary "two") content0 (started "two")
    = File_Write (primary "two") content0 (started "two")
  ∧ writeComposeFile yamlBare 1 (primary "two") content1 (started "two")
    = File_Write (primary "two") content1 (started "two").
Proof.
  destruct (primary_file_two_layers (H := externals) "/cache/two" "example.com/two" ())
    as [Htwo Hplain].
  split; [|split].
  - destruct (Htwo online twoManifest yaml0 yaml1 (world [])
                (os_MkdirAll "/cache/two" (world [])).2 (started "two") (primary "two")
                "example.com/two@sha256:a0"%string "example.com/two@sha256:a1"%string
                content0 content1 yaml0 yaml1
                eq_refl eq_refl eq_refl eq_refl eq_refl eq_refl eq_refl
                (ex_intro _ "compose.yaml"%string eq_refl)
                (ex_intro _ "compose.yaml"%string eq_refl)
                eq_refl eq_refl eq_refl eq_refl)
      as (f' & w' & _ & Hfile & _ & _ & Hall).
    exists w'. split; [exact (Hall eq_refl) | exact Hfile].
  - apply Hplain. left. reflexivity.
  - apply Hplain. right. reflexivity.
Defined.

Lemma failed_materialization_removed_witness :
  (∃ w', Load online "oci://example.com/image" (world [])
         = (Err (NotComposeArtifact "example.com/image" "application/vnd.oci.image"), w')
         ∧ IsNotExist (stat w' "/cache/image") = true
         ∧ known w' !! "oci://example.com/image" = None
         ∧ Load online "oci://example.com/image" w'
           = afterPull "oci://example.com/image" "/cache/image"
               (pullComposeFiles online "/cache/image" imageManifest "example.com/image" ()
                  (log_get "example.com/image" w')))
  ∧ (∃ w', Load online "oci://example.com/lost" (world [])
           = (Err (LibError "not found"), w')
           ∧ IsNotExist (stat w' "/cache/lost") = true
           ∧ known w' !! "oci://example.com/lost" = None)
  ∧ (∃ w', Load online "oci://example.com/envbare" (world [])
           = (Err (MissingEnvfile "sha256:e0"), w')
           ∧ IsNotExist (stat w' "/cache/envbare") = true
           ∧ known w' !! "oci://example.com/envbare" = None)
  ∧ (∃ w', Load online "oci://example.com/nofile" (world [])
           = (Err (PathError "open" "/cache/nofile" EISDIR), w')
           ∧ IsNotExist (stat w' "/cache/nofile") = true
           ∧ known w' !! "oci://example.com/nofile" = None).
Proof.
  split; [|split; [|split]].
  - destruct (failed_materialization_removed (H := externals) online
                "oci://example.com/image" "example.com/image" "example.com/image" ()
                (list_byte_of_string "image") (top "image").2 "/cache" "image"
                eq_refl eq_refl eq_refl eq_refl eq_refl eq_refl eq_refl
                imageManifest (world [])
                (pullComposeFiles online "/cache/image" imageManifest "example.com/image" ()
                   (log_get "example.com/image" (world []))).2
                (NotComposeArtifact "example.com/image" "application/vnd.oci.image")
                eq_refl eq_refl eq_refl eq_refl eq_refl)
      as (w' & HL & _ & Hgone & Hknown & Hagain).
    exists w'. repeat split; assumption.
  - destruct (failed_materialization_removed (H := externals) online
                "oci://example.com/lost" "example.com/lost" "example.com/lost" ()
                (list_byte_of_string "lost") (top "lost").2 "/cache" "lost"
                eq_refl eq_refl eq_refl eq_refl eq_refl eq_refl eq_refl
                lostManifest (world [])
                (pullComposeFiles online "/cache/lost" lostManifest "example.com/lost" ()
                   (log_get "example.com/lost" (world []))).2
                (LibError "not found")
                eq_refl eq_refl eq_refl eq_refl eq_refl)
      as (w' & HL & _ & Hgone & Hknown & _).
    exists w'. repeat split; assumption.
  - destruct (failed_materialization_removed (H := externals) online
                "oci://example.com/envbare" "example.com/envbare" "example.com/envbare" ()
                (list_byte_of_string "envbare") (top "envbare").2 "/cache" "envbare"
                eq_refl eq_refl eq_refl eq_refl eq_refl eq_refl eq_refl
                envbareManifest (world [])
                (pullComposeFiles online "/cache/envbare" envbareManifest
                   "example.com/envbare" ()
                   (log_get "example.com/envbare" (world []))).2
                (MissingEnvfile "sha256:e0")
                eq_refl eq_refl eq_refl eq_refl eq_refl)
      as (w' & HL & _ & Hgone & Hknown & _).
    exists w'. repeat split; assumption.
  - destruct (failed_materialization_removed (H := externals) online
                "oci://example.com/nofile" "example.com/nofile" "example.com/nofile" ()
                (list_byte_of_string "nofile") (top "nofile").2 "/cache" "nofile"
                eq_refl eq_refl eq_refl eq_refl eq_refl eq_refl eq_refl
                nofileManifest (world [])
                (pullComposeFiles online "/cache/nofile" nofileManifest
                   "example.com/nofile" ()
                   (log_get "example.com/nofile" (world []))).2
                (PathError "open" "/cache/nofile" EISDIR)
                eq_refl eq_refl eq_refl eq_refl eq_refl)
      as (w' & HL & _ & Hgone & Hknown & _).
    exists w'. repeat split; assumption.
Defined.

Lemma memo_hit_witness :
  let w' := (Load online "oci://example.com/two" (world [])).2 in
  Load online "oci://example.com/two" (world []) = (Ok "/cache/two/compose.yaml", w')
  ∧ gets w' = ["example.com/two"; "example.com/two@sha256:a0"; "example.com/two@sha256:a1"]
  ∧ known (world []) ⊆ known w'
  ∧ Load online "oci://example.com/two" w' = (Ok "/cache/two/compose.yaml", w')
  ∧ ∃ local, known w' !! "oci://example.com/two" = Some local
             ∧ "/cache/two/compose.yaml" = Join local "compose.yaml".
Proof.
  intros w'.
  assert (Load online "oci://example.com/two" (world []) = (Ok "/cache/two/compose.yaml", w'))
    as HL by (vm_compute; reflexivity).
  destruct (memo_hit online "oci://example.com/two" (world []) w'
              (Ok "/cache/two/compose.yaml") HL) as (Hsub & _ & Hhit).
  destruct (Hhit _ eq_refl) as [Hagain Hentry].
  split; [exact HL|]. split; [vm_compute; reflexivity|]. split; [exact Hsub|].
  split; [exact Hagain|]. exact (Hentry eq_refl).
Defined.

(** C8 as the specification words it fails where the cache root is a file:
    [os.Stat] of the directory fails with [ENOTDIR], which [os.IsNotExist]
    does not take for a missing directory, so [Load] neither materializes
    the artifact nor returns an error.  It records the path and returns the
    name of a file that does not exist, in a directory that does not exist,
    having asked the resolver for the manifest alone. *)
Lemma memo_hit_counterexample :
  let path := "oci://example.com/two"%string in
  let w' := (Load online path jammed).2 in
  stat jammed "/cache/two" = Some (PathError "stat" "/cache/two" ENOTDIR)
  ∧ known jammed !! path = None
  ∧ Load online path jammed = (Ok "/cache/two/compose.yaml"%string, w')
  ∧ known w' !! path = Some "/cache/two"%string
  ∧ gets w' = ["example.com/two"%string]
  ∧ dirs w' = dirs jammed ∧ files w' = files jammed
  ∧ stat w' "/cache/two" = Some (PathError "stat" "/cache/two" ENOTDIR)
  ∧ files w' !! "/cache/two/compose.yaml" = None.
Proof.
  intros path w'. repeat split; vm_compute; reflexivity.
Qed.

Lemma Accept_scheme_witness :
  Accept online "oci://example.com/two" = true ∧ Accept online "https://example.com" = false.
Proof.
  split.
  - apply (Accept_scheme online "oci://example.com/two"). now exists "example.com/two"%string.
  - destruct (Accept online "https://example.com") eqn:Hacc; [|reflexivity].
    apply (Accept_scheme online "https://example.com") in Hacc as (rest & Hrest).
    discriminate Hrest.
Defined.

Lemma Dir_after_Load_witness :
  ∃ local, Dir online "oci://example.com/two"
             (Load online "oci://example.com/two" (world [])).2
           = (Ok local, (Load online "oci://example.com/two" (world [])).2)
           ∧ "/cache/two/compose.yaml"%string = Join local "compose.yaml".
Proof.
  apply (Dir_after_Load online "oci://example.com/two" "/cache/two/compose.yaml"
           (world []) _ eq_refl).
  vm_compute. reflexivity.
Defined.

Lemma Load_leaves_Dir_witness :
  env (Load online "oci://example.com/image" (world [])).2 = env (world [])
  ∧ (Dir online "oci://example.com/image"
       (Load online "oci://example.com/image" (world [])).2).1
    = (Dir online "oci://example.com/image" (world [])).1
  ∧ Dir (H := externals) {| dockerCli := (); offline := false |} "oci://example.com/image"
      (set_known ∅ (world []))
    = (Ok ""%string, set_known ∅ (world [])).
Proof.
  destruct (Load_leaves_Dir online "oci://example.com/image" (world [])
              (Load online "oci://example.com/image" (world [])).2
              (Err (NotComposeArtifact "example.com/image" "application/vnd.oci.image")))
    as (Henv & _ & Hown & Hnew).
  { vm_compute. reflexivity. }
  split; [exact Henv|]. split; [apply Hown; discriminate|].
  apply (Hnew () false (world [])). reflexivity.
Defined.

Lemma short_paths_stay_out_witness :
  long_keys (NewOCIRemoteLoader (H := externals) () false (world [(OCI_REMOTE_ENABLED, "1")])).2
  ∧ Load online "oci:/" (NewOCIRemoteLoader (H := externals) () false (world [(OCI_REMOTE_ENABLED, "1")])).2
    = (Panic "slice bounds out of range",
       (NewOCIRemoteLoader (H := externals) () false (world [(OCI_REMOTE_ENABLED, "1")])).2).
Proof.
  destruct (short_paths_stay_out online "oci:/"
              (NewOCIRemoteLoader (H := externals) () false (world [(OCI_REMOTE_ENABLED, "1")])).2)
    as (Hnew & _ & Hpanic).
  split; [apply Hnew|]. apply Hpanic; [apply Hnew | simpl; lia | reflexivity | reflexivity].
Defined.

Lemma Load_fails_early_witness :
  Load online "oci://" (world []) = (Err (LibError "invalid reference format"), world [])
  ∧ Load unconfigured "oci://example.com/two" (world [])
    = (Err (LibError "no configuration"), world [])
  ∧ Load online "oci://example.com/none" (world [])
    = (Err (LibError "not found"), log_get "example.com/none" (world []))
  ∧ Load configured "oci://example.com/two" (world [])
    = (Err (CacheInit (LibError "no home directory")), log_get "example.com/two" (world [])).
Proof.
  split; [|split; [|split]].
  - apply (Load_fails_early (H := externals) online "oci://" "" (world [])
             eq_refl eq_refl eq_refl eq_refl). reflexivity.
  - apply (Load_fails_early (H := offgrid) unconfigured "oci://example.com/two"
             "example.com/two" (world []) eq_refl eq_refl eq_refl eq_refl)
      with (ref := "example.com/two"%string); reflexivity.
  - apply (Load_fails_early (H := externals) online "oci://example.com/none"
             "example.com/none" (world []) eq_refl eq_refl eq_refl eq_refl)
      with (ref := "example.com/none"%string) (resolver := ()); reflexivity.
  - apply (Load_fails_early (H := offgrid) configured "oci://example.com/two"
             "example.com/two" (world []) eq_refl eq_refl eq_refl eq_refl)
      with (ref := "example.com/two"%string) (resolver := ()) (got := top "two");
      reflexivity.
Defined.

Lemma Load_warm_directory_witness :
  Load online "oci://example.com/two" warm
  = (Ok "/cache/two/compose.yaml"%string,
     set_known (<["oci://example.com/two"%string := "/cache/two"%string]> (known warm))
       (log_get "example.com/two" warm)).
Proof.
  apply (Load_warm_directory (H := externals) online "oci://example.com/two"
           "example.com/two" "example.com/two" () (list_byte_of_string "two")
           (top "two").2 "/cache" "two" warm
           eq_refl eq_refl eq_refl eq_refl eq_refl eq_refl eq_refl eq_refl eq_refl).
  vm_compute. reflexivity.
Defined.

Lemma Load_undecodable_manifest_witness :
  Load online "oci://example.com/two@sha256:a0" (world [])
  = (Err (LibError "invalid character"), log_get "example.com/two@sha256:a0" (world [])).
Proof.
  apply (Load_undecodable_manifest (H := externals) online
           "oci://example.com/two@sha256:a0" "example.com/two@sha256:a0"
           "example.com/two@sha256:a0" () content0 yaml0 "/cache" "a0" (world [])
           eq_refl eq_refl eq_refl eq_refl eq_refl eq_refl eq_refl eq_refl eq_refl).
  - vm_compute. reflexivity.
  - vm_compute. reflexivity.
Defined.


Lemma layer_fetch_failure_witness :
  pullLayers "/cache/two" "example.com/two" () 0 ([] ++ badDigest :: [yaml1])
    (primary "two") (started "two")
  = (Err (LibError "invalid digest format"), started "two")
  ∧ pullLayers "/cache/lost" "example.com/lost" () 0 ([] ++ lostLayer :: [yaml1])
      (primary "lost") (started "lost")
    = (Err (LibError "not found"), log_get "example.com/lost@sha256:ff" (started "lost")).
Proof.
  split.
  - apply (layer_fetch_failure (H := externals) "/cache/two" "example.com/two" ()
             [] [yaml1] badDigest (primary "two") (primary "two") (started "two")
             (started "two") eq_refl).
    reflexivity.
  - apply (layer_fetch_failure (H := externals) "/cache/lost" "example.com/lost" ()
             [] [yaml1] lostLayer (primary "lost") (primary "lost") (started "lost")
             (started "lost") eq_refl)
      with (digested := "example.com/lost@sha256:ff"%string); reflexivity.
Defined.

Lemma pullComposeFiles_only_adds_witness :
  let w' := (pullComposeFiles online "/cache/envbare" envbareManifest
               "example.com/envbare" () (world [])).2 in
  env w' = env (world []) ∧ known w' = known (world [])
  ∧ dirs (world []) ⊆ dirs w'
  ∧ (∀ p, is_Some (files (world []) !! p) → is_Some (files w' !! p))
  ∧ ∃ n asked, (n ≤ length (Layers envbareManifest))%nat
               ∧ Forall2 (λ layer r, layerRef (H := externals) "example.com/envbare" layer
                                     = Some r)
                         (take n (Layers envbareManifest)) asked
               ∧ gets w' = gets (world []) ++ asked.
Proof.
  intros w'.
  apply (pullComposeFiles_only_adds (H := externals) online "/cache/envbare"
           envbareManifest "example.com/envbare" () (world []) w'
           (Err (MissingEnvfile "sha256:e0"))).
  vm_compute. reflexivity.
Defined.

Lemma pullComposeFiles_fetches_in_order_witness :
  gets (pullComposeFiles online "/cache/two" mixedManifest "example.com/two" ()
          (world [])).2
  = gets (world []) ++ layerRefs "example.com/two" (Layers mixedManifest)
  ∧ length (layerRefs (H := externals) "example.com/two" (Layers mixedManifest))
    = length (Layers mixedManifest).
Proof.
  apply (pullComposeFiles_fetches_in_order (H := externals) online "/cache/two"
           mixedManifest "example.com/two" () (world [])).
  vm_compute. reflexivity.
Defined.

Lemma refused_manifest_leaves_directory_witness :
  let w2 := started "image" in
  pullComposeFiles online "/cache/image" imageManifest "example.com/image" () (world [])
  = (Err (NotComposeArtifact "example.com/image" "application/vnd.oci.image"), w2)
  ∧ stat w2 "/cache/image" = None
  ∧ files w2 !! "/cache/image/compose.yaml" = Some [].
Proof.
  intros w2.
  apply (refused_manifest_leaves_directory (H := externals) online "/cache/image"
           imageManifest "example.com/image" () (world [])
           (os_MkdirAll "/cache/image" (world [])).2 w2 (primary "image")
           eq_refl eq_refl eq_refl).
Defined.

Lemma extends_without_file_witness :
  dispatchLayer "/cache/nofile" 0 noFile (primary "nofile") content1 (started "nofile")
  = (Err (PathError "open" "/cache/nofile" EISDIR), started "nofile").
Proof.
  apply (extends_without_file (H := externals) "/cache/nofile" 0 noFile (primary "nofile")
           content1 (started "nofile") eq_refl (ex_intro _ "true"%string eq_refl)
           eq_refl eq_refl).
  - discriminate.
  - apply (bool_decide_eq_true_1 ("/cache/nofile"%string ∈ dirs (started "nofile"))).
    vm_compute. reflexivity.
Defined.

Lemma primary_file_is_stream_witness :
  files (pullComposeFiles online "/cache/two" mixedManifest "example.com/two" ()
           (world [])).2 !! "/cache/two/compose.yaml"
  = Some (separator ++ content0 ++ separator ++ content1).
Proof.
  assert (stream (H := externals) "example.com/two" () 0 (Layers mixedManifest)
          = separator ++ content0 ++ separator ++ content1) as <-
    by (vm_compute; reflexivity).
  apply (primary_file_is_stream (H := externals) "/cache/two" "example.com/two" ()
           online mixedManifest (world [])).
  - cbv [mixedManifest manifest Layers].
    repeat apply List.Forall_cons; try apply List.Forall_nil;
      intros Heq; vm_compute in Heq; discriminate Heq.
  - vm_compute. reflexivity.
Defined.

Lemma extends_layer_replaces_primary_witness :
  let f := {| fname := "/cache/two/compose.yaml"; offset := 12 |} in
  let w := (turns "/cache/two" "example.com/two" () 0 [yaml0]
              (primary "two") (started "two")).2 in
  files w !! "/cache/two/compose.yaml" = Some content0
  ∧ ∃ w', pullLayer "/cache/two" "example.com/two" () 1 clash f w = (Ok f, w')
          ∧ files w' !! "/cache/two/compose.yaml" = Some (separator ++ contentEnv).
Proof.
  intros f w. split; [vm_compute; reflexivity|].
  apply (extends_layer_replaces_primary (H := externals) "/cache/two" "example.com/two" ()
           1 clash f (primary "two") w
           (os_Create "/cache/two/compose.yaml"
              (log_get "example.com/two@sha256:e0" w)).2
           "example.com/two@sha256:e0"%string contentEnv envNamed
           eq_refl (ex_intro _ "true"%string eq_refl) eq_refl eq_refl eq_refl).
  vm_compute. reflexivity.
Defined.

Lemma primary_layer_written_at_offset_witness :
  let f := {| fname := "/cache/two/compose.yaml"; offset := 12 |} in
  let w := (turns "/cache/two" "example.com/two" () 0 [yaml0; clash]
              (primary "two") (started "two")).2 in
  ∃ f' w', pullLayer "/cache/two" "example.com/two" () 2 yaml1 f w = (Ok f', w')
           ∧ files w' !! "/cache/two/compose.yaml"
             = Some ((separator ++ contentEnv) ++ [x00; x00; x00; x00]
                     ++ separator ++ content1)
           ∧ f' = {| fname := "/cache/two/compose.yaml"; offset := 28 |}.
Proof.
  intros f w.
  apply (primary_layer_written_at_offset (H := externals) "/cache/two" "example.com/two" ()
           2 yaml1 f w "example.com/two@sha256:a1"%string content1 yaml1
           (separator ++ contentEnv) eq_refl eq_refl eq_refl).
  - vm_compute. reflexivity.
  - simpl. lia.
Defined.

Lemma Load_materialized_exists_witness :
  ∃ w', Load online "oci://example.com/two" (world [])
        = (Ok "/cache/two/compose.yaml"%string, w')
        ∧ stat w' "/cache/two" = None
        ∧ is_Some (files w' !! "/cache/two/compose.yaml")
        ∧ Dir online "oci://example.com/two" w' = (Ok "/cache/two"%string, w').
Proof.
  apply (Load_materialized_exists (H := externals) online "oci://example.com/two"
           "example.com/two" "example.com/two" () (list_byte_of_string "two")
           (top "two").2 "/cache" "two" (world [])
           eq_refl eq_refl eq_refl eq_refl eq_refl eq_refl eq_refl eq_refl eq_refl
           twoManifest
           (pullComposeFiles online "/cache/two" twoManifest "example.com/two" ()
              (log_get "example.com/two" (world []))).2).
  - vm_compute. reflexivity.
  - vm_compute. reflexivity.
  - vm_compute. reflexivity.
Defined.


Lemma Load_panics_only_witness :
  ((String.length "oci:/" < String.length OciPrefix)%nat
   ∧ "slice bounds out of range"%string = "slice bounds out of range"%string
   ∧ world [] = world [])
  ∨ "slice bounds out of range"%string = "no ':' separator in digest"%string.
Proof.
  apply (Load_panics_only (H := externals) online "oci:/" (world []) (world [])).
  vm_compute. reflexivity.
Defined.

Lemma Load_memo_is_not_rechecked_witness :
  Load online "oci://example.com/two"
    (os_RemoveAll "/cache/two" (Load online "oci://example.com/two" (world [])).2).2
  = (Ok "/cache/two/compose.yaml"%string,
     (os_RemoveAll "/cache/two" (Load online "oci://example.com/two" (world [])).2).2).
Proof.
  apply (Load_memo_is_not_rechecked (H := externals) online "oci://example.com/two"
           "/cache/two/compose.yaml" "/cache/two" (world []) _ eq_refl).
  vm_compute. reflexivity.
Defined.


Lemma layer_file_needs_its_directory_witness :
  dirs (turns (H := externals) "/cache/two" "example.com/two" () 0 [yaml0]
          (primary "two") (started "two")).2
  = dirs (started "two")
  ∧ ∃ errno,
      pullLayers (H := externals) "/cache/two" "example.com/two" () 0 [yaml0; nested; yaml1]
        (primary "two") (started "two")
      = (Err (PathError "open" "/cache/two/conf/.env" errno),
         log_get "example.com/two@sha256:e0"
           (turns (H := externals) "/cache/two" "example.com/two" () 0 [yaml0]
              (primary "two") (started "two")).2).
Proof.
  apply (layer_file_needs_its_directory (H := externals) "/cache/two" "example.com/two" ()
           [yaml0] [yaml1] nested (primary "two")
           {| fname := fname (primary "two"); offset := 12 |}
           (started "two") _ "/cache/two/conf/.env" "/cache/two/conf"
           "example.com/two@sha256:e0" contentEnv envNamed).
  - vm_compute. reflexivity.
  - vm_compute. reflexivity.
  - vm_compute. reflexivity.
  - vm_compute. set_solver.
  - vm_compute. reflexivity.
  - vm_compute. reflexivity.
Defined.
